(** * USB transport of the BitBox wallet backend

    A shallow embedding of [backend/devices/usb/communication.go]: the
    U2F-HID style framing ([sendFrame], [readFrame]), the bootloader
    transport ([SendBootloader]), the censoring of logged commands
    ([hideValues], [logCensoredCmd]) and the JSON level operations
    ([SendPlain], [maybeDBBErr], [SendEncrypt]).

    Conventions.
    - A Go [[]byte] and a Go [string] are lists of [Byte.byte].  Go [int]s
      (lengths, report sizes, counters) are [Z]; the configured report sizes
      may be any integer, as in the source.
    - The [io.ReadWriteCloser] is a state machine ([Device]); its methods
      thread the device state explicitly.
    - A method of [*Communication] is a function in the monad [M Communication]:
      it receives the receiver and returns its updated copy together with a
      [result]: a normal return, a returned [error], a [panic], or the
      exhaustion of the fuel that bounds the loops whose exit depends on
      the device.
    - Values decoded by [encoding/json] into [interface{}] are the inductive
      [value]; a Go [map[string]interface{}] is a [gmap string value]. *)

From Stdlib Require Import ZArith Lia Floats.
From Stdlib.Strings Require Import Byte.
From stdpp Require Import gmap strings list fin_maps.

Open Scope string_scope.
Open Scope list_scope.
Open Scope Z_scope.

(** ** Bytes and fixed width integers *)

(** Go's conversion [uint8(x)]: truncation to the low 8 bits. *)
Definition uint8 (x : Z) : byte :=
  default "000"%byte (Byte.of_N (Z.to_N (x mod 256))).

(** Go's conversion [int(b)] of a byte. *)
Definition int (b : byte) : Z := Z.of_N (Byte.to_N b).

#[global] Instance byte_eq_dec : EqDecision byte.
Proof.
  intros a b. destruct (decide (Byte.to_N a = Byte.to_N b)) as [H | H].
  - left. pose proof (Byte.of_to_N a) as Ha. rewrite H, Byte.of_to_N in Ha.
    congruence.
  - right. intros ->. exact (H eq_refl).
Defined.

(** [binary.Write(w, binary.BigEndian, uint16(x))] and the [uint32] variant.
    Writing a fixed size integer into a [bytes.Buffer] cannot fail, hence the
    error branches that follow these calls in the source are dead. *)
Definition be16 (x : Z) : list byte :=
  [uint8 (Z.shiftr x 8); uint8 x].

Definition be32 (x : Z) : list byte :=
  [uint8 (Z.shiftr x 24); uint8 (Z.shiftr x 16); uint8 (Z.shiftr x 8); uint8 x].

(** [read[i]] for an index known to be in range ([x00] otherwise). *)
Definition at_ (l : list byte) (i : nat) : byte := default "000"%byte (l !! i).

Definition hwwCID : Z := 0xff000000.
Definition u2fHIDTypeInit : Z := 0x80.
Definition u2fHIDVendorFirst : Z := Z.lor u2fHIDTypeInit 0x40.
Definition hwwCMD : Z := Z.lor u2fHIDVendorFirst 0x01.

(** The filler byte [0xee] of [sendFrame]. *)
Definition filler : byte := "238"%byte.

(** ** JSON values as decoded by [encoding/json] into [interface{}] *)

#[warnings="-register-all"]
Inductive value : Type :=
| VNil
| VBool (b : bool)
| VNumber (f : float)
| VString (s : string)
| VArray (l : list value)
| VObject (m : gmap string value).

(** ** Errors *)

Inductive context : Type :=
| CtxReply (reply : list byte)
| CtxReplyMap (reply : gmap string value).

(** Modelled from the spec: [bitbox.NewError] (package [backend/devices/bitbox])
    builds the typed device error [DeviceError{code, message}]; it is the
    constructor [DBBErr].  The other constructors are the error values and
    wrappers of [errors], [pkg/errors] and [util/errp] used by the source,
    [CommunicationErr] is the conversion to the type of that name, [ErrLib]
    is an error of one of the outside packages and [ErrDevice] an error
    reported by the device's own methods. *)
Inductive error : Type :=
| ErrDevice (what : string)
| ErrNew (msg : string)
| ErrNewf (format : string) (args : list Z)
| ErrLib (pkg : string) (msg : string)
| WithStack (e : error)
| WithMessage (e : error) (msg : string)
| Wrap (e : error) (msg : string)
| WithContext (e : error) (ctx : context)
| CommunicationErr (e : error)
| DBBErr (message : string) (code : float).

Inductive result (A : Type) : Type :=
| Ok (a : A)
| Err (e : error)
| Panic (msg : string)
| OutOfFuel.
Arguments Ok {A} a.
Arguments Err {A} e.
Arguments Panic {A} msg.
Arguments OutOfFuel {A}.

(** ** The state and error monad of the methods *)

Definition M (W A : Type) : Type := W -> result A * W.

Definition ret {W A} (a : A) : M W A := fun w => (Ok a, w).
Definition fail {W A} (e : error) : M W A := fun w => (Err e, w).
Definition panic {W A} (msg : string) : M W A := fun w => (Panic msg, w).
Definition diverge {W A} : M W A := fun w => (OutOfFuel, w).

Definition bind {W A B} (m : M W A) (k : A -> M W B) : M W B :=
  fun w =>
    match m w with
    | (Ok a, w') => k a w'
    | (Err e, w') => (Err e, w')
    | (Panic msg, w') => (Panic msg, w')
    | (OutOfFuel, w') => (OutOfFuel, w')
    end.

Notation "'let*' x := m 'in' k" := (bind m (fun x => k))
  (at level 10, x name, m at level 200, k at level 200, only parsing).

(** ** Logging *)

Inductive Level : Type := PanicLevel | ErrorLevel | InfoLevel | DebugLevel.

Inductive field : Type :=
| FBytes (b : list byte)
| FInt (n : Z)
| FError (e : error).

Record Entry : Type := mkEntry {
  entry_level : Level;
  entry_fields : list (string * field);
  entry_message : string
}.

(** ** The device: an [io.ReadWriteCloser]

    [dev_Read cap] is [Read(p)] with [len(p) = cap]: it returns the bytes
    [p[:n]] that were read (so [n] is their number, at most [cap] by the
    contract of [io.Reader]) or an error. [dev_Write] ignores the count that
    [Write] returns, as the source does. *)
Record Device (St : Type) : Type := mkDevice {
  dev_Write : list byte -> St -> option error * St;
  dev_Read : nat -> St -> (error + list byte) * St;
  dev_Close : St -> option error * St
}.
Arguments dev_Write {St} _ _ _.
Arguments dev_Read {St} _ _ _.
Arguments dev_Close {St} _ _.

(** [bytes.Buffer.Next(n)]: the next [n] bytes (all of them if fewer remain)
    and the buffer after them. A negative [n] makes the slice expression
    [b.buf[b.off : b.off+n]] panic. *)
Definition Next (n : Z) (buf : list byte) : option (list byte * list byte) :=
  if n <? 0 then None
  else Some (take (Z.to_nat n) buf, drop (Z.to_nat n) buf).

(** [bytes.TrimRight(s, cutset)] for a cutset of ASCII bytes. *)
Fixpoint TrimRight (s : list byte) (cutset : list byte) : list byte :=
  match s with
  | [] => []
  | b :: s' =>
      match TrimRight s' cutset with
      | [] => if bool_decide (b ∈ cutset) then [] else [b]
      | t => b :: t
      end
  end.

(** ** What the source takes from outside

    The packages the source calls and the two facts about the process it
    consults. Nothing is assumed about them.
    - [json_Unmarshal] is [json.Unmarshal(msg, &m)] for an empty
      [m : map[string]interface{}], [json_Marshal] is [json.Marshal] of such a
      map. A nil map and an empty map are both [∅]: the source only reads
      and ranges over them.
    - [trimSpaceNul] is [bytes.TrimRightFunc] with the predicate
      [unicode.IsSpace(r) || r == 0].
    - [DoubleHashB] is [chainhash.DoubleHashB]; [Encrypt] and [Decrypt] are
      those of [util/crypto]; the base64 functions are those of
      [base64.StdEncoding].
    - [debugLevel] is [logging.Get().Level >= logrus.DebugLevel] and
      [windows] is [runtime.GOOS == "windows"]. *)
Record Externals : Type := mkExternals {
  json_Unmarshal : list byte -> error + gmap string value;
  json_Marshal : gmap string value -> error + list byte;
  trimSpaceNul : list byte -> list byte;
  DoubleHashB : list byte -> list byte;
  Encrypt : list byte -> list byte -> error + list byte;
  Decrypt : list byte -> list byte -> error + list byte;
  base64_EncodeToString : list byte -> list byte;
  base64_DecodeString : list byte -> error + list byte;
  debugLevel : bool;
  windows : bool
}.

(** ** Censoring and the error envelope *)

(** What the loop of [hideValues] leaves under a key whose value was [v]. *)
Fixpoint hideValue (v : value) : value :=
  match v with
  | VObject value => VObject (hideValue <$> value)
  | _ => VString "****"
  end.

(** [hideValues] updates every entry of [cmd] in place; updating the value
    of an existing key while ranging over a map visits every key once. The
    maps it is called on are freshly decoded trees, so that the updated map
    is the only view of the result. *)
Definition hideValues (cmd : gmap string value) : gmap string value :=
  hideValue <$> cmd.

Definition maybeDBBErr (jsonResult : gmap string value) : option error :=
  match jsonResult !! "error" with
  | Some (VObject errMap) =>
      match errMap !! "message" with
      | Some (VString errMsg) =>
          match errMap !! "code" with
          | Some (VNumber errCode) => Some (DBBErr errMsg errCode)
          | _ => Some (WithContext (ErrNew "Unexpected reply") (CtxReplyMap errMap))
          end
      | _ => Some (WithContext (ErrNew "Unexpected reply") (CtxReplyMap errMap))
      end
  | _ => None
  end.

Section Transport.
Context {St : Type} (dev : Device St) (ext : Externals).

(** The struct [Communication]. The field [device] holds the state of the
    device behind the [io.ReadWriteCloser], [mutex] whether the lock is
    held, [log] the entries emitted through the logger so far. *)
Record Communication : Type := mkCommunication {
  device : St;
  mutex : bool;
  log : list Entry;
  usbWriteReportSize : Z;
  usbReadReportSize : Z
}.

Definition NewCommunication (d : St) (usbWriteReportSize usbReadReportSize : Z)
  : Communication :=
  mkCommunication d false [] usbWriteReportSize usbReadReportSize.

Definition set_device (c : Communication) (d : St) : Communication :=
  mkCommunication d (mutex c) (log c) (usbWriteReportSize c) (usbReadReportSize c).

Definition set_mutex (c : Communication) (b : bool) : Communication :=
  mkCommunication (device c) b (log c) (usbWriteReportSize c) (usbReadReportSize c).

Definition add_log (e : Entry) : M Communication unit :=
  fun c => (Ok tt, mkCommunication (device c) (mutex c) (log c ++ [e])
                     (usbWriteReportSize c) (usbReadReportSize c)).

(** [communication.device.Write(buf)] *)
Definition Write (buf : list byte) : M Communication (option error) :=
  fun c => let (err, d) := dev_Write dev buf (device c) in (Ok err, set_device c d).

(** [make([]byte, n)] followed by [communication.device.Read(read)];
    [make] panics for a negative length. *)
Definition Read (n : Z) : M Communication (error + list byte) :=
  fun c =>
    if n <? 0 then (Panic "makeslice: len out of range", c)
    else let (r, d) := dev_Read dev (Z.to_nat n) (device c) in (Ok r, set_device c d).

(** [Close]. The entry logged on a failure carries the error, whose text is
    its message. *)
Definition Close : M Communication unit :=
  fun c =>
    let (err, d) := dev_Close dev (device c) in
    match err with
    | Some e =>
        (let* _ := add_log (mkEntry PanicLevel [("error", FError e)] "close failed") in
         panic "close failed") (set_device c d)
    | None => (Ok tt, set_device c d)
    end.

(** *** [sendFrame] *)

(** The closure [send] of [sendFrame]; it returns what is left of
    [readFrom]. *)
Definition send (header : list byte) (readFrom : list byte)
  : M Communication (list byte) :=
  fun c =>
    let buf := header in
    match Next (usbWriteReportSize c - Z.of_nat (length buf)) readFrom with
    | None => (Panic "slice bounds out of range", c)
    | Some (chunk, rest) =>
        let buf := buf ++ chunk in
        let buf :=
          buf ++ replicate (Z.to_nat (usbWriteReportSize c - Z.of_nat (length buf))) filler in
        (let* err := Write buf in
         match err with
         | Some e => fail (WithMessage (WithStack e) "Failed to send message")
         | None => ret rest
         end) c
    end.

(** The loop [for seq := 0; readBuffer.Len() > 0; seq++] of continuation
    frames. *)
Fixpoint sendCont (fuel : nat) (seq : Z) (readBuffer : list byte)
  : M Communication unit :=
  if 0 <? Z.of_nat (length readBuffer) then
    match fuel with
    | O => diverge
    | S fuel' =>
        let header := be32 hwwCID ++ [uint8 seq] in
        let* rest := send header readBuffer in
        sendCont fuel' (seq + 1) rest
    end
  else ret tt.

(** The loop of continuation frames is only reached with a write size of
    at least 7, and then every continuation frame takes at least two bytes
    from the buffer: [length msg] iterations are enough (lemma
    [sendFrame_returns]). *)
Definition sendFrame (msg : list byte) : M Communication unit :=
  let dataLen := Z.of_nat (length msg) in
  if dataLen =? 0 then ret tt
  else
    let readBuffer := msg in
    let header := be32 hwwCID ++ [uint8 hwwCMD] ++ be16 (Z.land dataLen 0xFFFF) in
    let* rest := send header readBuffer in
    sendCont (length msg) 0 rest.

(** *** [readFrame] *)

(** The loop [for idx < dataLen] of [readFrame]; [size] is [len(read)]. *)
Fixpoint readCont (fuel : nat) (size idx dataLen : Z) (data : list byte)
  : M Communication (list byte) :=
  if idx <? dataLen then
    match fuel with
    | O => diverge
    | S fuel' =>
        let* r := Read size in
        match r with
        | inl err => fail (WithStack err)
        | inr read =>
            let readLen := Z.of_nat (length read) in
            if readLen <? 5 then fail (ErrNew "expected minimum read length of 7")
            else
              let data := data ++ drop 5 read in
              readCont fuel' size (idx + (readLen - 5)) dataLen data
        end
    end
  else ret data.

Definition readFrame (fuel : nat) : M Communication (list byte) :=
  fun c =>
    let size := usbReadReportSize c in
    (let* r := Read size in
     match r with
     | inl err => fail (WithStack err)
     | inr read =>
         let readLen := Z.of_nat (length read) in
         if readLen <? 7 then fail (ErrNew "expected minimum read length of 7")
         else if negb (int (at_ read 0) =? 0xff) || negb (int (at_ read 1) =? 0)
                 || negb (int (at_ read 2) =? 0) || negb (int (at_ read 3) =? 0)
         then fail (ErrNew "USB command ID mismatch")
         else if negb (int (at_ read 4) =? hwwCMD)
         then fail (ErrNewf "USB command frame mismatch (%d, expected %d)"
                     [int (at_ read 4); hwwCMD])
         else
           let dataLen := int (at_ read 5) * 256 + int (at_ read 6) in
           let data := drop 7 read in
           let idx := size - 7 in
           readCont fuel size idx dataLen data
     end) c.

(** *** The mutex

    [Lock] on a held mutex never returns in a sequential run. A deferred
    call runs when the function returns or panics. *)
Definition Lock : M Communication unit :=
  fun c => if mutex c then (OutOfFuel, c) else (Ok tt, set_mutex c true).

Definition Unlock (c : Communication) : Communication := set_mutex c false.

Definition defer {A} (deferred : Communication -> Communication)
    (body : M Communication A) : M Communication A :=
  fun c =>
    match body c with
    | (OutOfFuel, c') => (OutOfFuel, c')
    | (r, c') => (r, deferred c')
    end.

(** [err] replaced by [f(err)] on the error return of [m]. *)
Definition mapErr {A} (f : error -> error) (m : M Communication A)
  : M Communication A :=
  fun c =>
    match m c with
    | (Err e, c') => (Err (f e), c')
    | rc => rc
    end.

(** *** [SendBootloader] *)

Definition sendLen : Z := 4098.
Definition readLen : Z := 256.
Definition readPacketSize : Z := 64.

(** The loop [for written < sendLen]. *)
Fixpoint bootWrite (fuel : nat) (written : Z) (paddedMsg : list byte)
  : M Communication unit :=
  if written <? sendLen then
    match fuel with
    | O => diverge
    | S fuel' =>
        fun c =>
          match Next (usbWriteReportSize c) paddedMsg with
          | None => (Panic "slice bounds out of range", c)
          | Some (chunk, paddedMsg) =>
              let chunkLen := Z.of_nat (length chunk) in
              let chunk := if negb (windows ext) then "000"%byte :: chunk else chunk in
              (let* err := Write chunk in
               match err with
               | Some e => fail (WithStack e)
               | None => bootWrite fuel' (written + chunkLen) paddedMsg
               end) c
          end
    end
  else ret tt.

(** The loop [for read.Len() < readLen]. *)
Fixpoint bootRead (fuel : nat) (read : list byte) : M Communication (list byte) :=
  if Z.of_nat (length read) <? readLen then
    match fuel with
    | O => diverge
    | S fuel' =>
        fun c =>
          (let* r := Read (usbReadReportSize c) in
           match r with
           | inl err => fail (WithStack err)
           | inr currentRead => bootRead fuel' (read ++ currentRead)
           end) c
    end
  else ret read.

Definition SendBootloader (fuel : nat) (msg : list byte)
  : M Communication (list byte) :=
  let* _ := Lock in
  defer Unlock
    (if sendLen <? Z.of_nat (length msg) then
       let* _ := add_log (mkEntry PanicLevel
                    [("message-length", FInt (Z.of_nat (length msg)));
                     ("max-send-length", FInt sendLen)] "Message too long") in
       panic "Message too long"
     else
       let paddedMsg :=
         msg ++ replicate (Z.to_nat (sendLen - Z.of_nat (length msg))) "000"%byte in
       let* _ := bootWrite fuel 0 paddedMsg in
       let* read := bootRead fuel [] in
       ret (TrimRight read ["000"; "009"; "013"; "010"]%byte)).

(** *** [logCensoredCmd]

    It returns the Go [error] as a value, since its callers do not all
    propagate it. *)
Definition logCensoredCmd (msg : list byte) (receiving : bool)
  : M Communication (option error) :=
  if debugLevel ext then
    match json_Unmarshal ext msg with
    | inl _ => ret (Some (ErrNew "Failed to unmarshal message"))
    | inr cmd =>
        let cmd := hideValues cmd in
        match json_Marshal ext cmd with
        | inl err =>
            let* _ := add_log (mkEntry ErrorLevel [("error", FError err)]
                                 "Failed to censor message") in
            ret None
        | inr censoredMsg =>
            let direction := if receiving then "Receiving" else "Sending" in
            let* _ := add_log (mkEntry InfoLevel [("msg", FBytes censoredMsg)]
                                 (direction +:+ " message")) in
            ret None
        end
    end
  else ret None.

(** *** [SendPlain] *)

Definition SendPlain (fuel : nat) (msg : list byte)
  : M Communication (gmap string value) :=
  let* err := logCensoredCmd msg false in
  let* _ := match err with
            | Some _ => add_log (mkEntry DebugLevel [("msg", FBytes msg)]
                                   "Sending (encrypted) command")
            | None => ret tt
            end in
  let* _ := Lock in
  defer Unlock
    (let* _ := mapErr CommunicationErr (sendFrame msg) in
     let* reply := mapErr CommunicationErr (readFrame fuel) in
     let reply := trimSpaceNul ext reply in
     let* err := logCensoredCmd reply true in
     match err with
     | Some e => fail (WithContext e (CtxReply reply))
     | None =>
         match json_Unmarshal ext reply with
         | inl e => fail (Wrap e "Failed to unmarshal reply")
         | inr jsonResult =>
             match maybeDBBErr jsonResult with
             | Some e => fail e
             | None => ret jsonResult
             end
         end
     end).

(** *** [SendEncrypt] *)

Definition SendEncrypt (fuel : nat) (msg password : list byte)
  : M Communication (gmap string value) :=
  let* err := logCensoredCmd msg false in
  match err with
  | Some e => fail (WithMessage e "Invalid JSON passed. Continuing anyway")
  | None =>
      let secret := DoubleHashB ext password in
      match Encrypt ext msg secret with
      | inl e => fail (WithMessage e "Failed to encrypt command")
      | inr cipherText =>
          let* jsonResult :=
            mapErr (fun e => WithMessage e "Failed to send cipher text")
              (SendPlain fuel (base64_EncodeToString ext cipherText)) in
          let* jsonResult :=
            match jsonResult !! "ciphertext" with
            | Some (VString cipherText) =>
                match base64_DecodeString ext (String.list_byte_of_string cipherText) with
                | inl e => fail (WithMessage e "Failed to decode reply")
                | inr decodedMsg =>
                    match Decrypt ext decodedMsg secret with
                    | inl e => fail (WithMessage e "Failed to decrypt reply")
                    | inr plainText =>
                        let* err := logCensoredCmd plainText true in
                        match err with
                        | Some e => fail (WithContext e (CtxReply plainText))
                        | None =>
                            match json_Unmarshal ext plainText with
                            | inl e => fail (Wrap e "Failed to unmarshal reply")
                            | inr jsonResult => ret jsonResult
                            end
                        end
                    end
                end
            | _ => ret jsonResult
            end in
          match maybeDBBErr jsonResult with
          | Some e => fail e
          | None => ret jsonResult
          end
      end
  end.

End Transport.

Arguments Communication : clear implicits.
Arguments mkCommunication {St} _ _ _ _ _.
Arguments NewCommunication {St} _ _ _.

(** ** Devices *)

(** A HID pipe: the queue of the reports in flight. [Write] appends one
    report, [Read] takes the oldest one and copies as much of it as the
    buffer holds; an empty queue is reported as an error. *)
Definition Pipe : Device (list (list byte)) :=
  {| dev_Write := fun buf q => (None, q ++ [buf]);
     dev_Read := fun cap q =>
       match q with
       | [] => (inl (ErrDevice "EOF"), [])
       | report :: q' => (inr (take cap report), q')
       end;
     dev_Close := fun q => (None, q) |}.

(** A device that records the calls made on another device. *)
Inductive event : Type :=
| EvWrite (buf : list byte)
| EvRead (cap : nat) (r : error + list byte)
| EvClose.

Definition Recorder {St} (d : Device St) : Device (St * list event) :=
  {| dev_Write := fun buf '(s, tr) =>
       let (err, s') := dev_Write d buf s in (err, (s', tr ++ [EvWrite buf]));
     dev_Read := fun cap '(s, tr) =>
       let (r, s') := dev_Read d cap s in (r, (s', tr ++ [EvRead cap r]));
     dev_Close := fun '(s, tr) =>
       let (err, s') := dev_Close d s in (err, (s', tr ++ [EvClose])) |}.

(** The buffers written, in order. *)
Definition writes (tr : list event) : list (list byte) :=
  omap (fun ev => match ev with EvWrite buf => Some buf | _ => None end) tr.

(** * Auxiliary definitions *)

(** ** The frames of a message

    [frame n header chunk] is the buffer that [send] hands to the device;
    [frames n msg] lists the buffers of a whole message. *)

Definition frame (n : Z) (header chunk : list byte) : list byte :=
  (header ++ chunk)
    ++ replicate (Z.to_nat (n - Z.of_nat (length (header ++ chunk)))) filler.

Definition initHeader (dataLen : Z) : list byte :=
  be32 hwwCID ++ [uint8 hwwCMD] ++ be16 (Z.land dataLen 0xFFFF).

Definition contHeader (seq : Z) : list byte := be32 hwwCID ++ [uint8 seq].

Fixpoint contFrames (fuel : nat) (n seq : Z) (rb : list byte) : list (list byte) :=
  match rb with
  | [] => []
  | _ :: _ =>
      match fuel with
      | O => []
      | S fuel' =>
          frame n (contHeader seq) (take (Z.to_nat (n - 5)) rb)
            :: contFrames fuel' n (seq + 1) (drop (Z.to_nat (n - 5)) rb)
      end
  end.

Definition frames (n : Z) (msg : list byte) : list (list byte) :=
  frame n (initHeader (Z.of_nat (length msg))) (take (Z.to_nat (n - 7)) msg)
    :: contFrames (length msg) n 0 (drop (Z.to_nat (n - 7)) msg).

(** Writing buffers to a device, one after the other, up to the first error. *)
Fixpoint writeAll {St} (dev : Device St) (bufs : list (list byte)) (s : St)
  : option error * St :=
  match bufs with
  | [] => (None, s)
  | buf :: bufs' =>
      match dev_Write dev buf s with
      | (None, s') => writeAll dev bufs' s'
      | (Some e, s') => (Some e, s')
      end
  end.

Definition sent {St} (c : Communication St) (w : option error * St)
  : result unit * Communication St :=
  match w with
  | (None, s) => (Ok tt, set_device c s)
  | (Some e, s) => (Err (WithMessage (WithStack e) "Failed to send message"), set_device c s)
  end.

(** ** Concrete runs *)

(** A message of 520 bytes sent through a recorded pipe with reports of 7
    bytes: the init frame carries no payload byte and each of the 260
    continuation frames carries two. *)
Definition longMsg : list byte := replicate 520 "a"%byte.

Definition recordedPipe (n : Z) : Communication (list (list byte) * list event) :=
  NewCommunication ([], []) n n.

Definition longRun : result unit * Communication (list (list byte) * list event) :=
  sendFrame (Recorder Pipe) longMsg (recordedPipe 7).

(** Seven bytes sent with reports of 9 bytes. *)
Definition shortMsg : list byte := ["a"; "b"; "c"; "d"; "e"; "f"; "g"]%byte.

Definition shortRun : result unit * Communication (list (list byte) * list event) :=
  sendFrame (Recorder Pipe) shortMsg (recordedPipe 9).

Definition pipe (n : Z) : Communication (list (list byte)) := NewCommunication [] n n.

Definition oneByte : list byte := ["a"]%byte.

(** The bytes of a report that reach a read buffer of [n] bytes: [read[:readLen]]. *)
Definition received (n : Z) (report : list byte) : list byte :=
  take (Z.to_nat n) report.

(** The payload bytes of continuation reports: [readLen - 5] for each. *)
Definition contBytes (n : Z) (conts : list (list byte)) : Z :=
  foldr (fun report acc => Z.of_nat (length (received n report)) - 5 + acc) 0 conts.

(** The payload bytes accumulated over an init report and continuation
    reports. *)
Definition accumulated (n : Z) (init : list byte) (conts : list (list byte)) : Z :=
  Z.of_nat (length (received n init)) - 7 + contBytes n conts.

(** A reply of three bytes in one report of 64 bytes, zero padded by the
    device. *)
Definition replyReport : list byte :=
  ["255"; "000"; "000"; "000"; "193"; "000"; "003"; "a"; "b"; "c"]%byte
    ++ replicate 54 "000"%byte.

(** A reply of four bytes in two reports of 8 bytes. *)
Definition replyInit : list byte :=
  ["255"; "000"; "000"; "000"; "193"; "000"; "004"; "a"]%byte.

Definition replyCont : list byte :=
  ["255"; "000"; "000"; "000"; "000"; "b"; "c"; "d"]%byte.

Definition replyPipe : Communication (list (list byte)) :=
  NewCommunication [replyInit; replyCont] 8 8.

(** ** Censoring: the specification's reading and paths through objects *)

(** Redaction as a structural transformation of the JSON tree: every leaf
    replaced by the placeholder, arrays and objects kept. *)
Fixpoint redact (v : value) : value :=
  match v with
  | VObject m => VObject (redact <$> m)
  | VArray l => VArray (map redact l)
  | _ => VString "****"
  end.

(** The value reached from [v] along a path of keys through nested objects. *)
Fixpoint get (path : list string) (v : value) : option value :=
  match path with
  | [] => Some v
  | k :: path' =>
      match v with
      | VObject m =>
          match m !! k with
          | Some v' => get path' v'
          | None => None
          end
      | _ => None
      end
  end.

(** The command {a: {b: 1}, c: secret} and its censored form. *)
Definition cmdNested : gmap string value :=
  <["a" := VObject (<["b" := VNumber 1%float]> ∅)]> (<["c" := VString "secret"]> ∅).

Definition cmdNestedHidden : gmap string value :=
  <["a" := VObject (<["b" := VString "****"]> ∅)]> (<["c" := VString "****"]> ∅).

(** The command {a: [{b: 1}]}, with an object inside an array. *)
Definition cmdArray : gmap string value :=
  <["a" := VArray [VObject (<["b" := VNumber 1%float]> ∅)]]> ∅.

(** ** What a method leaves alone *)

Definition with_env {St} (c : Communication St) (mu : bool) (lg : list Entry)
  : Communication St :=
  mkCommunication (device c) mu lg (usbWriteReportSize c) (usbReadReportSize c).

(** [m] neither reads nor changes the mutex and the log. *)
Definition io_only {St A} (m : M (Communication St) A) : Prop :=
  forall (c : Communication St) (mu : bool) (lg : list Entry),
    m (with_env c mu lg) = (fst (m c), with_env (snd (m c)) mu lg).

(** [m] logs nothing and does not raise the panic of the size guard. *)
Definition quiet {St A} (m : M (Communication St) A) : Prop :=
  forall c : Communication St,
    log (snd (m c)) = log c /\ fst (m c) <> Panic "Message too long".

(** ** A device that answers with prepared reports *)

(** [Write] accepts every buffer; [Read] delivers the next prepared report. *)
Definition Replies : Device (list (list byte)) :=
  {| dev_Write := fun _ q => (None, q);
     dev_Read := fun cap q =>
       match q with
       | [] => (inl (ErrDevice "EOF"), [])
       | report :: q' => (inr (take cap report), q')
       end;
     dev_Close := fun q => (None, q) |}.

(** The bytes of a text in which ' stands for the double quote. *)
Definition jsonText (s : string) : list byte :=
  map (fun b => if bool_decide (b = "'"%byte) then "034"%byte else b)
      (String.list_byte_of_string s).

(** Stand-ins for the outside functions: a decoder that knows the texts of
    a table, identity functions for the cipher and the encoding. *)
Definition tableExternals (debug : bool) (table : list (list byte * gmap string value))
  : Externals :=
  {| json_Unmarshal := fun msg =>
       match list_find (fun entry => msg = entry.1) table with
       | Some (_, entry) => inr entry.2
       | None => inl (ErrLib "json" "invalid character")
       end;
     json_Marshal := fun _ => inr (jsonText "{}");
     trimSpaceNul := fun s => TrimRight s ["000"; "009"; "010"; "011"; "012"; "013"; " "]%byte;
     DoubleHashB := fun password => password;
     Encrypt := fun msg _ => inr msg;
     Decrypt := fun msg _ => inr msg;
     base64_EncodeToString := fun b => b;
     base64_DecodeString := fun s => inr s;
     debugLevel := debug;
     windows := false |}.

(** The init report of a reply of 64 bytes carrying [text], zero padded. *)
Definition replyOf (text : list byte) : list byte :=
  ["255"; "000"; "000"; "000"; "193"]%byte ++ be16 (Z.of_nat (length text)) ++ text
    ++ replicate (64 - 7 - length text) "000"%byte.

(** The reply {error: {code: 101, message: x}}. *)
Definition errText : list byte := jsonText "{'error':{'code':101,'message':'x'}}".
Definition errInner : gmap string value :=
  <["code" := VNumber 101%float]> (<["message" := VString "x"]> ∅).
Definition errReply : gmap string value := <["error" := VObject errInner]> ∅.

(** The reply {error: {message: x}}. *)
Definition noCodeText : list byte := jsonText "{'error':{'message':'x'}}".
Definition noCodeInner : gmap string value := <["message" := VString "x"]> ∅.
Definition noCodeReply : gmap string value := <["error" := VObject noCodeInner]> ∅.

(** The reply {error: busy}. *)
Definition strErrText : list byte := jsonText "{'error':'busy'}".
Definition strErrReply : gmap string value := <["error" := VString "busy"]> ∅.

(** The reply {ciphertext: [text of the reply {error: busy}]}. *)
Definition cipherText : list byte := jsonText "{'ciphertext':'...'}".
Definition cipherReply : gmap string value :=
  <["ciphertext" := VString (String.string_of_list_byte strErrText)]> ∅.

(** The command {ping: }. *)
Definition pingText : list byte := jsonText "{'ping':''}".
Definition pingCmd : gmap string value := <["ping" := VString String.EmptyString]> ∅.

Definition demoTable : list (list byte * gmap string value) :=
  [(errText, errReply); (noCodeText, noCodeReply); (strErrText, strErrReply);
   (cipherText, cipherReply); (pingText, pingCmd)].

Definition demo (debug : bool) : Externals := tableExternals debug demoTable.

Definition answering (reports : list (list byte)) : Communication (list (list byte)) :=
  NewCommunication reports 64 64.

(** A text that is not JSON. *)
Definition helloText : list byte := ["h"; "e"; "l"; "l"; "o"]%byte.

(** The state in which [SendEncrypt] calls [SendPlain] for the command
    {ping: } when the debug level is enabled: the censored command is
    logged. *)
Definition pingLogged (reports : list (list byte)) : Communication (list (list byte)) :=
  snd (logCensoredCmd (demo true) pingText false (answering reports)).

(** A bootloader request of 4099 bytes. *)
Definition tooLong : list byte := replicate 4099 "a"%byte.

Definition recordedReplies (n : Z) : Communication (list (list byte) * list event) :=
  NewCommunication ([], []) n n.

(** [v] contains no array, at any depth. *)
Fixpoint arrayFree (v : value) : bool :=
  match v with
  | VArray _ => false
  | VObject m => map_fold (fun _ v' acc => arrayFree v' && acc) true m
  | _ => true
  end.

(** The number of nodes of [v] below objects, a measure for induction. *)
Fixpoint depthSize (v : value) : nat :=
  match v with
  | VObject m => S (map_fold (fun _ v' acc => depthSize v' + acc)%nat 0%nat m)
  | _ => 1%nat
  end.

(** ** Further devices and views of a record of calls *)

(** A device that refuses every call. *)
Definition Refusing : Device unit :=
  {| dev_Write := fun _ s => (Some (ErrDevice "write refused"), s);
     dev_Read := fun _ s => (inl (ErrDevice "read refused"), s);
     dev_Close := fun s => (Some (ErrDevice "close refused"), s) |}.

(** The data of the reads that succeeded, in order. *)
Definition reads (tr : list event) : list (list byte) :=
  omap (fun ev => match ev with EvRead _ (inr data) => Some data | _ => None end) tr.

(** A packet of the bootloader protocol without the report ID put in front
    of it on platforms other than Windows. *)
Definition packetBody (ext : Externals) (packet : list byte) : list byte :=
  if windows ext then packet else drop 1 packet.

(** A report whose first five bytes are overwritten with [h]; a report
    shorter than a continuation header is left as it is. *)
Definition reheader (h report : list byte) : list byte :=
  if decide (5 <= length report)%nat then h ++ drop 5 report else report.

(** Two values with the same keys at the same places: they differ at most
    in what stands where one of them has something other than an object. *)
Inductive sameKeys : value -> value -> Prop :=
| sameKeys_leaf (v v' : value) :
    (forall m, v <> VObject m) -> (forall m, v' <> VObject m) -> sameKeys v v'
| sameKeys_object (m m' : gmap string value) :
    dom m = dom m' ->
    (forall k v v', m !! k = Some v -> m' !! k = Some v' -> sameKeys v v') ->
    sameKeys (VObject m) (VObject m').

(** [sendFrame] followed by [readFrame], the exchange inside [SendPlain]. *)
Definition exchange {St} (dev : Device St) (fuel : nat) (msg : list byte)
  : M (Communication St) (list byte) :=
  let* _ := sendFrame dev msg in readFrame dev fuel.

(** An init report with the command byte c2 instead of c1. *)
Definition wrongCmd : list byte :=
  ["255"; "000"; "000"; "000"; "194"; "000"; "001"; "a"]%byte.

(** The packet that [SendBootloader] writes for a chunk. *)
Definition packetOf (ext : Externals) (chunk : list byte) : list byte :=
  if negb (windows ext) then "000"%byte :: chunk else chunk.

(** The bytes that [SendBootloader] trims from the end of a response. *)
Definition bootCutset : list byte := ["000"; "009"; "013"; "010"]%byte.

(** A response of 256 bytes: ok, a line feed and zero bytes. *)
Definition bootReply : list byte := ["o"; "k"; "010"]%byte ++ replicate 253 "000"%byte.

Definition bootRun : result (list byte) * Communication (list (list byte) * list event) :=
  SendBootloader (Recorder Replies) (demo false) 100 pingText
    (NewCommunication ([bootReply], []) 64 256).

(** What [SendPlain] makes of the payload that [readFrame] returned: the
    steps after the exchange, without their log entries. *)
Definition decodeReply (ext : Externals) (reply : list byte)
  : result (gmap string value) :=
  let reply := trimSpaceNul ext reply in
  match json_Unmarshal ext reply with
  | inl e =>
      Err (if debugLevel ext
           then WithContext (ErrNew "Failed to unmarshal message") (CtxReply reply)
           else Wrap e "Failed to unmarshal reply")
  | inr jsonResult =>
      match maybeDBBErr jsonResult with
      | Some e => Err e
      | None => Ok jsonResult
      end
  end.

(** The error envelope applied to a reply: the last step of [SendPlain] and
    of [SendEncrypt]. *)
Definition envelope (jsonResult : gmap string value) : result (gmap string value) :=
  match maybeDBBErr jsonResult with
  | Some e => Err e
  | None => Ok jsonResult
  end.

(** What [SendEncrypt] makes of the reply that [SendPlain] returned,
    without the log entries. *)
Definition finalReply (ext : Externals) (password : list byte)
    (jsonResult : gmap string value) : result (gmap string value) :=
  match jsonResult !! "ciphertext" with
  | Some (VString cipherText) =>
      match base64_DecodeString ext (String.list_byte_of_string cipherText) with
      | inl e => Err (WithMessage e "Failed to decode reply")
      | inr decodedMsg =>
          match Decrypt ext decodedMsg (DoubleHashB ext password) with
          | inl e => Err (WithMessage e "Failed to decrypt reply")
          | inr plainText =>
              match json_Unmarshal ext plainText with
              | inl e =>
                  Err (if debugLevel ext
                       then WithContext (ErrNew "Failed to unmarshal message")
                              (CtxReply plainText)
                       else Wrap e "Failed to unmarshal reply")
              | inr jsonResult => envelope jsonResult
              end
          end
      end
  | _ => envelope jsonResult
  end.

(** What [SendEncrypt] returns for each outcome of the exchange. *)
Definition encryptOutcome (ext : Externals) (password : list byte)
    (ex : result (list byte)) : result (gmap string value) :=
  match ex with
  | Ok reply =>
      match decodeReply ext reply with
      | Ok jsonResult => finalReply ext password jsonResult
      | Err e => Err (WithMessage e "Failed to send cipher text")
      | Panic p => Panic p
      | OutOfFuel => OutOfFuel
      end
  | Err e => Err (WithMessage (CommunicationErr e) "Failed to send cipher text")
  | Panic p => Panic p
  | OutOfFuel => OutOfFuel
  end.

(** The outgoing command passes the logging step of [SendEncrypt]. *)
Definition loggable (ext : Externals) (msg : list byte) : Prop :=
  debugLevel ext = false \/ exists cmd, json_Unmarshal ext msg = inr cmd.

(** Whether the mutex is held after an operation with this result. *)
Definition heldAfter {A} (r : result A) : bool :=
  match r with OutOfFuel => true | _ => false end.

(** Stand-ins with a cipher that refuses every message. *)
Definition noCipher (debug : bool) : Externals :=
  {| json_Unmarshal := json_Unmarshal (demo debug);
     json_Marshal := json_Marshal (demo debug);
     trimSpaceNul := trimSpaceNul (demo debug);
     DoubleHashB := DoubleHashB (demo debug);
     Encrypt := fun _ _ => inl (ErrLib "crypto" "invalid key size");
     Decrypt := Decrypt (demo debug);
     base64_EncodeToString := base64_EncodeToString (demo debug);
     base64_DecodeString := base64_DecodeString (demo debug);
     debugLevel := debug;
     windows := false |}.


(** A device that answers the first read with [init] and every later read
    with a report of five bytes, a continuation header without data. *)
Definition Stalling (init : list byte) : Device bool :=
  {| dev_Write := fun _ s => (None, s);
     dev_Read := fun cap (s : bool) =>
       if s then (inr (take cap ["255"; "000"; "000"; "000"; "000"]%byte), true)
       else (inr (take cap init), true);
     dev_Close := fun s => (None, s) |}.

(** An init report of 64 bytes that declares 100 bytes of data. *)
Definition init100 : list byte :=
  ["255"; "000"; "000"; "000"; "193"; "000"; "100"]%byte ++ replicate 57 "a"%byte.





(** * Properties *)

(** ** Bytes *)

Lemma int_uint8 (x : Z) : int (uint8 x) = x mod 256.
Proof.
  unfold int, uint8.
  assert (Hr : 0 <= x mod 256 < 256) by (apply Z.mod_pos_bound; lia).
  destruct (Byte.of_N (Z.to_N (x mod 256))) as [b | ] eqn:E.
  - apply Byte.to_of_N in E. simpl. rewrite E. lia.
  - apply Byte.of_N_None_iff in E. lia.
Qed.

Lemma be16_decode (x : Z) :
  0 <= x < 65536 ->
  int (at_ (be16 x) 0) * 256 + int (at_ (be16 x) 1) = x.
Proof.
  intros Hx. unfold be16, at_. simpl. rewrite !int_uint8, Z.shiftr_div_pow2 by lia.
  change (2 ^ 8) with 256.
  rewrite (Z.mod_small (x / 256)) by (split; [apply Z.div_pos; lia | apply Z.div_lt_upper_bound; lia]).
  pose proof (Z.div_mod x 256). lia.
Qed.

Lemma length_initHeader (dataLen : Z) : length (initHeader dataLen) = 7%nat.
Proof. reflexivity. Qed.

Lemma length_contHeader (seq : Z) : length (contHeader seq) = 5%nat.
Proof. reflexivity. Qed.

Lemma length_frame (n : Z) (header chunk : list byte) :
  Z.of_nat (length header + length chunk) <= n ->
  Z.of_nat (length (frame n header chunk)) = n.
Proof.
  intros H. unfold frame. rewrite length_app, length_replicate, length_app. lia.
Qed.

Lemma set_device_set_device {St} (c : Communication St) (s s' : St) :
  set_device (set_device c s) s' = set_device c s'.
Proof. reflexivity. Qed.

Lemma set_device_id {St} (c : Communication St) : set_device c (device c) = c.
Proof. destruct c; reflexivity. Qed.

Section SendFrame.
Context {St : Type} (dev : Device St).

Lemma send_eq (header rb : list byte) (c : Communication St) :
  let n := usbWriteReportSize c in
  let k := Z.to_nat (n - Z.of_nat (length header)) in
  send dev header rb c =
    if n - Z.of_nat (length header) <? 0 then (Panic "slice bounds out of range", c)
    else
      match dev_Write dev (frame n header (take k rb)) (device c) with
      | (None, s) => (Ok (drop k rb), set_device c s)
      | (Some e, s) =>
          (Err (WithMessage (WithStack e) "Failed to send message"), set_device c s)
      end.
Proof.
  intros n k. unfold send, Next. fold n.
  destruct (n - Z.of_nat (length header) <? 0); [reflexivity | ].
  unfold bind, Write, frame. fold k.
  destruct (dev_Write dev _ (device c)) as [[e | ] s]; reflexivity.
Qed.

Lemma sendCont_writeAll (fuel : nat) :
  forall (seq : Z) (rb : list byte) (c : Communication St),
    6 <= usbWriteReportSize c ->
    (length rb <= fuel)%nat ->
    sendCont dev fuel seq rb c =
      sent c (writeAll dev (contFrames fuel (usbWriteReportSize c) seq rb) (device c)).
Proof.
  induction fuel as [ | fuel IH]; intros seq rb c Hn Hfuel.
  - destruct rb as [ | b rb]; [ | simpl in Hfuel; lia].
    simpl. unfold ret. now rewrite set_device_id.
  - destruct rb as [ | b rb].
    + simpl. unfold ret. now rewrite set_device_id.
    + cbn [sendCont contFrames writeAll].
      replace (0 <? Z.of_nat (length (b :: rb))) with true
        by (symmetry; apply Z.ltb_lt; simpl; lia).
      unfold bind. fold (contHeader seq). rewrite send_eq. cbn zeta.
      rewrite length_contHeader.
      replace (usbWriteReportSize c - Z.of_nat 5 <? 0) with false
        by (symmetry; apply Z.ltb_ge; lia).
      change (Z.of_nat 5) with 5.
      destruct (dev_Write dev _ (device c)) as [[e | ] s]; [reflexivity | ].
      rewrite IH.
      * reflexivity.
      * exact Hn.
      * rewrite length_drop. simpl in Hfuel |- *.
        assert (1 <= Z.to_nat (usbWriteReportSize c - 5))%nat by (simpl; lia). lia.
Qed.

(** [sendFrame] hands the buffers [frames n msg] to the device, in order,
    and stops at the first write that fails. *)
Lemma sendFrame_writeAll (msg : list byte) (c : Communication St) :
  msg <> [] ->
  7 <= usbWriteReportSize c ->
  sendFrame dev msg c =
    sent c (writeAll dev (frames (usbWriteReportSize c) msg) (device c)).
Proof.
  intros Hmsg Hn. unfold sendFrame.
  replace (Z.of_nat (length msg) =? 0) with false
    by (symmetry; apply Z.eqb_neq; destruct msg; simpl; [congruence | lia]).
  unfold bind. fold (initHeader (Z.of_nat (length msg))). rewrite send_eq. cbn zeta.
  rewrite length_initHeader.
  replace (usbWriteReportSize c - Z.of_nat 7 <? 0) with false
    by (symmetry; apply Z.ltb_ge; lia).
  change (Z.of_nat 7) with 7. unfold frames. cbn [writeAll].
  destruct (dev_Write dev _ (device c)) as [[e | ] s]; [reflexivity | ].
  rewrite sendCont_writeAll.
  - reflexivity.
  - simpl. lia.
  - rewrite length_drop. lia.
Qed.

(** With a write size below the length of the init header nothing is written. *)
Lemma sendFrame_small (msg : list byte) (c : Communication St) :
  msg <> [] ->
  usbWriteReportSize c < 7 ->
  sendFrame dev msg c = (Panic "slice bounds out of range", c).
Proof.
  intros Hmsg Hn. unfold sendFrame.
  replace (Z.of_nat (length msg) =? 0) with false
    by (symmetry; apply Z.eqb_neq; destruct msg; simpl; [congruence | lia]).
  unfold bind. rewrite send_eq. cbn zeta.
  change (length _) with 7%nat at 1.
  replace (usbWriteReportSize c - Z.of_nat 7 <? 0) with true
    by (symmetry; apply Z.ltb_lt; lia).
  reflexivity.
Qed.

Lemma sendFrame_empty (c : Communication St) : sendFrame dev [] c = (Ok tt, c).
Proof. reflexivity. Qed.

(** [sendFrame] always returns: the fuel of its loop is never exhausted. *)
Lemma sendFrame_returns (msg : list byte) (c : Communication St) :
  fst (sendFrame dev msg c) <> OutOfFuel.
Proof.
  destruct (decide (msg = [])) as [-> | Hmsg]; [rewrite sendFrame_empty; discriminate | ].
  destruct (Z_lt_le_dec (usbWriteReportSize c) 7) as [Hn | Hn].
  - rewrite sendFrame_small by assumption. discriminate.
  - rewrite sendFrame_writeAll by assumption. unfold sent.
    destruct (writeAll dev _ (device c)) as [[e | ] s]; discriminate.
Qed.

End SendFrame.

(** ** The frames written by [sendFrame] *)

Lemma contFrames_lookup (fuel : nat) :
  forall (n seq : Z) (rb : list byte) (j : nat) (f : list byte),
    contFrames fuel n seq rb !! j = Some f ->
    f = frame n (contHeader (seq + Z.of_nat j))
          (take (Z.to_nat (n - 5)) (drop (j * Z.to_nat (n - 5)) rb)).
Proof.
  induction fuel as [ | fuel IH]; intros n seq rb j f H.
  - destruct rb; discriminate H.
  - destruct rb as [ | b rb]; [discriminate H | ].
    cbn [contFrames] in H. destruct j as [ | j].
    + injection H as <-. now rewrite Z.add_0_r.
    + cbn [lookup list_lookup] in H. apply IH in H. subst f.
      rewrite drop_drop.
      replace (seq + 1 + Z.of_nat j) with (seq + Z.of_nat (S j)) by lia.
      replace (Z.to_nat (n - 5) + j * Z.to_nat (n - 5))%nat
        with (S j * Z.to_nat (n - 5))%nat by lia.
      reflexivity.
Qed.

Lemma frames_lookup (n : Z) (msg : list byte) (i : nat) (f : list byte) :
  frames n msg !! i = Some f ->
  f = match i with
      | O => frame n (initHeader (Z.of_nat (length msg))) (take (Z.to_nat (n - 7)) msg)
      | S j =>
          frame n (contHeader (Z.of_nat j))
            (take (Z.to_nat (n - 5))
               (drop (Z.to_nat (n - 7) + j * Z.to_nat (n - 5)) msg))
      end.
Proof.
  unfold frames. destruct i as [ | j]; intros H.
  - now injection H as <-.
  - cbn [lookup list_lookup] in H. apply contFrames_lookup in H.
    now rewrite drop_drop in H.
Qed.

Lemma writes_EvWrite (bufs : list (list byte)) : writes (map EvWrite bufs) = bufs.
Proof. induction bufs as [ | b bufs IH]; [reflexivity | ]. cbn. now f_equal. Qed.

Section Recorded.
Context {St : Type} (d : Device St).

(** What [writeAll] leaves in the record: the buffers up to and including
    the first one that the device refuses. *)
Lemma writeAll_Recorder (bufs : list (list byte)) :
  forall (s : St) (tr : list event),
    exists j : nat,
      snd (snd (writeAll (Recorder d) bufs (s, tr))) = tr ++ map EvWrite (take j bufs)
      /\ (fst (writeAll (Recorder d) bufs (s, tr)) = None -> take j bufs = bufs).
Proof.
  induction bufs as [ | buf bufs IH]; intros s tr.
  - exists 0%nat. cbn. now rewrite app_nil_r.
  - cbn [writeAll Recorder dev_Write].
    destruct (dev_Write d buf s) as [[e | ] s'] eqn:E.
    + exists 1%nat. cbn. rewrite take_0. split; [reflexivity | discriminate].
    + destruct (IH s' (tr ++ [EvWrite buf])) as (j & Htr & Hall).
      exists (S j). rewrite Htr. cbn. rewrite <- app_assoc. split; [reflexivity | ].
      intros H. f_equal. now apply Hall.
Qed.

(** The buffers written by one call of [sendFrame] are an initial part of
    [frames n msg], and all of it when the call returns normally. *)
Lemma sendFrame_writes (msg : list byte) (c c' : Communication (St * list event))
    (res : result unit) :
  snd (device c) = [] ->
  sendFrame (Recorder d) msg c = (res, c') ->
  exists j : nat,
    writes (snd (device c')) = take j (frames (usbWriteReportSize c) msg)
    /\ (res = Ok tt -> msg <> [] ->
        writes (snd (device c')) = frames (usbWriteReportSize c) msg).
Proof.
  intros Htr Hrun.
  destruct (decide (msg = [])) as [-> | Hmsg].
  { rewrite sendFrame_empty in Hrun. injection Hrun as _ <-.
    exists 0%nat. rewrite Htr. split; [reflexivity | congruence]. }
  destruct (Z_lt_le_dec (usbWriteReportSize c) 7) as [Hn | Hn].
  { rewrite sendFrame_small in Hrun by assumption. injection Hrun as <- <-.
    exists 0%nat. rewrite Htr. split; [reflexivity | discriminate]. }
  rewrite sendFrame_writeAll in Hrun by assumption.
  destruct (device c) as [s tr] eqn:Ec. cbn in Htr. subst tr.
  destruct (writeAll_Recorder (frames (usbWriteReportSize c) msg) s []) as (j & Hj & Hall).
  exists j. unfold sent in Hrun.
  destruct (writeAll (Recorder d) _ (s, [])) as [[e | ] [s' tr']] eqn:Ew;
    injection Hrun as <- <-; cbn in Hj |- *; subst tr'; rewrite writes_EvWrite.
  - split; [reflexivity | discriminate].
  - split; [reflexivity | ]. intros _ _. now apply Hall.
Qed.

End Recorded.

(** C7. The k-th continuation frame that [sendFrame] writes (the k-th
    buffer after the init frame) carries the sequence byte (k-1) mod 256:
    the sequence numbers start at 0, grow by one per continuation frame and
    wrap around by truncation to 8 bits. *)
Theorem sendFrame_sequence_byte {St : Type} (d : Device St) (msg : list byte)
    (c c' : Communication (St * list event)) (res : result unit)
    (k : nat) (f : list byte) :
  snd (device c) = [] ->
  sendFrame (Recorder d) msg c = (res, c') ->
  (1 <= k)%nat ->
  writes (snd (device c')) !! k = Some f ->
  f !! 4%nat = Some (uint8 (Z.of_nat k - 1))
  /\ int (at_ f 4) = (Z.of_nat k - 1) mod 256.
Proof.
  intros Htr Hrun Hk Hf.
  destruct (sendFrame_writes d msg c c' res Htr Hrun) as (j & Hw & _).
  rewrite Hw in Hf. apply lookup_take_Some in Hf as [Hf _].
  apply frames_lookup in Hf. destruct k as [ | k]; [lia | ].
  replace (Z.of_nat (S k) - 1) with (Z.of_nat k) by lia.
  assert (H4 : f !! 4%nat = Some (uint8 (Z.of_nat k))) by (subst f; reflexivity).
  split; [exact H4 | ]. unfold at_. rewrite H4. cbn. apply int_uint8.
Qed.

(** C8. Every buffer that [sendFrame] writes, the init frame and each
    continuation frame, has exactly the configured write size, and consists
    of its header, its share of the message and nothing but filler bytes
    [0xEE] after that. *)
Theorem sendFrame_frame_layout {St : Type} (d : Device St) (msg : list byte)
    (c c' : Communication (St * list event)) (res : result unit)
    (i : nat) (f : list byte) :
  snd (device c) = [] ->
  sendFrame (Recorder d) msg c = (res, c') ->
  writes (snd (device c')) !! i = Some f ->
  let n := usbWriteReportSize c in
  let header :=
    match i with
    | O => initHeader (Z.of_nat (length msg))
    | S j => contHeader (Z.of_nat j)
    end in
  let content :=
    match i with
    | O => take (Z.to_nat (n - 7)) msg
    | S j => take (Z.to_nat (n - 5)) (drop (Z.to_nat (n - 7) + j * Z.to_nat (n - 5)) msg)
    end in
  Z.of_nat (length f) = n
  /\ f = header ++ content
           ++ replicate (Z.to_nat (n - Z.of_nat (length header) - Z.of_nat (length content)))
                filler.
Proof.
  intros Htr Hrun Hf n header content.
  assert (Hn : 7 <= n).
  { destruct (Z_lt_le_dec n 7) as [Hn | Hn]; [ | exact Hn]. exfalso.
    destruct (decide (msg = [])) as [-> | Hmsg].
    - rewrite sendFrame_empty in Hrun. injection Hrun as _ <-.
      rewrite Htr in Hf. discriminate Hf.
    - rewrite sendFrame_small in Hrun by assumption. injection Hrun as _ <-.
      rewrite Htr in Hf. discriminate Hf. }
  destruct (sendFrame_writes d msg c c' res Htr Hrun) as (j & Hw & _).
  rewrite Hw in Hf. apply lookup_take_Some in Hf as [Hf _].
  apply frames_lookup in Hf. fold n in Hf.
  assert (Hf' : f = frame n header content) by (destruct i; exact Hf).
  split.
  - rewrite Hf'. apply length_frame. subst header content.
    destruct i; rewrite length_take; [rewrite length_initHeader | rewrite length_contHeader]; lia.
  - rewrite Hf'. unfold frame. rewrite <- app_assoc, length_app. do 3 f_equal. lia.
Qed.

Lemma sendFrame_sequence_byte_witness :
  snd (device (recordedPipe 7)) = []
  /\ sendFrame (Recorder Pipe) longMsg (recordedPipe 7) = (fst longRun, snd longRun)
  /\ (1 <= 258)%nat
  /\ writes (snd (device (snd longRun))) !! 258%nat
     = Some ["255"; "000"; "000"; "000"; "001"; "a"; "a"]%byte
  /\ ["255"; "000"; "000"; "000"; "001"; "a"; "a"]%byte !! 4%nat
     = Some (uint8 (Z.of_nat 258 - 1))
  /\ int (at_ ["255"; "000"; "000"; "000"; "001"; "a"; "a"]%byte 4)
     = (Z.of_nat 258 - 1) mod 256.
Proof.
  assert (Hrun : sendFrame (Recorder Pipe) longMsg (recordedPipe 7)
                 = (fst longRun, snd longRun)) by (vm_compute; reflexivity).
  assert (Hw : writes (snd (device (snd longRun))) !! 258%nat
               = Some ["255"; "000"; "000"; "000"; "001"; "a"; "a"]%byte)
    by (vm_compute; reflexivity).
  split; [reflexivity | ]. split; [exact Hrun | ]. split; [lia | ]. split; [exact Hw | ].
  apply (sendFrame_sequence_byte Pipe longMsg (recordedPipe 7) (snd longRun) (fst longRun)
           258 _ eq_refl Hrun);
    [lia | exact Hw].
Defined.

Lemma sendFrame_frame_layout_witness :
  snd (device (recordedPipe 9)) = []
  /\ sendFrame (Recorder Pipe) shortMsg (recordedPipe 9) = (fst shortRun, snd shortRun)
  /\ writes (snd (device (snd shortRun))) !! 2%nat
     = Some ["255"; "000"; "000"; "000"; "001"; "g"; "238"; "238"; "238"]%byte
  /\ Z.of_nat (length ["255"; "000"; "000"; "000"; "001"; "g"; "238"; "238"; "238"]%byte) = 9
  /\ ["255"; "000"; "000"; "000"; "001"; "g"; "238"; "238"; "238"]%byte
     = contHeader 1 ++ ["g"%byte] ++ replicate 3 filler.
Proof.
  assert (Hrun : sendFrame (Recorder Pipe) shortMsg (recordedPipe 9)
                 = (fst shortRun, snd shortRun)) by (vm_compute; reflexivity).
  assert (Hw : writes (snd (device (snd shortRun))) !! 2%nat
               = Some ["255"; "000"; "000"; "000"; "001"; "g"; "238"; "238"; "238"]%byte)
    by (vm_compute; reflexivity).
  split; [reflexivity | ]. split; [exact Hrun | ]. split; [exact Hw | ].
  exact (sendFrame_frame_layout Pipe shortMsg (recordedPipe 9) (snd shortRun) (fst shortRun)
           2 _ eq_refl Hrun Hw).
Defined.

(** ** Reading back through a pipe *)

Lemma writeAll_Pipe (bufs : list (list byte)) :
  forall q : list (list byte), writeAll Pipe bufs q = (None, q ++ bufs).
Proof.
  induction bufs as [ | buf bufs IH]; intros q; cbn.
  - now rewrite app_nil_r.
  - rewrite IH, <- app_assoc. reflexivity.
Qed.

Lemma initHeader_eq (dataLen : Z) :
  initHeader dataLen =
    ["255"; "000"; "000"; "000"; "193"]%byte ++ be16 (Z.land dataLen 0xFFFF).
Proof. reflexivity. Qed.

Lemma drop_frame (n : Z) (header chunk : list byte) :
  drop (length header) (frame n header chunk) =
    chunk ++ replicate (Z.to_nat (n - Z.of_nat (length header + length chunk))) filler.
Proof.
  unfold frame. rewrite <- app_assoc, drop_app_length, length_app.
  now rewrite Nat2Z.inj_add.
Qed.

(** One step of the reading loop on a pipe whose next report fills the buffer. *)
Lemma readCont_Pipe_step (fuel : nat) (n idx dataLen : Z) (data report : list byte)
    (q : list (list byte)) (c : Communication (list (list byte))) :
  device c = report :: q ->
  5 <= n ->
  Z.of_nat (length report) = n ->
  idx < dataLen ->
  readCont Pipe (S fuel) n idx dataLen data c =
    readCont Pipe fuel n (idx + (n - 5)) dataLen (data ++ drop 5 report) (set_device c q).
Proof.
  intros Hq Hn Hlen Hidx. cbn [readCont].
  replace (idx <? dataLen) with true by (symmetry; apply Z.ltb_lt; lia).
  unfold bind, Read. replace (n <? 0) with false by (symmetry; apply Z.ltb_ge; lia).
  rewrite Hq. cbn [Pipe dev_Read]. rewrite take_ge by lia. rewrite Hlen.
  replace (n <? 5) with false by (symmetry; apply Z.ltb_ge; lia).
  reflexivity.
Qed.

Lemma readCont_done (fuel : nat) (n idx dataLen : Z) (data : list byte)
    {St : Type} (dev : Device St) (c : Communication St) :
  dataLen <= idx ->
  readCont dev fuel n idx dataLen data c = (Ok data, c).
Proof.
  intros H. destruct fuel; cbn [readCont];
    replace (idx <? dataLen) with false by (symmetry; apply Z.ltb_ge; lia);
    reflexivity.
Qed.

Lemma contFrames_S (fuel : nat) (n seq : Z) (rb : list byte) :
  rb <> [] ->
  contFrames (S fuel) n seq rb =
    frame n (contHeader seq) (take (Z.to_nat (n - 5)) rb)
      :: contFrames fuel n (seq + 1) (drop (Z.to_nat (n - 5)) rb).
Proof. destruct rb; [congruence | reflexivity]. Qed.

Lemma contFrames_nil (fuel : nat) (n seq : Z) : contFrames fuel n seq [] = [].
Proof. destruct fuel; reflexivity. Qed.

Lemma drop_nil_length {A} (k : nat) (l : list A) : drop k l = [] <-> (length l <= k)%nat.
Proof.
  split; intros H.
  - apply (f_equal length) in H. rewrite length_drop in H. simpl in H. lia.
  - now apply drop_ge.
Qed.

(** Reading the continuation frames of the rest [rb] of a message appends
    [rb] and the filler of the last frame. *)
Lemma readCont_contFrames (fuelS : nat) :
  forall (n seq : Z) (rb : list byte) (fuelR : nat) (idx dataLen : Z)
         (data : list byte) (rest : list (list byte)) (c : Communication (list (list byte))),
    7 <= n ->
    (length rb <= fuelS)%nat ->
    (length rb <= fuelR)%nat ->
    device c = contFrames fuelS n seq rb ++ rest ->
    (rb = [] /\ dataLen <= idx) \/ (rb <> [] /\ idx = dataLen - Z.of_nat (length rb)) ->
    exists p : nat,
      readCont Pipe fuelR n idx dataLen data c
        = (Ok (data ++ rb ++ replicate p filler), set_device c rest)
      /\ Z.of_nat (length rb) + Z.of_nat p
         = Z.of_nat (length (contFrames fuelS n seq rb)) * (n - 5)
      /\ (rb = [] -> p = 0%nat)
      /\ (rb <> [] -> Z.of_nat p < n - 5).
Proof.
  assert (Hbase : forall fS n seq fuelR idx dataLen data rest
                         (c : Communication (list (list byte))),
             device c = contFrames fS n seq [] ++ rest ->
             dataLen <= idx ->
             exists p : nat,
               readCont Pipe fuelR n idx dataLen data c
                 = (Ok (data ++ [] ++ replicate p filler), set_device c rest)
               /\ Z.of_nat (length (@nil byte)) + Z.of_nat p
                  = Z.of_nat (length (contFrames fS n seq [])) * (n - 5)
               /\ (@nil byte = [] -> p = 0%nat)
               /\ (@nil byte <> [] -> Z.of_nat p < n - 5)).
  { intros fS n seq fuelR idx dataLen data rest c Hq Hidx.
    exists 0%nat. rewrite readCont_done by exact Hidx.
    rewrite contFrames_nil in Hq |- *. cbn in Hq |- *.
    rewrite app_nil_r, <- Hq, set_device_id. repeat split; try lia; congruence. }
  induction fuelS as [ | fuelS IH];
    intros n seq rb fuelR idx dataLen data rest c Hn HfS HfR Hq Hinv.
  - destruct rb as [ | b rb]; [ | simpl in HfS; lia].
    destruct Hinv as [[_ Hidx] | [Hne _]]; [ | congruence].
    now apply Hbase.
  - destruct Hinv as [[-> Hidx] | [Hne Hidx]]; [now apply Hbase | ].
    assert (Hl : (1 <= length rb)%nat) by (destruct rb; simpl; [congruence | lia]).
    destruct fuelR as [ | fuelR]; [lia | ].
    rewrite contFrames_S in Hq |- * by exact Hne.
    rewrite <- app_comm_cons in Hq.
    set (sz := Z.to_nat (n - 5)) in *.
    assert (Hlenf : Z.of_nat (length (frame n (contHeader seq) (take sz rb))) = n).
    { apply length_frame. rewrite length_contHeader, length_take. lia. }
    rewrite (readCont_Pipe_step fuelR n idx dataLen data _ _ c Hq) by lia.
    change 5%nat with (length (contHeader seq)). rewrite drop_frame.
    rewrite length_contHeader.
    destruct (IH n (seq + 1) (drop sz rb) fuelR (idx + (n - 5)) dataLen
                (data ++ take sz rb
                   ++ replicate (Z.to_nat (n - Z.of_nat (5 + length (take sz rb)))) filler)
                rest (set_device c (contFrames fuelS n (seq + 1) (drop sz rb) ++ rest)))
      as (p & Hrun & Hp & Hp0 & Hplt).
    + exact Hn.
    + rewrite length_drop. lia.
    + rewrite length_drop. lia.
    + reflexivity.
    + destruct (decide (drop sz rb = [])) as [E | E].
      * left. split; [exact E | ]. apply drop_nil_length in E. lia.
      * right. split; [exact E | ]. rewrite length_drop.
        assert (sz < length rb)%nat.
        { destruct (le_lt_dec (length rb) sz) as [Hle | Hlt]; [ | exact Hlt].
          exfalso. apply E. now apply drop_ge. }
        lia.
    + rewrite set_device_set_device in Hrun. rewrite Hrun.
      destruct (decide (drop sz rb = [])) as [E | E].
      * specialize (Hp0 E). subst p. rewrite E in Hp |- *.
        assert (Hle : (length rb <= sz)%nat) by now apply drop_nil_length.
        rewrite take_ge by exact Hle.
        exists (Z.to_nat (n - Z.of_nat (5 + length rb))).
        rewrite contFrames_nil in Hp |- *. cbn [length replicate] in Hp |- *.
        rewrite !app_nil_r. split; [reflexivity | ]. repeat split; try lia.
        intros; congruence.
      * assert (Hlt : (sz < length rb)%nat).
        { destruct (le_lt_dec (length rb) sz) as [Hle | Hlt]; [ | exact Hlt].
          exfalso. apply E. now apply drop_ge. }
        exists p. rewrite length_take, Nat.min_l by lia.
        replace (Z.to_nat (n - Z.of_nat (5 + sz))) with 0%nat by lia.
        cbn [replicate]. rewrite app_nil_r.
        split.
        { do 2 f_equal. rewrite <- (take_drop sz rb) at 3.
          now rewrite <- !app_assoc. }
        rewrite length_drop in Hp. cbn [length].
        split; [lia | ]. split; [intros; congruence | ]. intros _. now apply Hplt.
Qed.

(** [readFrame] on a pipe whose next report fills the buffer and carries
    the expected channel and command. *)
Lemma readFrame_Pipe_accept (fuel : nat) (n : Z) (report : list byte)
    (q : list (list byte)) (c : Communication (list (list byte))) :
  device c = report :: q ->
  usbReadReportSize c = n ->
  7 <= n ->
  Z.of_nat (length report) = n ->
  int (at_ report 0) = 0xff -> int (at_ report 1) = 0 ->
  int (at_ report 2) = 0 -> int (at_ report 3) = 0 ->
  int (at_ report 4) = hwwCMD ->
  readFrame Pipe fuel c =
    readCont Pipe fuel n (n - 7) (int (at_ report 5) * 256 + int (at_ report 6))
      (drop 7 report) (set_device c q).
Proof.
  intros Hq Hsize Hn Hlen H0 H1 H2 H3 H4. unfold readFrame, bind, Read.
  rewrite Hsize, Hq. replace (n <? 0) with false by (symmetry; apply Z.ltb_ge; lia).
  cbn [Pipe dev_Read]. rewrite take_ge by lia. rewrite Hlen.
  replace (n <? 7) with false by (symmetry; apply Z.ltb_ge; lia).
  rewrite H0, H1, H2, H3, H4, !Z.eqb_refl. reflexivity.
Qed.

Lemma land_0xFFFF (x : Z) : 0 <= x <= 65535 -> Z.land x 0xFFFF = x.
Proof.
  intros H. change 0xFFFF with (Z.ones 16). rewrite Z.land_ones by lia.
  apply Z.mod_small. change (2 ^ 16) with 65536. lia.
Qed.

(** C1 (amended). With write and read reports of the same size [n >= 7],
    reading back through a pipe the frames that [sendFrame] wrote for a
    payload of 1 to 65535 bytes consumes exactly these frames and returns
    the payload followed by the filler bytes of the last frame: the payload
    is the first [length msg] bytes of what is decoded. An empty payload is
    encoded to no frame. *)
Theorem sendFrame_readFrame_padded (msg : list byte) (n : Z) (fuel : nat)
    (c : Communication (list (list byte))) :
  7 <= n ->
  usbWriteReportSize c = n ->
  usbReadReportSize c = n ->
  device c = [] ->
  Z.of_nat (length msg) <= 65535 ->
  (length msg <= fuel)%nat ->
  (msg = [] -> sendFrame Pipe msg c = (Ok tt, c))
  /\ (msg <> [] ->
      exists (c1 : Communication (list (list byte))) (p : nat),
        sendFrame Pipe msg c = (Ok tt, c1)
        /\ readFrame Pipe fuel c1 = (Ok (msg ++ replicate p filler), c)
        /\ Z.of_nat (length msg) + Z.of_nat p
           = (n - 7) + (Z.of_nat (length (device c1)) - 1) * (n - 5)
        /\ ((1 < length (device c1))%nat -> Z.of_nat p < n - 5)).
Proof.
  intros Hn Hw Hr Hdev Hlen Hfuel. split; [intros ->; apply sendFrame_empty | ].
  intros Hmsg.
  assert (Hpos : (1 <= length msg)%nat) by (destruct msg; simpl; [congruence | lia]).
  rewrite sendFrame_writeAll by (try assumption; lia).
  rewrite Hw, Hdev, writeAll_Pipe. cbn [sent app].
  set (c1 := set_device c (frames n msg)).
  set (L := Z.of_nat (length msg)).
  set (sz7 := Z.to_nat (n - 7)).
  set (F0 := frame n (initHeader L) (take sz7 msg)).
  set (rb := drop sz7 msg).
  assert (Hc1 : device c1 = F0 :: contFrames (length msg) n 0 rb ++ []).
  { now rewrite app_nil_r. }
  assert (HF0 : Z.of_nat (length F0) = n).
  { apply length_frame. rewrite length_initHeader, length_take. lia. }
  assert (Hdl : int (at_ F0 5) * 256 + int (at_ F0 6) = L).
  { change (at_ F0 5) with (at_ (be16 (Z.land L 0xFFFF)) 0).
    change (at_ F0 6) with (at_ (be16 (Z.land L 0xFFFF)) 1).
    rewrite land_0xFFFF by lia. apply be16_decode. lia. }
  pose proof (readFrame_Pipe_accept fuel n F0 _ c1 Hc1 Hr Hn HF0
                eq_refl eq_refl eq_refl eq_refl eq_refl) as Hinit.
  rewrite Hdl in Hinit.
  change 7%nat with (length (initHeader L)) in Hinit. unfold F0 in Hinit.
  rewrite drop_frame, length_initHeader in Hinit.
  destruct (readCont_contFrames (length msg) n 0 rb fuel (n - 7) L
              (take sz7 msg
                 ++ replicate (Z.to_nat (n - Z.of_nat (7 + length (take sz7 msg)))) filler)
              [] (set_device c1 (contFrames (length msg) n 0 rb ++ [])))
    as (p & Hrun & Hp & Hp0 & Hplt).
  - exact Hn.
  - unfold rb. rewrite length_drop. lia.
  - unfold rb. rewrite length_drop. lia.
  - reflexivity.
  - destruct (decide (rb = [])) as [E | E].
    + left. split; [exact E | ]. apply drop_nil_length in E. lia.
    + right. split; [exact E | ]. unfold rb in E |- *. rewrite length_drop.
      assert (sz7 < length msg)%nat.
      { destruct (le_lt_dec (length msg) sz7) as [Hle | Hlt]; [ | exact Hlt].
        exfalso. apply E. now apply drop_ge. }
      lia.
  - rewrite Hrun in Hinit. rewrite !set_device_set_device in Hinit.
    unfold c1 in Hinit at 2. rewrite set_device_set_device in Hinit.
    rewrite <- Hdev, set_device_id in Hinit.
    assert (Hframes : length (device c1) = S (length (contFrames (length msg) n 0 rb))).
    { rewrite Hc1, app_nil_r. reflexivity. }
    destruct (decide (rb = [])) as [E | E].
    + specialize (Hp0 E). subst p.
      assert (Hle : (length msg <= sz7)%nat) by now apply drop_nil_length.
      exists c1, (Z.to_nat (n - Z.of_nat (7 + length msg))).
      split; [reflexivity | ]. rewrite Hinit, E. rewrite take_ge by exact Hle.
      cbn [replicate]. rewrite !app_nil_r. split; [reflexivity | ].
      rewrite Hframes, E, contFrames_nil. cbn [length]. unfold L, sz7 in *. split; lia.
    + assert (Hlt : (sz7 < length msg)%nat).
      { destruct (le_lt_dec (length msg) sz7) as [Hle | Hlt]; [ | exact Hlt].
        exfalso. apply E. now apply drop_ge. }
      exists c1, p. split; [reflexivity | ]. rewrite Hinit.
      rewrite length_take, Nat.min_l by lia.
      replace (Z.to_nat (n - Z.of_nat (7 + sz7))) with 0%nat by lia.
      cbn [replicate]. rewrite app_nil_r. split.
      { do 2 f_equal. rewrite app_assoc. f_equal. apply take_drop. }
      rewrite Hframes. unfold rb in Hp. rewrite length_drop in Hp.
      unfold sz7 in Hp, Hlt. unfold L, rb, sz7.
      split; [nia | ]. intros _. now apply Hplt.
Qed.

(** C1, as stated, fails: one payload byte sent and read back with reports
    of 64 bytes comes back followed by the 56 filler bytes of its frame. *)
Lemma sendFrame_readFrame_counterexample :
  fst (sendFrame Pipe oneByte (pipe 64)) = Ok tt
  /\ fst (readFrame Pipe 1 (snd (sendFrame Pipe oneByte (pipe 64))))
     = Ok (oneByte ++ replicate 56 filler)
  /\ fst (readFrame Pipe 1 (snd (sendFrame Pipe oneByte (pipe 64)))) <> Ok oneByte.
Proof.
  split; [reflexivity | ]. split; [vm_compute; reflexivity | ].
  vm_compute. discriminate.
Qed.

(** Reports of different sizes lose payload bytes: written with reports of
    9 bytes and read with buffers of 8, the seven bytes of [shortMsg] come
    back without the second and the sixth. *)
Example sendFrame_readFrame_sizes :
  fst (readFrame Pipe 7
         (snd (sendFrame Pipe shortMsg (NewCommunication [] 9 8))))
  = Ok ["a"; "c"; "d"; "e"; "g"; "238"; "238"]%byte.
Proof. vm_compute. reflexivity. Qed.

Lemma sendFrame_readFrame_padded_witness :
  7 <= 9
  /\ usbWriteReportSize (pipe 9) = 9
  /\ usbReadReportSize (pipe 9) = 9
  /\ device (pipe 9) = []
  /\ Z.of_nat (length shortMsg) <= 65535
  /\ (length shortMsg <= 7)%nat
  /\ shortMsg <> []
  /\ exists (c1 : Communication (list (list byte))) (p : nat),
       sendFrame Pipe shortMsg (pipe 9) = (Ok tt, c1)
       /\ readFrame Pipe 7 c1 = (Ok (shortMsg ++ replicate p filler), pipe 9)
       /\ Z.of_nat (length shortMsg) + Z.of_nat p
          = (9 - 7) + (Z.of_nat (length (device c1)) - 1) * (9 - 5)
       /\ ((1 < length (device c1))%nat -> Z.of_nat p < 9 - 5).
Proof.
  assert (H1 : 7 <= 9) by lia.
  assert (H5 : Z.of_nat (length shortMsg) <= 65535) by (vm_compute; discriminate).
  assert (H6 : (length shortMsg <= 7)%nat) by (vm_compute; lia).
  assert (H7 : shortMsg <> []) by discriminate.
  repeat (split; [first [assumption | reflexivity] | ]).
  exact (proj2 (sendFrame_readFrame_padded shortMsg 9 7 (pipe 9)
                  H1 eq_refl eq_refl eq_refl H5 H6) H7).
Defined.

(** ** When [readFrame] stops *)

(** On a pipe every iteration of the reading loop takes a report, so that
    fuel beyond the number of reports in flight is never exhausted. *)
Lemma readCont_Pipe_returns (fuel : nat) :
  forall (n idx dataLen : Z) (data : list byte) (c : Communication (list (list byte))),
    (length (device c) < fuel)%nat ->
    fst (readCont Pipe fuel n idx dataLen data c) <> OutOfFuel.
Proof.
  induction fuel as [ | fuel IH]; intros n idx dataLen data c Hfuel; [lia | ].
  cbn [readCont]. destruct (idx <? dataLen); [ | discriminate].
  unfold bind, Read. destruct (n <? 0); [discriminate | ].
  destruct (device c) as [ | r q] eqn:Hq; cbn [Pipe dev_Read]; [discriminate | ].
  destruct (_ <? 5); [discriminate | ].
  apply IH. cbn [device set_device]. simpl in Hfuel. lia.
Qed.

Lemma readFrame_Pipe_returns (fuel : nat) (c : Communication (list (list byte))) :
  (length (device c) <= fuel)%nat ->
  fst (readFrame Pipe fuel c) <> OutOfFuel.
Proof.
  intros Hfuel. unfold readFrame, bind, Read.
  destruct (usbReadReportSize c <? 0); [discriminate | ].
  destruct (device c) as [ | r q] eqn:Hq; cbn [Pipe dev_Read]; [discriminate | ].
  destruct (_ <? 7); [discriminate | ].
  destruct (_ || _); [discriminate | ].
  destruct (negb _); [discriminate | ].
  apply readCont_Pipe_returns. cbn [device set_device]. simpl in Hfuel. lia.
Qed.

Lemma contBytes_app (n : Z) (l1 l2 : list (list byte)) :
  contBytes n (l1 ++ l2) = contBytes n l1 + contBytes n l2.
Proof.
  induction l1 as [ | r l1 IH]; cbn; [reflexivity | ].
  fold (contBytes n (l1 ++ l2)). fold (contBytes n l1). lia.
Qed.

(** A normal return of the reading loop on a pipe: the reports it took, what
    it appended, and the values of the counter [idx] before each test. *)
Lemma readCont_Pipe_inv (fuel : nat) :
  forall (n idx dataLen : Z) (data data' : list byte)
         (c c' : Communication (list (list byte))),
    readCont Pipe fuel n idx dataLen data c = (Ok data', c') ->
    exists conts : list (list byte),
      device c = conts ++ device c'
      /\ data' = data ++ concat (map (fun r => drop 5 (received n r)) conts)
      /\ Forall (fun r => 5 <= Z.of_nat (length (received n r))) conts
      /\ (forall j : nat, (j < length conts)%nat ->
            idx + contBytes n (take j conts) < dataLen)
      /\ dataLen <= idx + contBytes n conts.
Proof.
  induction fuel as [ | fuel IH]; intros n idx dataLen data data' c c' H.
  - cbn [readCont] in H. destruct (idx <? dataLen) eqn:E; [discriminate H | ].
    injection H as <- <-. exists []. cbn. rewrite app_nil_r.
    apply Z.ltb_ge in E. repeat split; [constructor | intros; lia | lia].
  - cbn [readCont] in H. destruct (idx <? dataLen) eqn:E.
    + apply Z.ltb_lt in E. unfold bind, Read in H.
      destruct (n <? 0); [discriminate H | ].
      destruct (device c) as [ | r q] eqn:Hq; cbn [Pipe dev_Read] in H;
        [discriminate H | ].
      fold (received n r) in H.
      destruct (Z.of_nat (length (received n r)) <? 5) eqn:E5; [discriminate H | ].
      apply Z.ltb_ge in E5. apply IH in H as (conts & Hdev & Hdata & Hall & Hlt & Hge).
      exists (r :: conts). cbn [device set_device] in Hdev. rewrite Hdev.
      split; [reflexivity | ]. split.
      { rewrite Hdata. cbn [map concat]. now rewrite <- app_assoc. }
      split; [now constructor | ]. split.
      * intros [ | j] Hj; cbn [take contBytes foldr]; [lia | ].
        fold (contBytes n (take j conts)).
        specialize (Hlt j ltac:(simpl in Hj; lia)). lia.
      * cbn [contBytes foldr]. fold (contBytes n conts). lia.
    + injection H as <- <-. exists []. cbn. rewrite app_nil_r.
      apply Z.ltb_ge in E. repeat split; [constructor | intros; lia | lia].
Qed.

Lemma length_concat_drop5 (n : Z) (conts : list (list byte)) :
  Forall (fun r => 5 <= Z.of_nat (length (received n r))) conts ->
  Z.of_nat (length (concat (map (fun r => drop 5 (received n r)) conts)))
  = contBytes n conts.
Proof.
  induction 1 as [ | r conts Hr _ IH]; [reflexivity | ].
  cbn [map concat contBytes foldr]. fold (contBytes n conts).
  rewrite length_app, length_drop. lia.
Qed.

(** C2 (amended). On a stream of reports accepted by [readFrame] whose
    init report fills the read buffer, the payload bytes accumulated are
    those after the 7 byte header of the init report and after the 5 byte
    header of each continuation report; [readFrame] reads a further report
    exactly while their number is below the length declared in the init
    report, so it stops at the first moment this number is at least the
    declared length; the payload returned has exactly the accumulated number
    of bytes, which is at least the declared length. *)
Theorem readFrame_stops (fuel : nat) (c c' : Communication (list (list byte)))
    (init : list byte) (q : list (list byte)) (data : list byte) :
  readFrame Pipe fuel c = (Ok data, c') ->
  device c = init :: q ->
  usbReadReportSize c <= Z.of_nat (length init) ->
  let n := usbReadReportSize c in
  let dataLen := int (at_ init 5) * 256 + int (at_ init 6) in
  exists conts : list (list byte),
    q = conts ++ device c'
    /\ data = drop 7 (received n init)
                ++ concat (map (fun r => drop 5 (received n r)) conts)
    /\ (forall j : nat, (j < length conts)%nat ->
          accumulated n init (take j conts) < dataLen)
    /\ dataLen <= accumulated n init conts
    /\ Z.of_nat (length data) = accumulated n init conts.
Proof.
  intros H Hdev Hfill n dataLen. unfold readFrame, bind, Read in H. fold n in H.
  destruct (n <? 0) eqn:E0; [discriminate H | ]. apply Z.ltb_ge in E0.
  rewrite Hdev in H. cbn [Pipe dev_Read] in H. fold (received n init) in H.
  assert (Hrec : received n init = take (Z.to_nat n) init) by reflexivity.
  assert (Hlen : Z.of_nat (length (received n init)) = n).
  { rewrite Hrec, length_take. fold n in Hfill. lia. }
  destruct (Z.of_nat (length (received n init)) <? 7) eqn:E7; [discriminate H | ].
  apply Z.ltb_ge in E7.
  destruct (negb (int (at_ (received n init) 0) =? 255) || _ || _ || _);
    [discriminate H | ].
  destruct (negb (int (at_ (received n init) 4) =? hwwCMD)); [discriminate H | ].
  apply readCont_Pipe_inv in H as (conts & Hq & Hdata & Hall & Hlt & Hge).
  cbn [device set_device] in Hq.
  assert (H5 : at_ (received n init) 5 = at_ init 5).
  { unfold at_. rewrite Hrec, lookup_take_lt by lia. reflexivity. }
  assert (H6 : at_ (received n init) 6 = at_ init 6).
  { unfold at_. rewrite Hrec, lookup_take_lt by lia. reflexivity. }
  rewrite H5, H6 in Hlt, Hge. fold dataLen in Hlt, Hge.
  exists conts. split; [exact Hq | ]. split; [exact Hdata | ].
  unfold accumulated. rewrite Hlen. split; [exact Hlt | ]. split; [exact Hge | ].
  rewrite Hdata, length_app, length_drop, Nat2Z.inj_add, length_concat_drop5 by exact Hall.
  lia.
Qed.

(** C2, as stated, fails: an init report of 64 bytes that declares a
    payload of 3 bytes is accepted, and the payload returned has 57 bytes. *)
Lemma readFrame_stops_counterexample :
  exists data : list byte,
    fst (readFrame Pipe 1 (NewCommunication [replyReport] 64 64)) = Ok data
    /\ int (at_ replyReport 5) * 256 + int (at_ replyReport 6) = 3
    /\ Z.of_nat (length data) = 57
    /\ Z.of_nat (length data) <> int (at_ replyReport 5) * 256 + int (at_ replyReport 6).
Proof.
  exists (["a"; "b"; "c"]%byte ++ replicate 54 "000"%byte).
  split; [vm_compute; reflexivity | ]. split; [reflexivity | ].
  split; [reflexivity | ]. vm_compute. discriminate.
Qed.

Lemma readFrame_stops_witness :
  readFrame Pipe 2 replyPipe = (Ok ["a"; "b"; "c"; "d"]%byte, pipe 8)
  /\ device replyPipe = replyInit :: [replyCont]
  /\ usbReadReportSize replyPipe <= Z.of_nat (length replyInit)
  /\ exists conts : list (list byte),
       [replyCont] = conts ++ device (pipe 8)
       /\ ["a"; "b"; "c"; "d"]%byte
          = drop 7 (received 8 replyInit)
              ++ concat (map (fun r => drop 5 (received 8 r)) conts)
       /\ (forall j : nat, (j < length conts)%nat ->
             accumulated 8 replyInit (take j conts)
             < int (at_ replyInit 5) * 256 + int (at_ replyInit 6))
       /\ int (at_ replyInit 5) * 256 + int (at_ replyInit 6)
          <= accumulated 8 replyInit conts
       /\ Z.of_nat (length ["a"; "b"; "c"; "d"]%byte) = accumulated 8 replyInit conts.
Proof.
  assert (Hrun : readFrame Pipe 2 replyPipe = (Ok ["a"; "b"; "c"; "d"]%byte, pipe 8))
    by (vm_compute; reflexivity).
  assert (Hfill : usbReadReportSize replyPipe <= Z.of_nat (length replyInit))
    by (vm_compute; discriminate).
  split; [exact Hrun | ]. split; [reflexivity | ]. split; [exact Hfill | ].
  exact (readFrame_stops 2 replyPipe (pipe 8) replyInit [replyCont] _ Hrun eq_refl Hfill).
Defined.

(** ** Censoring *)

Lemma hideValue_VObject (m : gmap string value) :
  hideValue (VObject m) = VObject (hideValues m).
Proof. reflexivity. Qed.

Lemma get_hideValue (path : list string) :
  forall v : value, get path (hideValue v) = hideValue <$> get path v.
Proof.
  induction path as [ | k path IH]; intros v; [reflexivity | ].
  destruct v as [ | b | f | s | l | m]; try reflexivity.
  cbn [hideValue get]. rewrite lookup_fmap.
  destruct (m !! k) as [v' | ]; cbn; [apply IH | reflexivity].
Qed.

(** C4, as stated, fails: for the command {a: [{b: 1}]} the array is replaced
    as a whole, so that its structure and the key b are lost, whereas
    replacing the leaves and keeping the structure yields {a: [{b: ****}]}. *)
Lemma hideValues_counterexample :
  get ["a"] (VObject (hideValues cmdArray)) = Some (VString "****")
  /\ get ["a"] (redact (VObject cmdArray))
     = Some (VArray [VObject (<["b" := VString "****"]> ∅)])
  /\ VObject (hideValues cmdArray) <> redact (VObject cmdArray).
Proof.
  assert (H1 : get ["a"] (VObject (hideValues cmdArray)) = Some (VString "****"))
    by (vm_compute; reflexivity).
  assert (H2 : get ["a"] (redact (VObject cmdArray))
               = Some (VArray [VObject (<["b" := VString "****"]> ∅)]))
    by (vm_compute; reflexivity).
  split; [exact H1 | ]. split; [exact H2 | ].
  intros E. rewrite E, H2 in H1. discriminate H1.
Qed.

Lemma arrayFree_lookup (m : gmap string value) (k : string) (v : value) :
  arrayFree (VObject m) = true -> m !! k = Some v -> arrayFree v = true.
Proof.
  intros Hfree Hk. cbn [arrayFree] in Hfree.
  rewrite (map_fold_delete_L _ _ k v m) in Hfree.
  - now apply andb_prop in Hfree.
  - intros j1 j2 z1 z2 y _ _ _. destruct (arrayFree z1), (arrayFree z2); reflexivity.
  - exact Hk.
Qed.

Lemma depthSize_lookup (m : gmap string value) (k : string) (v : value) :
  m !! k = Some v -> (depthSize v < depthSize (VObject m))%nat.
Proof.
  intros Hk. cbn [depthSize].
  rewrite (map_fold_delete_L _ _ k v m).
  - lia.
  - intros; lia.
  - exact Hk.
Qed.

(** Where there is no array, censoring is the replacement of the leaves. *)
Lemma hideValue_redact (v : value) : arrayFree v = true -> hideValue v = redact v.
Proof.
  remember (depthSize v) as size eqn:Hsize. revert v Hsize.
  induction size as [size IH] using lt_wf_ind. intros v -> Hfree.
  destruct v as [ | b | f | s | l | m]; try reflexivity; [discriminate Hfree | ].
  cbn [hideValue redact]. f_equal. apply map_fmap_ext. intros k v Hk.
  apply (IH (depthSize v)).
  - now apply (depthSize_lookup m k).
  - reflexivity.
  - now apply (arrayFree_lookup m k).
Qed.

(** C4 (amended). [hideValues] keeps the keys and the nesting of objects:
    along every path of keys through nested objects the censored command
    has a value exactly where the command has one. That value is the
    placeholder wherever the command has anything but an object there, a
    scalar or an array with all that it contains, and the censored object
    wherever the command has an object. For a command without arrays this
    is the replacement of every leaf with all keys and the structure kept.
    In particular {a: {b: 1}, c: secret} becomes {a: {b: ****}, c: ****}. *)
Theorem hideValues_objects (cmd : gmap string value) :
  (forall (k : string) (path : list string),
     get (k :: path) (VObject (hideValues cmd))
     = hideValue <$> get (k :: path) (VObject cmd))
  /\ (forall v : value,
        hideValue v = match v with
                      | VObject m => VObject (hideValues m)
                      | _ => VString "****"
                      end)
  /\ dom (hideValues cmd) = dom cmd
  /\ (arrayFree (VObject cmd) = true -> VObject (hideValues cmd) = redact (VObject cmd))
  /\ hideValues cmdNested = cmdNestedHidden.
Proof.
  split; [ | split; [ | split; [ | split]]].
  - intros k path. rewrite <- hideValue_VObject. apply get_hideValue.
  - intros v. destruct v; reflexivity.
  - unfold hideValues. apply dom_fmap_L.
  - intros Hfree. rewrite <- hideValue_VObject. now apply hideValue_redact.
  - vm_compute. reflexivity.
Qed.

(** ** The framing layer leaves the mutex and the log alone *)

Lemma with_env_id {St} (c : Communication St) : with_env c (mutex c) (log c) = c.
Proof. destruct c; reflexivity. Qed.

Section IoOnly.
Context {St : Type} (dev : Device St).

Lemma io_only_ret {A} (a : A) : io_only (ret a : M (Communication St) A).
Proof. intros c mu lg. reflexivity. Qed.

Lemma io_only_fail {A} (e : error) : io_only (fail e : M (Communication St) A).
Proof. intros c mu lg. reflexivity. Qed.

Lemma io_only_diverge {A} : io_only (diverge : M (Communication St) A).
Proof. intros c mu lg. reflexivity. Qed.

Lemma io_only_bind {A B} (m : M (Communication St) A) (k : A -> M (Communication St) B) :
  io_only m -> (forall a, io_only (k a)) -> io_only (bind m k).
Proof.
  intros Hm Hk c mu lg. unfold bind. rewrite Hm.
  destruct (m c) as [[a | e | p | ] c1]; cbn [fst snd]; try reflexivity.
  apply Hk.
Qed.

Lemma io_only_mapErr {A} (f : error -> error) (m : M (Communication St) A) :
  io_only m -> io_only (mapErr f m).
Proof.
  intros Hm c mu lg. unfold mapErr. rewrite Hm.
  destruct (m c) as [[a | e | p | ] c1]; reflexivity.
Qed.

Lemma io_only_Write (buf : list byte) : io_only (Write dev buf).
Proof.
  intros c mu lg. unfold Write. cbn [with_env device].
  destruct (dev_Write dev buf (device c)); reflexivity.
Qed.

Lemma io_only_Read (n : Z) : io_only (Read dev n).
Proof.
  intros c mu lg. unfold Read. cbn [with_env device].
  destruct (n <? 0); [reflexivity | ].
  destruct (dev_Read dev (Z.to_nat n) (device c)); reflexivity.
Qed.

Lemma io_only_send (header rb : list byte) : io_only (send dev header rb).
Proof.
  intros c mu lg. rewrite !send_eq. cbn [with_env device usbWriteReportSize].
  destruct (_ <? 0); [reflexivity | ].
  destruct (dev_Write dev _ (device c)) as [[e | ] s]; reflexivity.
Qed.

Lemma io_only_sendCont (fuel : nat) :
  forall (seq : Z) (rb : list byte), io_only (sendCont dev fuel seq rb).
Proof.
  induction fuel as [ | fuel IH]; intros seq rb; cbn [sendCont];
    destruct (0 <? Z.of_nat (length rb)); try apply io_only_ret.
  - apply io_only_diverge.
  - apply io_only_bind; [apply io_only_send | intros rest; apply IH].
Qed.

Lemma io_only_sendFrame (msg : list byte) : io_only (sendFrame dev msg).
Proof.
  unfold sendFrame. destruct (Z.of_nat (length msg) =? 0); [apply io_only_ret | ].
  apply io_only_bind; [apply io_only_send | intros rest; apply io_only_sendCont].
Qed.

Lemma io_only_readCont (fuel : nat) :
  forall (size idx dataLen : Z) (data : list byte),
    io_only (readCont dev fuel size idx dataLen data).
Proof.
  induction fuel as [ | fuel IH]; intros size idx dataLen data; cbn [readCont];
    destruct (idx <? dataLen); try apply io_only_ret.
  - apply io_only_diverge.
  - apply io_only_bind; [apply io_only_Read | ].
    intros [err | read]; [apply io_only_fail | ].
    destruct (_ <? 5); [apply io_only_fail | apply IH].
Qed.

Lemma io_only_readFrame (fuel : nat) : io_only (readFrame dev fuel).
Proof.
  intros c mu lg. unfold readFrame. cbn [with_env usbReadReportSize].
  set (size := usbReadReportSize c).
  match goal with
  | |- ?body (with_env c mu lg) = _ => assert (H : io_only body)
  end.
  { apply io_only_bind; [apply io_only_Read | ].
    intros [err | read]; [apply io_only_fail | ].
    destruct (_ <? 7); [apply io_only_fail | ].
    destruct (_ || _); [apply io_only_fail | ].
    destruct (negb _); [apply io_only_fail | ].
    apply io_only_readCont. }
  apply H.
Qed.

End IoOnly.

(** ** The JSON level operations *)

Section Operations.
Context {St : Type} (dev : Device St) (ext : Externals).

(** [logCensoredCmd] always returns; it reports an error exactly when the
    debug level is enabled and the message does not decode. *)
Lemma logCensoredCmd_run (msg : list byte) (receiving : bool) (c : Communication St) :
  exists lg : list Entry,
    logCensoredCmd ext msg receiving c =
      (Ok (if debugLevel ext
           then match json_Unmarshal ext msg with
                | inl _ => Some (ErrNew "Failed to unmarshal message")
                | inr _ => None
                end
           else None),
       with_env c (mutex c) lg).
Proof.
  unfold logCensoredCmd. destruct (debugLevel ext).
  - destruct (json_Unmarshal ext msg) as [e | cmd].
    + exists (log c). now rewrite with_env_id.
    + destruct (json_Marshal ext (hideValues cmd)); unfold bind, add_log, ret;
        eexists; reflexivity.
  - exists (log c). now rewrite with_env_id.
Qed.

(** [SendPlain] when the frames are sent, a reply is read and it decodes:
    the result is decided by [maybeDBBErr], and the mutex is released. *)
Lemma SendPlain_decoded (fuel : nat) (msg reply : list byte)
    (c c1 c2 : Communication St) (jsonResult : gmap string value) :
  mutex c = false ->
  sendFrame dev msg c = (Ok tt, c1) ->
  readFrame dev fuel c1 = (Ok reply, c2) ->
  json_Unmarshal ext (trimSpaceNul ext reply) = inr jsonResult ->
  exists lg : list Entry,
    SendPlain dev ext fuel msg c =
      (match maybeDBBErr jsonResult with
       | Some e => Err e
       | None => Ok jsonResult
       end, with_env c2 false lg).
Proof.
  intros Hmu Hsend Hread Hjson. unfold SendPlain. unfold bind at 1.
  destruct (logCensoredCmd_run msg false c) as [lg0 ->]. rewrite Hmu.
  assert (Hlog : exists lg1,
             (match (if debugLevel ext
                     then match json_Unmarshal ext msg with
                          | inl _ => Some (ErrNew "Failed to unmarshal message")
                          | inr _ => None
                          end
                     else None) with
              | Some _ => add_log (mkEntry DebugLevel [("msg", FBytes msg)]
                                     "Sending (encrypted) command")
              | None => ret tt
              end) (with_env c false lg0) = (Ok tt, with_env c false lg1)).
  { destruct (if debugLevel ext then _ else None); eexists; reflexivity. }
  destruct Hlog as [lg1 Hlog]. unfold bind at 1. rewrite Hlog.
  unfold bind at 1, Lock. cbn [mutex with_env].
  change (set_mutex (with_env c false lg1) true) with (with_env c true lg1).
  unfold defer, bind, mapErr.
  rewrite (io_only_sendFrame dev msg c true lg1), Hsend. cbn [fst snd].
  rewrite (io_only_readFrame dev fuel c1 true lg1), Hread. cbn [fst snd].
  destruct (logCensoredCmd_run (trimSpaceNul ext reply) true (with_env c2 true lg1))
    as [lg2 ->].
  rewrite Hjson. cbn [mutex with_env].
  assert (Hnone : (if debugLevel ext then @None error else None) = None)
    by (destruct (debugLevel ext); reflexivity).
  rewrite Hnone. exists lg2.
  destruct (maybeDBBErr jsonResult); reflexivity.
Qed.

End Operations.

Section Encrypted.
Context {St : Type} (dev : Device St) (ext : Externals).

(** [SendEncrypt] once the command is logged and encrypted and [SendPlain]
    has returned a reply: the reply is final unless it has a ciphertext
    string, in which case the decrypted and decoded text is. *)
Lemma SendEncrypt_reply (fuel : nat) (msg password cipher : list byte)
    (c c0 c1 : Communication St) (reply : gmap string value) :
  logCensoredCmd ext msg false c = (Ok None, c0) ->
  Encrypt ext msg (DoubleHashB ext password) = inr cipher ->
  SendPlain dev ext fuel (base64_EncodeToString ext cipher) c0 = (Ok reply, c1) ->
  (forall final : gmap string value,
     (forall s : string, reply !! "ciphertext" <> Some (VString s)) ->
     final = reply ->
     SendEncrypt dev ext fuel msg password c =
       (match maybeDBBErr final with Some e => Err e | None => Ok final end, c1))
  /\ (forall (final : gmap string value) (s : string) (decoded plain : list byte),
        reply !! "ciphertext" = Some (VString s) ->
        base64_DecodeString ext (String.list_byte_of_string s) = inr decoded ->
        Decrypt ext decoded (DoubleHashB ext password) = inr plain ->
        json_Unmarshal ext plain = inr final ->
        exists c2 : Communication St,
          SendEncrypt dev ext fuel msg password c =
            (match maybeDBBErr final with Some e => Err e | None => Ok final end, c2)).
Proof.
  intros Hlog Henc Hplain. split.
  - intros final Hno ->. unfold SendEncrypt. unfold bind at 1. rewrite Hlog, Henc.
    unfold bind at 1, mapErr. rewrite Hplain. unfold bind.
    destruct (reply !! "ciphertext") as [[ | b | f | s | l | m] | ] eqn:E;
      try (unfold ret; destruct (maybeDBBErr reply); reflexivity).
    now destruct (Hno s).
  - intros final s decoded plain Hs Hdec Hdecrypt Hjson.
    unfold SendEncrypt. unfold bind at 1. rewrite Hlog, Henc.
    unfold bind at 1, mapErr. rewrite Hplain. unfold bind at 1.
    rewrite Hs, Hdec, Hdecrypt. unfold bind at 1.
    destruct (logCensoredCmd_run ext plain true c1) as [lg ->]. rewrite Hjson.
    assert (Hnone : (if debugLevel ext then @None error else None) = None)
      by (destruct (debugLevel ext); reflexivity).
    rewrite Hnone. unfold ret. exists (with_env c1 (mutex c1) lg).
    destruct (maybeDBBErr final); reflexivity.
Qed.

(** An error returned by [SendPlain] is returned by [SendEncrypt] under
    the message "Failed to send cipher text". *)
Lemma SendEncrypt_plain_error (fuel : nat) (msg password cipher : list byte)
    (c c0 c1 : Communication St) (e : error) :
  logCensoredCmd ext msg false c = (Ok None, c0) ->
  Encrypt ext msg (DoubleHashB ext password) = inr cipher ->
  SendPlain dev ext fuel (base64_EncodeToString ext cipher) c0 = (Err e, c1) ->
  SendEncrypt dev ext fuel msg password c =
    (Err (WithMessage e "Failed to send cipher text"), c1).
Proof.
  intros Hlog Henc Hplain. unfold SendEncrypt. unfold bind at 1. rewrite Hlog, Henc.
  unfold bind at 1, mapErr. now rewrite Hplain.
Qed.

End Encrypted.

(** ** The error envelope *)

(** C5. When the error field of the decoded reply is an object,
    [maybeDBBErr] returns an error: the device error made of exactly the
    message and the code of that object when it has a string message and a
    numeric code, and the error "Unexpected reply" with the error object as
    context when the message or the code is missing. The operations return
    that error and no data: [SendPlain] for the reply it decodes,
    [SendEncrypt] for the reply it decrypts and decodes, and [SendEncrypt]
    under the message "Failed to send cipher text" for a reply that
    [SendPlain] decoded. *)
Theorem maybeDBBErr_error_object {St : Type} (dev : Device St) (ext : Externals)
    (jsonResult errMap : gmap string value) :
  jsonResult !! "error" = Some (VObject errMap) ->
  exists e : error,
    maybeDBBErr jsonResult = Some e
    /\ (forall (errMsg : string) (errCode : float),
          errMap !! "message" = Some (VString errMsg) ->
          errMap !! "code" = Some (VNumber errCode) ->
          e = DBBErr errMsg errCode)
    /\ (errMap !! "message" = None \/ errMap !! "code" = None ->
        e = WithContext (ErrNew "Unexpected reply") (CtxReplyMap errMap))
    /\ (forall (fuel : nat) (msg reply : list byte) (c c1 c2 : Communication St),
          mutex c = false ->
          sendFrame dev msg c = (Ok tt, c1) ->
          readFrame dev fuel c1 = (Ok reply, c2) ->
          json_Unmarshal ext (trimSpaceNul ext reply) = inr jsonResult ->
          fst (SendPlain dev ext fuel msg c) = Err e)
    /\ (forall (fuel : nat) (msg password cipher reply : list byte)
               (c c0 c1 c2 : Communication St),
          logCensoredCmd ext msg false c = (Ok None, c0) ->
          Encrypt ext msg (DoubleHashB ext password) = inr cipher ->
          mutex c0 = false ->
          sendFrame dev (base64_EncodeToString ext cipher) c0 = (Ok tt, c1) ->
          readFrame dev fuel c1 = (Ok reply, c2) ->
          json_Unmarshal ext (trimSpaceNul ext reply) = inr jsonResult ->
          fst (SendEncrypt dev ext fuel msg password c)
          = Err (WithMessage e "Failed to send cipher text"))
    /\ (forall (fuel : nat) (msg password cipher : list byte)
               (c c0 c1 : Communication St) (reply : gmap string value)
               (s : string) (decoded plain : list byte),
          logCensoredCmd ext msg false c = (Ok None, c0) ->
          Encrypt ext msg (DoubleHashB ext password) = inr cipher ->
          SendPlain dev ext fuel (base64_EncodeToString ext cipher) c0 = (Ok reply, c1) ->
          reply !! "ciphertext" = Some (VString s) ->
          base64_DecodeString ext (String.list_byte_of_string s) = inr decoded ->
          Decrypt ext decoded (DoubleHashB ext password) = inr plain ->
          json_Unmarshal ext plain = inr jsonResult ->
          fst (SendEncrypt dev ext fuel msg password c) = Err e).
Proof.
  intros Herr.
  assert (He : exists e : error,
             maybeDBBErr jsonResult = Some e
             /\ (forall (errMsg : string) (errCode : float),
                   errMap !! "message" = Some (VString errMsg) ->
                   errMap !! "code" = Some (VNumber errCode) ->
                   e = DBBErr errMsg errCode)
             /\ (errMap !! "message" = None \/ errMap !! "code" = None ->
                 e = WithContext (ErrNew "Unexpected reply") (CtxReplyMap errMap))).
  { unfold maybeDBBErr. rewrite Herr.
    destruct (errMap !! "message") as [[ | b | f | s | l | m] | ] eqn:Hm;
      try (eexists; split; [reflexivity | ];
           split; [intros ? ? H; discriminate H | intros _; reflexivity]).
    destruct (errMap !! "code") as [[ | b | f | s' | l | m] | ] eqn:Hc;
      try (eexists; split; [reflexivity | ];
           split; [intros ? ? _ H; discriminate H | intros _; reflexivity]).
    eexists. split; [reflexivity | ]. split.
    - intros errMsg errCode H1 H2. congruence.
    - intros [H | H]; discriminate H. }
  destruct He as (e & He & Hdbb & Hmissing).
  exists e. split; [exact He | ]. split; [exact Hdbb | ]. split; [exact Hmissing | ].
  split; [ | split].
  - intros fuel msg reply c c1 c2 Hmu Hsend Hread Hjson.
    destruct (SendPlain_decoded dev ext fuel msg reply c c1 c2 jsonResult
                Hmu Hsend Hread Hjson) as [lg Hrun].
    now rewrite Hrun, He.
  - intros fuel msg password cipher reply c c0 c1 c2 Hlog Henc Hmu Hsend Hread Hjson.
    destruct (SendPlain_decoded dev ext fuel _ reply c0 c1 c2 jsonResult
                Hmu Hsend Hread Hjson) as [lg Hrun].
    rewrite He in Hrun.
    now rewrite (SendEncrypt_plain_error dev ext fuel msg password cipher c c0 _ e
                   Hlog Henc Hrun).
  - intros fuel msg password cipher c c0 c1 reply s decoded plain
           Hlog Henc Hplain Hs Hdec Hdecrypt Hjson.
    destruct (proj2 (SendEncrypt_reply dev ext fuel msg password cipher c c0 c1 reply
                       Hlog Henc Hplain) jsonResult s decoded plain Hs Hdec Hdecrypt Hjson)
      as [c2 Hrun].
    now rewrite Hrun, He.
Qed.

(** C10. When the error field of the decoded reply is present but is not
    an object, [maybeDBBErr] returns no error, and [SendPlain] and
    [SendEncrypt] return the reply itself as data. *)
Theorem maybeDBBErr_error_not_object {St : Type} (dev : Device St) (ext : Externals)
    (jsonResult : gmap string value) (v : value) :
  jsonResult !! "error" = Some v ->
  (forall m : gmap string value, v <> VObject m) ->
  maybeDBBErr jsonResult = None
  /\ (forall (fuel : nat) (msg reply : list byte) (c c1 c2 : Communication St),
        mutex c = false ->
        sendFrame dev msg c = (Ok tt, c1) ->
        readFrame dev fuel c1 = (Ok reply, c2) ->
        json_Unmarshal ext (trimSpaceNul ext reply) = inr jsonResult ->
        fst (SendPlain dev ext fuel msg c) = Ok jsonResult)
  /\ (forall (fuel : nat) (msg password cipher : list byte)
             (c c0 c1 : Communication St) (reply : gmap string value),
        logCensoredCmd ext msg false c = (Ok None, c0) ->
        Encrypt ext msg (DoubleHashB ext password) = inr cipher ->
        SendPlain dev ext fuel (base64_EncodeToString ext cipher) c0 = (Ok reply, c1) ->
        ((forall s : string, reply !! "ciphertext" <> Some (VString s)) ->
         jsonResult = reply ->
         fst (SendEncrypt dev ext fuel msg password c) = Ok jsonResult)
        /\ (forall (s : string) (decoded plain : list byte),
              reply !! "ciphertext" = Some (VString s) ->
              base64_DecodeString ext (String.list_byte_of_string s) = inr decoded ->
              Decrypt ext decoded (DoubleHashB ext password) = inr plain ->
              json_Unmarshal ext plain = inr jsonResult ->
              fst (SendEncrypt dev ext fuel msg password c) = Ok jsonResult)).
Proof.
  intros Herr Hobj.
  assert (Hnone : maybeDBBErr jsonResult = None).
  { unfold maybeDBBErr. rewrite Herr. destruct v; try reflexivity. now destruct (Hobj m). }
  split; [exact Hnone | ]. split.
  - intros fuel msg reply c c1 c2 Hmu Hsend Hread Hjson.
    destruct (SendPlain_decoded dev ext fuel msg reply c c1 c2 jsonResult
                Hmu Hsend Hread Hjson) as [lg Hrun].
    now rewrite Hrun, Hnone.
  - intros fuel msg password cipher c c0 c1 reply Hlog Henc Hplain.
    destruct (SendEncrypt_reply dev ext fuel msg password cipher c c0 c1 reply
                Hlog Henc Hplain) as [Hdirect Hdecrypted].
    split.
    + intros Hno Heq. rewrite (Hdirect jsonResult Hno Heq), Hnone. reflexivity.
    + intros s decoded plain Hs Hdec Hdecrypt Hjson.
      destruct (Hdecrypted jsonResult s decoded plain Hs Hdec Hdecrypt Hjson) as [c2 Hrun].
      now rewrite Hrun, Hnone.
Qed.

Lemma maybeDBBErr_error_object_witness :
  (errReply !! "error" = Some (VObject errInner)
   /\ errInner !! "message" = Some (VString "x")
   /\ errInner !! "code" = Some (VNumber 101%float)
   /\ mutex (answering [replyOf errText]) = false
   /\ sendFrame Replies pingText (answering [replyOf errText])
      = (Ok tt, answering [replyOf errText])
   /\ readFrame Replies 1 (answering [replyOf errText])
      = (Ok (drop 7 (replyOf errText)), answering [])
   /\ json_Unmarshal (demo true) (trimSpaceNul (demo true) (drop 7 (replyOf errText)))
      = inr errReply
   /\ maybeDBBErr errReply = Some (DBBErr "x" 101%float)
   /\ fst (SendPlain Replies (demo true) 1 pingText (answering [replyOf errText]))
      = Err (DBBErr "x" 101%float))
  /\ (noCodeReply !! "error" = Some (VObject noCodeInner)
      /\ (noCodeInner !! "message" = None \/ noCodeInner !! "code" = None)
      /\ mutex (answering [replyOf noCodeText]) = false
      /\ sendFrame Replies pingText (answering [replyOf noCodeText])
         = (Ok tt, answering [replyOf noCodeText])
      /\ readFrame Replies 1 (answering [replyOf noCodeText])
         = (Ok (drop 7 (replyOf noCodeText)), answering [])
      /\ json_Unmarshal (demo true) (trimSpaceNul (demo true) (drop 7 (replyOf noCodeText)))
         = inr noCodeReply
      /\ maybeDBBErr noCodeReply
         = Some (WithContext (ErrNew "Unexpected reply") (CtxReplyMap noCodeInner))
      /\ fst (SendPlain Replies (demo true) 1 pingText (answering [replyOf noCodeText]))
         = Err (WithContext (ErrNew "Unexpected reply") (CtxReplyMap noCodeInner))).
Proof.
  split.
  - assert (H1 : errReply !! "error" = Some (VObject errInner)) by (vm_compute; reflexivity).
    assert (H2 : errInner !! "message" = Some (VString "x")) by (vm_compute; reflexivity).
    assert (H3 : errInner !! "code" = Some (VNumber 101%float)) by (vm_compute; reflexivity).
    assert (H5 : sendFrame Replies pingText (answering [replyOf errText])
                 = (Ok tt, answering [replyOf errText])) by (vm_compute; reflexivity).
    assert (H6 : readFrame Replies 1 (answering [replyOf errText])
                 = (Ok (drop 7 (replyOf errText)), answering []))
      by (vm_compute; reflexivity).
    assert (H7 : json_Unmarshal (demo true)
                   (trimSpaceNul (demo true) (drop 7 (replyOf errText))) = inr errReply)
      by (vm_compute; reflexivity).
    destruct (maybeDBBErr_error_object Replies (demo true) errReply errInner H1)
      as (e & He & Hdbb & _ & Hplain & _).
    rewrite (Hdbb "x" 101%float H2 H3) in He, Hplain.
    split; [exact H1 | ]. split; [exact H2 | ]. split; [exact H3 | ].
    split; [reflexivity | ]. split; [exact H5 | ]. split; [exact H6 | ].
    split; [exact H7 | ]. split; [exact He | ].
    exact (Hplain 1%nat pingText (drop 7 (replyOf errText)) (answering [replyOf errText])
             (answering [replyOf errText]) (answering []) eq_refl H5 H6 H7).
  - assert (H1 : noCodeReply !! "error" = Some (VObject noCodeInner))
      by (vm_compute; reflexivity).
    assert (H2 : noCodeInner !! "message" = None \/ noCodeInner !! "code" = None)
      by (right; vm_compute; reflexivity).
    assert (H5 : sendFrame Replies pingText (answering [replyOf noCodeText])
                 = (Ok tt, answering [replyOf noCodeText])) by (vm_compute; reflexivity).
    assert (H6 : readFrame Replies 1 (answering [replyOf noCodeText])
                 = (Ok (drop 7 (replyOf noCodeText)), answering []))
      by (vm_compute; reflexivity).
    assert (H7 : json_Unmarshal (demo true)
                   (trimSpaceNul (demo true) (drop 7 (replyOf noCodeText))) = inr noCodeReply)
      by (vm_compute; reflexivity).
    destruct (maybeDBBErr_error_object Replies (demo true) noCodeReply noCodeInner H1)
      as (e & He & _ & Hmissing & Hplain & _).
    rewrite (Hmissing H2) in He, Hplain.
    split; [exact H1 | ]. split; [exact H2 | ].
    split; [reflexivity | ]. split; [exact H5 | ]. split; [exact H6 | ].
    split; [exact H7 | ]. split; [exact He | ].
    exact (Hplain 1%nat pingText (drop 7 (replyOf noCodeText))
             (answering [replyOf noCodeText]) (answering [replyOf noCodeText])
             (answering []) eq_refl H5 H6 H7).
Defined.

Lemma maybeDBBErr_error_not_object_witness :
  strErrReply !! "error" = Some (VString "busy")
  /\ (forall m : gmap string value, VString "busy" <> VObject m)
  /\ maybeDBBErr strErrReply = None
  /\ (mutex (answering [replyOf strErrText]) = false
      /\ sendFrame Replies pingText (answering [replyOf strErrText])
         = (Ok tt, answering [replyOf strErrText])
      /\ readFrame Replies 1 (answering [replyOf strErrText])
         = (Ok (drop 7 (replyOf strErrText)), answering [])
      /\ json_Unmarshal (demo true) (trimSpaceNul (demo true) (drop 7 (replyOf strErrText)))
         = inr strErrReply
      /\ fst (SendPlain Replies (demo true) 1 pingText (answering [replyOf strErrText]))
         = Ok strErrReply)
  /\ (logCensoredCmd (demo true) pingText false (answering [replyOf cipherText])
      = (Ok None, pingLogged [replyOf cipherText])
      /\ Encrypt (demo true) pingText (DoubleHashB (demo true) []) = inr pingText
      /\ SendPlain Replies (demo true) 1 (base64_EncodeToString (demo true) pingText)
           (pingLogged [replyOf cipherText])
         = (Ok cipherReply,
            snd (SendPlain Replies (demo true) 1 (base64_EncodeToString (demo true) pingText)
                   (pingLogged [replyOf cipherText])))
      /\ cipherReply !! "ciphertext" = Some (VString (String.string_of_list_byte strErrText))
      /\ base64_DecodeString (demo true)
           (String.list_byte_of_string (String.string_of_list_byte strErrText))
         = inr strErrText
      /\ Decrypt (demo true) strErrText (DoubleHashB (demo true) []) = inr strErrText
      /\ json_Unmarshal (demo true) strErrText = inr strErrReply
      /\ fst (SendEncrypt Replies (demo true) 1 pingText [] (answering [replyOf cipherText]))
         = Ok strErrReply).
Proof.
  assert (H1 : strErrReply !! "error" = Some (VString "busy")) by (vm_compute; reflexivity).
  assert (H2 : forall m : gmap string value, VString "busy" <> VObject m) by discriminate.
  pose proof (maybeDBBErr_error_not_object Replies (demo true) strErrReply
                (VString "busy") H1 H2) as (Hnone & Hplain & Hencrypt).
  split; [exact H1 | ]. split; [exact H2 | ]. split; [exact Hnone | ]. split.
  - assert (P2 : sendFrame Replies pingText (answering [replyOf strErrText])
                 = (Ok tt, answering [replyOf strErrText])) by (vm_compute; reflexivity).
    assert (P3 : readFrame Replies 1 (answering [replyOf strErrText])
                 = (Ok (drop 7 (replyOf strErrText)), answering []))
      by (vm_compute; reflexivity).
    assert (P4 : json_Unmarshal (demo true)
                   (trimSpaceNul (demo true) (drop 7 (replyOf strErrText))) = inr strErrReply)
      by (vm_compute; reflexivity).
    split; [reflexivity | ]. split; [exact P2 | ]. split; [exact P3 | ]. split; [exact P4 | ].
    exact (Hplain 1%nat pingText _ (answering [replyOf strErrText]) _ _ eq_refl P2 P3 P4).
  - assert (E1 : logCensoredCmd (demo true) pingText false (answering [replyOf cipherText])
                 = (Ok None, pingLogged [replyOf cipherText])) by (vm_compute; reflexivity).
    assert (E2 : Encrypt (demo true) pingText (DoubleHashB (demo true) []) = inr pingText)
      by reflexivity.
    assert (E3 : SendPlain Replies (demo true) 1 (base64_EncodeToString (demo true) pingText)
                   (pingLogged [replyOf cipherText])
                 = (Ok cipherReply,
                    snd (SendPlain Replies (demo true) 1
                           (base64_EncodeToString (demo true) pingText)
                           (pingLogged [replyOf cipherText])))) by (vm_compute; reflexivity).
    assert (E4 : cipherReply !! "ciphertext"
                 = Some (VString (String.string_of_list_byte strErrText)))
      by (vm_compute; reflexivity).
    assert (E5 : base64_DecodeString (demo true)
                   (String.list_byte_of_string (String.string_of_list_byte strErrText))
                 = inr strErrText) by (vm_compute; reflexivity).
    assert (E6 : Decrypt (demo true) strErrText (DoubleHashB (demo true) []) = inr strErrText)
      by reflexivity.
    assert (E7 : json_Unmarshal (demo true) strErrText = inr strErrReply)
      by (vm_compute; reflexivity).
    split; [exact E1 | ]. split; [exact E2 | ]. split; [exact E3 | ]. split; [exact E4 | ].
    split; [exact E5 | ]. split; [exact E6 | ]. split; [exact E7 | ].
    exact (proj2 (Hencrypt 1%nat pingText [] pingText (answering [replyOf cipherText])
                    (pingLogged [replyOf cipherText]) _ cipherReply E1 E2 E3)
             _ strErrText strErrText E4 E5 E6 E7).
Defined.

(** ** Failures of the logging step *)

(** C3 (the code at the failing input). With the debug level enabled,
    [SendEncrypt] of a command that does not decode as a JSON object returns
    the error of the logging step under the message "Invalid JSON passed.
    Continuing anyway": it does not continue, and nothing is sent, read or
    logged. *)
Theorem SendEncrypt_invalid_json {St : Type} (dev : Device St) (ext : Externals)
    (fuel : nat) (msg password : list byte) (c : Communication St) (e : error) :
  debugLevel ext = true ->
  json_Unmarshal ext msg = inl e ->
  SendEncrypt dev ext fuel msg password c =
    (Err (WithMessage (ErrNew "Failed to unmarshal message")
            "Invalid JSON passed. Continuing anyway"), c).
Proof.
  intros Hdebug Hjson. unfold SendEncrypt, bind, logCensoredCmd.
  rewrite Hdebug, Hjson. reflexivity.
Qed.

Lemma SendEncrypt_invalid_json_witness :
  debugLevel (demo true) = true
  /\ json_Unmarshal (demo true) helloText = inl (ErrLib "json" "invalid character")
  /\ SendEncrypt Replies (demo true) 1 helloText [] (answering [replyOf strErrText])
     = (Err (WithMessage (ErrNew "Failed to unmarshal message")
               "Invalid JSON passed. Continuing anyway"),
        answering [replyOf strErrText]).
Proof.
  assert (H : json_Unmarshal (demo true) helloText = inl (ErrLib "json" "invalid character"))
    by (vm_compute; reflexivity).
  split; [reflexivity | ]. split; [exact H | ].
  exact (SendEncrypt_invalid_json Replies (demo true) 1 helloText []
           (answering [replyOf strErrText]) _ eq_refl H).
Defined.

(** The same command and reply with the debug level disabled: [SendEncrypt]
    goes on and returns the reply. *)
Example SendEncrypt_invalid_json_unlogged :
  fst (SendEncrypt Replies (demo false) 1 helloText [] (answering [replyOf strErrText]))
  = Ok strErrReply.
Proof. vm_compute. reflexivity. Qed.

(** [SendPlain] of the same command with the debug level enabled: the
    failure of the logging step is only logged, the frame is written and the
    reply is returned. *)
Example SendPlain_invalid_json_logged :
  fst (SendPlain Replies (demo true) 1 helloText (answering [replyOf strErrText]))
  = Ok strErrReply
  /\ writes (snd (device (snd (SendPlain (Recorder Replies) (demo true) 1 helloText
                                 (NewCommunication ([replyOf strErrText], []) 64 64)))))
     = frames 64 helloText.
Proof. split; vm_compute; reflexivity. Qed.

(** A reply that does not decode makes [SendPlain] fail with or without the
    debug level; only the error differs. *)
Example SendPlain_reply_not_json :
  fst (SendPlain Replies (demo true) 1 pingText (answering [replyOf helloText]))
  = Err (WithContext (ErrNew "Failed to unmarshal message") (CtxReply helloText))
  /\ fst (SendPlain Replies (demo false) 1 pingText (answering [replyOf helloText]))
     = Err (Wrap (ErrLib "json" "invalid character") "Failed to unmarshal reply").
Proof. split; vm_compute; reflexivity. Qed.

(** ** The size guard of [SendBootloader] *)

Section Quiet.
Context {St : Type} (dev : Device St) (ext : Externals).

Lemma quiet_ret {A} (a : A) : quiet (ret a : M (Communication St) A).
Proof. intros c. split; [reflexivity | discriminate]. Qed.

Lemma quiet_fail {A} (e : error) : quiet (fail e : M (Communication St) A).
Proof. intros c. split; [reflexivity | discriminate]. Qed.

Lemma quiet_diverge {A} : quiet (diverge : M (Communication St) A).
Proof. intros c. split; [reflexivity | discriminate]. Qed.

Lemma quiet_bind {A B} (m : M (Communication St) A) (k : A -> M (Communication St) B) :
  quiet m -> (forall a, quiet (k a)) -> quiet (bind m k).
Proof.
  intros Hm Hk c. unfold bind. destruct (Hm c) as [Hlog Hres].
  destruct (m c) as [[a | e | p | ] c1]; cbn [fst snd] in *;
    try (split; [exact Hlog | congruence]).
  destruct (Hk a c1) as [Hlog' Hres']. split; [congruence | exact Hres'].
Qed.

Lemma quiet_Write (buf : list byte) : quiet (Write dev buf).
Proof.
  intros c. unfold Write. destruct (dev_Write dev buf (device c)).
  split; [reflexivity | discriminate].
Qed.

Lemma quiet_Read (n : Z) : quiet (Read dev n).
Proof.
  intros c. unfold Read. destruct (n <? 0); [split; [reflexivity | discriminate] | ].
  destruct (dev_Read dev (Z.to_nat n) (device c)). split; [reflexivity | discriminate].
Qed.

Lemma quiet_bootWrite (fuel : nat) :
  forall (written : Z) (paddedMsg : list byte),
    quiet (bootWrite dev ext fuel written paddedMsg).
Proof.
  induction fuel as [ | fuel IH]; intros written paddedMsg; cbn [bootWrite];
    destruct (written <? sendLen); try apply quiet_ret.
  - apply quiet_diverge.
  - intros c. destruct (Next (usbWriteReportSize c) paddedMsg) as [[chunk rest] | ].
    + apply quiet_bind; [apply quiet_Write | ].
      intros [e | ]; [apply quiet_fail | apply IH].
    + split; [reflexivity | discriminate].
Qed.

Lemma quiet_bootRead (fuel : nat) :
  forall read : list byte, quiet (bootRead dev fuel read).
Proof.
  induction fuel as [ | fuel IH]; intros read; cbn [bootRead];
    destruct (_ <? readLen); try apply quiet_ret.
  - apply quiet_diverge.
  - intros c. apply quiet_bind; [apply quiet_Read | ].
    intros [e | currentRead]; [apply quiet_fail | apply IH].
Qed.

End Quiet.

Lemma SendBootloader_unlocked {St : Type} (dev : Device St) (ext : Externals)
    (fuel : nat) (msg : list byte) (c : Communication St) :
  mutex c = false ->
  SendBootloader dev ext fuel msg c =
    defer Unlock
      (if sendLen <? Z.of_nat (length msg) then
         let* _ := add_log (mkEntry PanicLevel
                      [("message-length", FInt (Z.of_nat (length msg)));
                       ("max-send-length", FInt sendLen)] "Message too long") in
         panic "Message too long"
       else
         let* _ := bootWrite dev ext fuel 0
                     (msg ++ replicate (Z.to_nat (sendLen - Z.of_nat (length msg)))
                               "000"%byte) in
         let* read := bootRead dev fuel [] in
         ret (TrimRight read ["000"; "009"; "013"; "010"]%byte))
      (set_mutex c true).
Proof.
  intros Hmu. unfold SendBootloader. unfold bind at 1. unfold Lock. rewrite Hmu.
  reflexivity.
Qed.

(** C6. A bootloader request of more than 4098 bytes makes
    [SendBootloader] panic with "Message too long" before any call on the
    device: the device, here with the record of the calls made on it, is
    left as it was. For a request of at most 4098 bytes the guard is not
    taken: no such panic is raised and nothing is logged. *)
Theorem SendBootloader_guard {St : Type} (d : Device St) (ext : Externals)
    (fuel : nat) (msg : list byte) (c : Communication (St * list event)) :
  mutex c = false ->
  (4098 < Z.of_nat (length msg) ->
   fst (SendBootloader (Recorder d) ext fuel msg c) = Panic "Message too long"
   /\ device (snd (SendBootloader (Recorder d) ext fuel msg c)) = device c)
  /\ (Z.of_nat (length msg) <= 4098 ->
      fst (SendBootloader (Recorder d) ext fuel msg c) <> Panic "Message too long"
      /\ log (snd (SendBootloader (Recorder d) ext fuel msg c)) = log c).
Proof.
  intros Hmu. rewrite !SendBootloader_unlocked by exact Hmu. unfold defer. split.
  - intros Hlen.
    replace (sendLen <? Z.of_nat (length msg)) with true
      by (symmetry; apply Z.ltb_lt; unfold sendLen; lia).
    split; reflexivity.
  - intros Hlen.
    replace (sendLen <? Z.of_nat (length msg)) with false
      by (symmetry; apply Z.ltb_ge; unfold sendLen; lia).
    assert (Hq : quiet (let* _ := bootWrite (Recorder d) ext fuel 0
                            (msg ++ replicate (Z.to_nat (sendLen - Z.of_nat (length msg)))
                                      "000"%byte) in
                        let* read := bootRead (Recorder d) fuel [] in
                        ret (TrimRight read ["000"; "009"; "013"; "010"]%byte))).
    { apply quiet_bind; [apply quiet_bootWrite | ]. intros _.
      apply quiet_bind; [apply quiet_bootRead | ]. intros read. apply quiet_ret. }
    destruct (Hq (set_mutex c true)) as [Hlog Hres].
    match goal with
    | |- context [let (r, c') := ?run in _] => destruct run as [[a | e | p | ] c1]
    end; cbn [fst snd] in *; (split; [congruence | exact Hlog]).
Qed.

Lemma SendBootloader_guard_witness :
  mutex (recordedReplies 64) = false
  /\ (4098 < Z.of_nat (length tooLong)
      /\ fst (SendBootloader (Recorder Replies) (demo false) 1 tooLong (recordedReplies 64))
         = Panic "Message too long"
      /\ device (snd (SendBootloader (Recorder Replies) (demo false) 1 tooLong
                        (recordedReplies 64)))
         = device (recordedReplies 64))
  /\ (Z.of_nat (length pingText) <= 4098
      /\ fst (SendBootloader (Recorder Replies) (demo false) 1 pingText (recordedReplies 64))
         <> Panic "Message too long"
      /\ log (snd (SendBootloader (Recorder Replies) (demo false) 1 pingText
                     (recordedReplies 64)))
         = log (recordedReplies 64)).
Proof.
  assert (Hlong : 4098 < Z.of_nat (length tooLong)) by (vm_compute; reflexivity).
  assert (Hshort : Z.of_nat (length pingText) <= 4098) by (vm_compute; discriminate).
  split; [reflexivity | ]. split.
  - split; [exact Hlong | ].
    exact (proj1 (SendBootloader_guard Replies (demo false) 1 tooLong (recordedReplies 64)
                    eq_refl) Hlong).
  - split; [exact Hshort | ].
    exact (proj2 (SendBootloader_guard Replies (demo false) 1 pingText (recordedReplies 64)
                    eq_refl) Hshort).
Defined.

(** A request of 11 bytes with reports of 64 bytes on a platform other
    than Windows: 65 packets are written, each led by a zero byte, before
    the first read. *)
Example SendBootloader_packets :
  let run := SendBootloader (Recorder Replies) (demo false) 100 pingText
               (NewCommunication ([replicate 256 "000"%byte], []) 64 256) in
  fst run = Ok []
  /\ length (writes (snd (device (snd run)))) = 65%nat
  /\ writes (snd (device (snd run))) !! 0%nat
     = Some ("000"%byte :: pingText ++ replicate 53 "000"%byte)
  /\ mutex (snd run) = false.
Proof. vm_compute. repeat split; reflexivity. Qed.

(** ** The mutex in a sequential run

    The exclusion of concurrent callers is a property of [sync.Mutex] and of
    the scheduler. What can be said of one call: while the mutex is held by
    another caller, [SendBootloader] and [SendPlain] make no call on the
    device and do not return. *)

Lemma SendBootloader_blocked {St : Type} (dev : Device St) (ext : Externals)
    (fuel : nat) (msg : list byte) (c : Communication St) :
  mutex c = true ->
  SendBootloader dev ext fuel msg c = (OutOfFuel, c).
Proof.
  intros Hmu. unfold SendBootloader. unfold bind at 1. unfold Lock. now rewrite Hmu.
Qed.

Lemma SendPlain_blocked {St : Type} (dev : Device St) (ext : Externals)
    (fuel : nat) (msg : list byte) (c : Communication St) :
  mutex c = true ->
  exists lg : list Entry,
    SendPlain dev ext fuel msg c = (OutOfFuel, with_env c true lg).
Proof.
  intros Hmu. unfold SendPlain. unfold bind at 1.
  destruct (logCensoredCmd_run ext msg false c) as [lg0 ->]. rewrite Hmu.
  destruct (if debugLevel ext then _ else None); unfold bind, add_log, ret, Lock;
    cbn [mutex with_env]; eexists; reflexivity.
Qed.

(** * Further properties *)

(** ** Outcomes of [sendFrame] *)




(** ** The number of frames and the init header *)

Lemma length_contFrames (fuel : nat) :
  forall (n seq : Z) (rb : list byte),
    6 <= n ->
    (length rb <= fuel)%nat ->
    Z.of_nat (length rb) <= Z.of_nat (length (contFrames fuel n seq rb)) * (n - 5)
    /\ (rb <> [] ->
        (Z.of_nat (length (contFrames fuel n seq rb)) - 1) * (n - 5) < Z.of_nat (length rb)).
Proof.
  induction fuel as [ | fuel IH]; intros n seq rb Hn Hfuel.
  - destruct rb; [ | simpl in Hfuel; lia]. cbn. split; [lia | congruence].
  - destruct (decide (rb = [])) as [-> | Hne]; [cbn; split; [lia | congruence] | ].
    rewrite contFrames_S by exact Hne. cbn [length].
    assert (Hl : (1 <= length rb)%nat) by (destruct rb; simpl; [congruence | lia]).
    destruct (IH n (seq + 1) (drop (Z.to_nat (n - 5)) rb) Hn) as [Hle Hlt].
    { rewrite length_drop. lia. }
    rewrite length_drop in Hle, Hlt. split; [nia | ]. intros _.
    destruct (decide (drop (Z.to_nat (n - 5)) rb = [])) as [E | E].
    + rewrite E, contFrames_nil. cbn. lia.
    + specialize (Hlt E).
      assert (Z.to_nat (n - 5) < length rb)%nat.
      { destruct (le_lt_dec (length rb) (Z.to_nat (n - 5))) as [Hle' | Hlt']; [ | exact Hlt'].
        exfalso. apply E. now apply drop_ge. }
      nia.
Qed.

Lemma sendFrame_trace_ok {St : Type} (d : Device St) (msg : list byte)
    (c c' : Communication (St * list event)) :
  snd (device c) = [] ->
  msg <> [] ->
  sendFrame (Recorder d) msg c = (Ok tt, c') ->
  7 <= usbWriteReportSize c
  /\ snd (device c') = map EvWrite (frames (usbWriteReportSize c) msg).
Proof.
  intros Htr Hmsg Hrun.
  destruct (Z_lt_le_dec (usbWriteReportSize c) 7) as [Hn | Hn].
  { rewrite sendFrame_small in Hrun by assumption. discriminate Hrun. }
  split; [exact Hn | ].
  rewrite sendFrame_writeAll in Hrun by assumption.
  destruct (device c) as [s tr] eqn:Ec. cbn in Htr. subst tr. unfold sent in Hrun.
  destruct (writeAll_Recorder d (frames (usbWriteReportSize c) msg) s []) as (j & Hw & Hall).
  destruct (writeAll (Recorder d) _ (s, [])) as [[e | ] [s' tr']]; [discriminate Hrun | ].
  injection Hrun as <-. cbn in Hw, Hall |- *. now rewrite Hw, (Hall eq_refl).
Qed.

(** X2. When [sendFrame] returns normally for a non-empty message of [L]
    bytes, the write size [n] is at least 7 and the number [k] of frames
    written is the least one whose capacity [(n - 7) + (k - 1) * (n - 5)]
    holds the message: one init frame and as many continuation frames as
    the rest of the message needs. *)
Theorem sendFrame_frame_count {St : Type} (d : Device St) (msg : list byte)
    (c c' : Communication (St * list event)) :
  snd (device c) = [] ->
  msg <> [] ->
  sendFrame (Recorder d) msg c = (Ok tt, c') ->
  let n := usbWriteReportSize c in
  let L := Z.of_nat (length msg) in
  let k := Z.of_nat (length (snd (device c'))) in
  7 <= n
  /\ 1 <= k
  /\ L <= (n - 7) + (k - 1) * (n - 5)
  /\ (1 < k -> (n - 7) + (k - 2) * (n - 5) < L).
Proof.
  intros Htr Hmsg Hrun n L k.
  destruct (sendFrame_trace_ok d msg c c' Htr Hmsg Hrun) as [Hn Hw]. fold n in Hn, Hw.
  assert (Hk : k = 1 + Z.of_nat (length (contFrames (length msg) n 0
                                           (drop (Z.to_nat (n - 7)) msg)))).
  { unfold k. rewrite Hw, length_map. unfold frames. cbn [length]. lia. }
  destruct (length_contFrames (length msg) n 0 (drop (Z.to_nat (n - 7)) msg)) as [Hle Hlt].
  { lia. }
  { rewrite length_drop. lia. }
  rewrite length_drop in Hle, Hlt.
  split; [exact Hn | ]. split; [lia | ].
  destruct (decide (drop (Z.to_nat (n - 7)) msg = [])) as [E | E].
  - rewrite E, contFrames_nil in Hk. cbn in Hk. apply drop_nil_length in E.
    unfold L. split; [nia | lia].
  - specialize (Hlt E).
    assert (Z.to_nat (n - 7) < length msg)%nat.
    { destruct (le_lt_dec (length msg) (Z.to_nat (n - 7))) as [Hle' | Hlt']; [ | exact Hlt'].
      exfalso. apply E. now apply drop_ge. }
    unfold L. split; [nia | intros _; nia].
Qed.

Lemma sendFrame_frame_count_witness :
  snd (device (recordedPipe 9)) = []
  /\ shortMsg <> []
  /\ sendFrame (Recorder Pipe) shortMsg (recordedPipe 9) = (Ok tt, snd shortRun)
  /\ 7 <= 9
  /\ 1 <= Z.of_nat (length (snd (device (snd shortRun))))
  /\ Z.of_nat (length shortMsg)
     <= (9 - 7) + (Z.of_nat (length (snd (device (snd shortRun)))) - 1) * (9 - 5)
  /\ (1 < Z.of_nat (length (snd (device (snd shortRun)))) ->
      (9 - 7) + (Z.of_nat (length (snd (device (snd shortRun)))) - 2) * (9 - 5)
      < Z.of_nat (length shortMsg)).
Proof.
  assert (Hmsg : shortMsg <> []) by discriminate.
  assert (Hrun : sendFrame (Recorder Pipe) shortMsg (recordedPipe 9) = (Ok tt, snd shortRun))
    by (vm_compute; reflexivity).
  split; [reflexivity | ]. split; [exact Hmsg | ]. split; [exact Hrun | ].
  exact (sendFrame_frame_count Pipe shortMsg (recordedPipe 9) (snd shortRun)
           eq_refl Hmsg Hrun).
Defined.

(** X3. The first frame that [sendFrame] writes begins with the channel
    identifier ff 00 00 00 and the command byte c1, followed by the length
    of the message modulo 65536 as a big endian 16 bit number: a message of
    more than 65535 bytes declares a length that is too small. *)
Theorem sendFrame_init_header {St : Type} (d : Device St) (msg : list byte)
    (c c' : Communication (St * list event)) (res : result unit) (f : list byte) :
  snd (device c) = [] ->
  sendFrame (Recorder d) msg c = (res, c') ->
  writes (snd (device c')) !! 0%nat = Some f ->
  take 5 f = ["255"; "000"; "000"; "000"; "193"]%byte
  /\ int (at_ f 5) * 256 + int (at_ f 6) = Z.of_nat (length msg) mod 65536.
Proof.
  intros Htr Hrun Hf.
  destruct (sendFrame_writes d msg c c' res Htr Hrun) as (j & Hw & _).
  rewrite Hw in Hf. apply lookup_take_Some in Hf as [Hf _].
  apply frames_lookup in Hf. subst f. split; [reflexivity | ].
  change (at_ (frame _ _ _) 5) with (at_ (be16 (Z.land (Z.of_nat (length msg)) 0xFFFF)) 0).
  change (at_ (frame _ _ _) 6) with (at_ (be16 (Z.land (Z.of_nat (length msg)) 0xFFFF)) 1).
  change 0xFFFF with (Z.ones 16). rewrite Z.land_ones by lia.
  change (2 ^ 16) with 65536. apply be16_decode. apply Z.mod_pos_bound. lia.
Qed.

Lemma sendFrame_init_header_witness :
  snd (device (recordedPipe 9)) = []
  /\ sendFrame (Recorder Pipe) shortMsg (recordedPipe 9) = (fst shortRun, snd shortRun)
  /\ writes (snd (device (snd shortRun))) !! 0%nat
     = Some ["255"; "000"; "000"; "000"; "193"; "000"; "007"; "a"; "b"]%byte
  /\ take 5 ["255"; "000"; "000"; "000"; "193"; "000"; "007"; "a"; "b"]%byte
     = ["255"; "000"; "000"; "000"; "193"]%byte
  /\ int (at_ ["255"; "000"; "000"; "000"; "193"; "000"; "007"; "a"; "b"]%byte 5) * 256
     + int (at_ ["255"; "000"; "000"; "000"; "193"; "000"; "007"; "a"; "b"]%byte 6)
     = Z.of_nat (length shortMsg) mod 65536.
Proof.
  assert (Hrun : sendFrame (Recorder Pipe) shortMsg (recordedPipe 9)
                 = (fst shortRun, snd shortRun)) by (vm_compute; reflexivity).
  assert (Hf : writes (snd (device (snd shortRun))) !! 0%nat
               = Some ["255"; "000"; "000"; "000"; "193"; "000"; "007"; "a"; "b"]%byte)
    by (vm_compute; reflexivity).
  split; [reflexivity | ]. split; [exact Hrun | ]. split; [exact Hf | ].
  exact (sendFrame_init_header Pipe shortMsg (recordedPipe 9) (snd shortRun) (fst shortRun)
           _ eq_refl Hrun Hf).
Defined.

(** ** What [readFrame] accepts and what it rejects *)

Lemma int_inj (a b : byte) : int a = int b -> a = b.
Proof.
  unfold int. intros H. apply N2Z.inj in H.
  pose proof (Byte.of_to_N a) as Ha. rewrite H, Byte.of_to_N in Ha. congruence.
Qed.

Lemma readCont_extends {St : Type} (dev : Device St) (fuel : nat) :
  forall (size idx dataLen : Z) (data data' : list byte) (c c' : Communication St),
    readCont dev fuel size idx dataLen data c = (Ok data', c') ->
    exists more : list byte, data' = data ++ more.
Proof.
  induction fuel as [ | fuel IH]; intros size idx dataLen data data' c c' H;
    cbn [readCont] in H; destruct (idx <? dataLen);
    try (injection H as <- <-; exists []; now rewrite app_nil_r); [discriminate H | ].
  unfold bind, Read in H. destruct (size <? 0); [discriminate H | ].
  destruct (dev_Read dev (Z.to_nat size) (device c)) as [[e | read] s]; [discriminate H | ].
  destruct (_ <? 5); [discriminate H | ].
  apply IH in H as [more ->]. exists (drop 5 read ++ more). now rewrite app_assoc.
Qed.

Lemma header_bytes (read : list byte) :
  (7 <= length read)%nat ->
  int (at_ read 0) = 0xff -> int (at_ read 1) = 0 ->
  int (at_ read 2) = 0 -> int (at_ read 3) = 0 ->
  take 4 read = ["255"; "000"; "000"; "000"]%byte.
Proof.
  intros Hlen H0 H1 H2 H3.
  destruct read as [ | b0 [ | b1 [ | b2 [ | b3 rest]]]]; try (simpl in Hlen; lia).
  unfold at_ in *. cbn in *.
  rewrite (int_inj b0 "255"%byte H0), (int_inj b1 "000"%byte H1),
    (int_inj b2 "000"%byte H2), (int_inj b3 "000"%byte H3).
  now rewrite take_0.
Qed.

(** X4. Whatever the device, [readFrame] returns a payload only if its
    first read delivered at least 7 bytes that begin with the channel
    identifier ff 00 00 00 and the command byte c1; the payload then begins
    with the bytes of that read after the 7 byte header. *)
Theorem readFrame_accepted_header {St : Type} (dev : Device St) (fuel : nat)
    (c c' : Communication St) (data : list byte) :
  readFrame dev fuel c = (Ok data, c') ->
  exists (read : list byte) (s : St),
    0 <= usbReadReportSize c
    /\ dev_Read dev (Z.to_nat (usbReadReportSize c)) (device c) = (inr read, s)
    /\ (7 <= length read)%nat
    /\ take 5 read = ["255"; "000"; "000"; "000"; "193"]%byte
    /\ exists more : list byte, data = drop 7 read ++ more.
Proof.
  intros H. unfold readFrame, bind, Read in H.
  destruct (usbReadReportSize c <? 0) eqn:E0; [discriminate H | ]. apply Z.ltb_ge in E0.
  destruct (dev_Read dev _ (device c)) as [[e | read] s] eqn:Er; [discriminate H | ].
  destruct (Z.of_nat (length read) <? 7) eqn:E7; [discriminate H | ]. apply Z.ltb_ge in E7.
  destruct (negb (int (at_ read 0) =? 255) || _ || _ || _) eqn:Eid; [discriminate H | ].
  destruct (negb (int (at_ read 4) =? hwwCMD)) eqn:Ecmd; [discriminate H | ].
  apply readCont_extends in H as [more Hmore].
  repeat (apply orb_false_elim in Eid as [Eid ?]).
  repeat match goal with
         | E : negb _ = false |- _ => apply negb_false_iff, Z.eqb_eq in E
         end.
  exists read, s. split; [exact E0 | ]. split; [reflexivity | ]. split; [lia | ].
  split; [ | exists more; exact Hmore].
  assert (H4 : take 4 read = ["255"; "000"; "000"; "000"]%byte)
    by (apply header_bytes; [lia | assumption ..]).
  assert (Hc : at_ read 4 = "193"%byte) by (apply int_inj; exact Ecmd).
  destruct read as [ | b0 [ | b1 [ | b2 [ | b3 [ | b4 rest]]]]]; try (simpl in E7; lia).
  cbn in H4, Hc |- *. injection H4 as -> -> -> ->.
  unfold at_ in Hc. cbn in Hc. now rewrite Hc.
Qed.

Lemma readFrame_accepted_header_witness :
  readFrame Pipe 2 replyPipe = (Ok ["a"; "b"; "c"; "d"]%byte, pipe 8)
  /\ exists (read : list byte) (s : list (list byte)),
       0 <= usbReadReportSize replyPipe
       /\ dev_Read Pipe (Z.to_nat (usbReadReportSize replyPipe)) (device replyPipe)
          = (inr read, s)
       /\ (7 <= length read)%nat
       /\ take 5 read = ["255"; "000"; "000"; "000"; "193"]%byte
       /\ exists more : list byte, ["a"; "b"; "c"; "d"]%byte = drop 7 read ++ more.
Proof.
  assert (Hrun : readFrame Pipe 2 replyPipe = (Ok ["a"; "b"; "c"; "d"]%byte, pipe 8))
    by (vm_compute; reflexivity).
  split; [exact Hrun | ].
  exact (readFrame_accepted_header Pipe 2 replyPipe (pipe 8) _ Hrun).
Defined.

(** X5. The rejections of [readFrame], in the order of its checks, each
    after a single read: an error of the device is returned; a read of fewer
    than 7 bytes is a short read; otherwise a channel identifier other than
    ff 00 00 00 is a command ID mismatch, also when the command byte is wrong
    too; otherwise a command byte other than c1 is a frame mismatch that
    carries the byte seen and the byte expected. *)
Theorem readFrame_rejects {St : Type} (dev : Device St) (fuel : nat)
    (c : Communication St) (r : error + list byte) (s : St) :
  0 <= usbReadReportSize c ->
  dev_Read dev (Z.to_nat (usbReadReportSize c)) (device c) = (r, s) ->
  (forall e : error, r = inl e ->
     readFrame dev fuel c = (Err (WithStack e), set_device c s))
  /\ (forall read : list byte, r = inr read -> (length read < 7)%nat ->
        readFrame dev fuel c
        = (Err (ErrNew "expected minimum read length of 7"), set_device c s))
  /\ (forall read : list byte, r = inr read -> (7 <= length read)%nat ->
        take 4 read <> ["255"; "000"; "000"; "000"]%byte ->
        readFrame dev fuel c = (Err (ErrNew "USB command ID mismatch"), set_device c s))
  /\ (forall read : list byte, r = inr read -> (7 <= length read)%nat ->
        take 4 read = ["255"; "000"; "000"; "000"]%byte ->
        at_ read 4 <> "193"%byte ->
        readFrame dev fuel c
        = (Err (ErrNewf "USB command frame mismatch (%d, expected %d)"
                  [int (at_ read 4); 193]), set_device c s)).
Proof.
  intros Hsize Hread. unfold readFrame, bind, Read.
  replace (usbReadReportSize c <? 0) with false by (symmetry; apply Z.ltb_ge; lia).
  rewrite Hread. split; [intros e ->; reflexivity | ]. split; [ | split].
  - intros read -> Hlen.
    replace (Z.of_nat (length read) <? 7) with true by (symmetry; apply Z.ltb_lt; lia).
    reflexivity.
  - intros read -> Hlen Hid.
    replace (Z.of_nat (length read) <? 7) with false by (symmetry; apply Z.ltb_ge; lia).
    destruct (negb (int (at_ read 0) =? 255) || _ || _ || _) eqn:Eid; [reflexivity | ].
    exfalso. apply Hid.
    repeat (apply orb_false_elim in Eid as [Eid ?]).
    repeat match goal with
           | E : negb _ = false |- _ => apply negb_false_iff, Z.eqb_eq in E
           end.
    apply header_bytes; assumption.
  - intros read -> Hlen Hid Hcmd.
    replace (Z.of_nat (length read) <? 7) with false by (symmetry; apply Z.ltb_ge; lia).
    destruct read as [ | b0 [ | b1 [ | b2 [ | b3 [ | b4 rest]]]]]; try (simpl in Hlen; lia).
    cbn in Hid. injection Hid as -> -> -> ->.
    unfold at_ in Hcmd |- *. cbn in Hcmd |- *.
    destruct (int b4 =? hwwCMD) eqn:E; [ | reflexivity].
    exfalso. apply Hcmd. apply int_inj. apply Z.eqb_eq in E. exact E.
Qed.

Lemma readFrame_rejects_witness :
  0 <= usbReadReportSize (NewCommunication [wrongCmd] 8 8)
  /\ dev_Read Pipe (Z.to_nat (usbReadReportSize (NewCommunication [wrongCmd] 8 8)))
       (device (NewCommunication [wrongCmd] 8 8)) = (inr wrongCmd, [])
  /\ (7 <= length wrongCmd)%nat
  /\ take 4 wrongCmd = ["255"; "000"; "000"; "000"]%byte
  /\ at_ wrongCmd 4 <> "193"%byte
  /\ readFrame Pipe 1 (NewCommunication [wrongCmd] 8 8)
     = (Err (ErrNewf "USB command frame mismatch (%d, expected %d)"
               [int (at_ wrongCmd 4); 193]),
        set_device (NewCommunication [wrongCmd] 8 8) []).
Proof.
  assert (H0 : 0 <= usbReadReportSize (NewCommunication [wrongCmd] 8 8))
    by (vm_compute; discriminate).
  assert (H1 : dev_Read Pipe (Z.to_nat (usbReadReportSize (NewCommunication [wrongCmd] 8 8)))
                 (device (NewCommunication [wrongCmd] 8 8)) = (inr wrongCmd, []))
    by reflexivity.
  assert (H2 : (7 <= length wrongCmd)%nat) by (vm_compute; lia).
  assert (H3 : take 4 wrongCmd = ["255"; "000"; "000"; "000"]%byte) by reflexivity.
  assert (H4 : at_ wrongCmd 4 <> "193"%byte) by (vm_compute; discriminate).
  split; [exact H0 | ]. split; [exact H1 | ]. split; [exact H2 | ].
  split; [exact H3 | ]. split; [exact H4 | ].
  exact (proj2 (proj2 (proj2 (readFrame_rejects Pipe 1 (NewCommunication [wrongCmd] 8 8)
                                 (inr wrongCmd) [] H0 H1)))
           wrongCmd eq_refl H2 H3 H4).
Defined.

(** ** Continuation headers are not looked at *)

Lemma length_reheader (h report : list byte) :
  length h = 5%nat -> length (reheader h report) = length report.
Proof.
  intros Hh. unfold reheader. destruct (decide (5 <= length report)%nat); [ | reflexivity].
  rewrite length_app, length_drop. lia.
Qed.

Lemma drop_take_5 (l : list byte) (k : nat) :
  drop 5 (take k l) = take (k - 5) (drop 5 l).
Proof.
  destruct (le_lt_dec k 5) as [Hk | Hk].
  - replace (k - 5)%nat with 0%nat by lia. rewrite take_0.
    apply drop_ge. rewrite length_take. lia.
  - rewrite take_drop_commute. do 2 f_equal. lia.
Qed.

Lemma drop_take_reheader (h report : list byte) (k : nat) :
  length h = 5%nat ->
  drop 5 (take k (reheader h report)) = drop 5 (take k report).
Proof.
  intros Hh. unfold reheader. destruct (decide (5 <= length report)%nat); [ | reflexivity].
  rewrite !drop_take_5. f_equal. rewrite <- Hh. apply drop_app_length.
Qed.

Lemma readCont_reheader (h : list byte) (fuel : nat) :
  length h = 5%nat ->
  forall (n idx dataLen : Z) (data : list byte) (q : list (list byte))
         (c : Communication (list (list byte))),
    fst (readCont Pipe fuel n idx dataLen data (set_device c (map (reheader h) q)))
    = fst (readCont Pipe fuel n idx dataLen data (set_device c q)).
Proof.
  intros Hh. induction fuel as [ | fuel IH]; intros n idx dataLen data q c;
    cbn [readCont]; destruct (idx <? dataLen); try reflexivity.
  unfold bind, Read. destruct (n <? 0); [reflexivity | ].
  cbn [device set_device]. destruct q as [ | r q]; cbn [map Pipe dev_Read]; [reflexivity | ].
  rewrite !length_take, length_reheader by exact Hh.
  destruct (_ <? 5); [reflexivity | ].
  rewrite drop_take_reheader by exact Hh.
  rewrite !set_device_set_device. apply IH.
Qed.

(** X6. [readFrame] does not look at the first five bytes of a
    continuation report, neither at the channel identifier nor at the
    sequence number: overwriting them in every report after the init report
    with any five bytes leaves the outcome of [readFrame] unchanged. *)
Theorem readFrame_ignores_cont_headers (h init : list byte) (conts : list (list byte))
    (fuel : nat) (c : Communication (list (list byte))) :
  length h = 5%nat ->
  fst (readFrame Pipe fuel (set_device c (init :: map (reheader h) conts)))
  = fst (readFrame Pipe fuel (set_device c (init :: conts))).
Proof.
  intros Hh. unfold readFrame, bind, Read. cbn [usbReadReportSize device set_device].
  destruct (usbReadReportSize c <? 0); [reflexivity | ]. cbn [Pipe dev_Read].
  destruct (_ <? 7); [reflexivity | ].
  destruct (_ || _); [reflexivity | ].
  destruct (negb _); [reflexivity | ].
  rewrite !set_device_set_device. now apply readCont_reheader.
Qed.

Lemma readFrame_ignores_cont_headers_witness :
  length ["001"; "002"; "003"; "004"; "200"]%byte = 5%nat
  /\ fst (readFrame Pipe 2
            (set_device replyPipe
               (replyInit :: map (reheader ["001"; "002"; "003"; "004"; "200"]%byte)
                               [replyCont])))
     = fst (readFrame Pipe 2 (set_device replyPipe (replyInit :: [replyCont]))).
Proof.
  split; [reflexivity | ].
  exact (readFrame_ignores_cont_headers ["001"; "002"; "003"; "004"; "200"]%byte
           replyInit [replyCont] 2 replyPipe eq_refl).
Defined.

(** ** The request and the response of [SendBootloader] *)

Lemma packetBody_packetOf (ext : Externals) (chunk : list byte) :
  packetBody ext (packetOf ext chunk) = chunk.
Proof. unfold packetBody, packetOf. destruct (windows ext); reflexivity. Qed.

Lemma TrimRight_split (cutset : list byte) (s : list byte) :
  exists tail : list byte,
    s = TrimRight s cutset ++ tail /\ Forall (fun b => b ∈ cutset) tail.
Proof.
  induction s as [ | b s (tail & Hs & Htail)]; [exists []; split; [reflexivity | constructor] | ].
  cbn [TrimRight]. destruct (TrimRight s cutset) as [ | x t] eqn:E.
  - cbn in Hs. subst tail. destruct (bool_decide (b ∈ cutset)) eqn:Eb.
    + apply bool_decide_eq_true in Eb. exists (b :: s). split; [reflexivity | now constructor].
    + exists s. split; [reflexivity | exact Htail].
  - exists tail. split; [cbn; now f_equal | exact Htail].
Qed.

Lemma TrimRight_last (cutset : list byte) (s : list byte) (b : byte) :
  last (TrimRight s cutset) = Some b -> b ∉ cutset.
Proof.
  induction s as [ | a s IH]; [discriminate | ].
  cbn [TrimRight]. destruct (TrimRight s cutset) as [ | x t] eqn:E.
  - destruct (bool_decide (a ∈ cutset)) eqn:Ea; [discriminate | ].
    apply bool_decide_eq_false in Ea. cbn. intros H. injection H as <-. exact Ea.
  - intros H. apply IH. exact H.
Qed.

Section Bootloader.
Context {St : Type} (d : Device St) (ext : Externals).

(** A normal return of the writing loop: the chunks written make up the
    buffer, none is empty and none is longer than the write size. *)
Lemma bootWrite_trace (fuel : nat) :
  forall (written : Z) (rb : list byte) (c c' : Communication (St * list event)),
    bootWrite (Recorder d) ext fuel written rb c = (Ok tt, c') ->
    written + Z.of_nat (length rb) = sendLen ->
    exists chunks : list (list byte),
      c' = set_device c (device c')
      /\ snd (device c') = snd (device c) ++ map EvWrite (map (packetOf ext) chunks)
      /\ concat chunks = rb
      /\ (rb <> [] -> 1 <= usbWriteReportSize c)
      /\ Forall (fun chunk => 1 <= Z.of_nat (length chunk) <= usbWriteReportSize c) chunks
      /\ Z.of_nat (length rb) <= Z.of_nat (length chunks) * usbWriteReportSize c
      /\ (rb <> [] ->
          (Z.of_nat (length chunks) - 1) * usbWriteReportSize c < Z.of_nat (length rb)).
Proof.
  assert (Hdone : forall written (rb : list byte) (c : Communication (St * list event)),
             sendLen <= written -> written + Z.of_nat (length rb) = sendLen ->
             exists chunks : list (list byte),
               c = set_device c (device c)
               /\ snd (device c) = snd (device c) ++ map EvWrite (map (packetOf ext) chunks)
               /\ concat chunks = rb
               /\ (rb <> [] -> 1 <= usbWriteReportSize c)
               /\ Forall (fun chunk => 1 <= Z.of_nat (length chunk) <= usbWriteReportSize c)
                    chunks
               /\ Z.of_nat (length rb) <= Z.of_nat (length chunks) * usbWriteReportSize c
               /\ (rb <> [] ->
                   (Z.of_nat (length chunks) - 1) * usbWriteReportSize c
                   < Z.of_nat (length rb))).
  { intros written rb c Hw Hinv. assert (rb = []) as -> by (destruct rb; [reflexivity | simpl in Hinv; lia]).
    exists []. cbn. rewrite app_nil_r, set_device_id.
    repeat split; try congruence; try lia. constructor. }
  induction fuel as [ | fuel IH]; intros written rb c c' H Hinv; cbn [bootWrite] in H.
  - destruct (written <? sendLen) eqn:E; [discriminate H | ].
    injection H as <-. apply Hdone with written; [now apply Z.ltb_ge | exact Hinv].
  - destruct (written <? sendLen) eqn:E.
    2:{ injection H as <-. apply Hdone with written; [now apply Z.ltb_ge | exact Hinv]. }
    apply Z.ltb_lt in E. unfold Next in H.
    destruct (usbWriteReportSize c <? 0) eqn:En; [discriminate H | ]. apply Z.ltb_ge in En.
    set (n := usbWriteReportSize c) in *. set (k := Z.to_nat n) in *.
    unfold bind, Write in H. fold (packetOf ext (take k rb)) in H.
    destruct (device c) as [s tr] eqn:Ec. cbn [Recorder dev_Write] in H.
    destruct (dev_Write d (packetOf ext (take k rb)) s) as [[e | ] s'] eqn:Ew;
      [discriminate H | ].
    apply IH in H as (chunks & Hc' & Htr & Hcat & Hn & Hall & Hle & Hlt).
    2:{ rewrite length_take, length_drop. lia. }
    cbn [device set_device usbWriteReportSize snd] in Htr, Hc', Hn, Hall, Hle, Hlt.
    fold n in Hn, Hall, Hle, Hlt.
    assert (Hrb : rb <> []) by (intros ->; simpl in Hinv; lia).
    assert (Hlen : (1 <= length rb)%nat) by (destruct rb; simpl; [congruence | lia]).
    assert (Hn1 : 1 <= n).
    { destruct (Z.eq_dec n 0) as [E0 | E0]; [ | lia]. apply Hn.
      unfold k. rewrite E0. cbn. exact Hrb. }
    exists (take k rb :: chunks). split; [exact Hc' | ]. split.
    { rewrite Htr. cbn [map]. now rewrite <- app_assoc. }
    split; [cbn [concat]; rewrite Hcat; apply take_drop | ].
    split; [intros _; exact Hn1 | ]. split.
    { constructor; [rewrite length_take; lia | exact Hall]. }
    rewrite length_drop in Hle, Hlt. cbn [length]. split; [nia | ]. intros _.
    destruct (decide (drop k rb = [])) as [Ed | Ed].
    + rewrite Ed in Hcat. destruct chunks as [ | ch chunks]; [cbn; lia | ].
      exfalso. apply Forall_inv in Hall. cbn in Hcat.
      destruct ch; [simpl in Hall; lia | discriminate Hcat].
    + specialize (Hlt Ed).
      assert (k < length rb)%nat.
      { destruct (le_lt_dec (length rb) k) as [Hle' | Hlt']; [ | exact Hlt'].
        exfalso. apply Ed. now apply drop_ge. }
      nia.
Qed.

(** A normal return of the reading loop: only reads, all successful; what
    is returned is what was read, at least [readLen] bytes. *)
Lemma bootRead_trace (fuel : nat) :
  forall (read out : list byte) (c c' : Communication (St * list event)),
    bootRead (Recorder d) fuel read c = (Ok out, c') ->
    exists datas : list (list byte),
      snd (device c')
      = snd (device c)
          ++ map (fun data => EvRead (Z.to_nat (usbReadReportSize c)) (inr data)) datas
      /\ out = read ++ concat datas
      /\ readLen <= Z.of_nat (length out).
Proof.
  induction fuel as [ | fuel IH]; intros read out c c' H; cbn [bootRead] in H;
    destruct (Z.of_nat (length read) <? readLen) eqn:E;
    try (injection H as <- <-; exists []; cbn; rewrite !app_nil_r; apply Z.ltb_ge in E;
         repeat split; lia); [discriminate H | ].
  unfold bind, Read in H. destruct (usbReadReportSize c <? 0); [discriminate H | ].
  destruct (device c) as [s tr] eqn:Ec. cbn [Recorder dev_Read] in H.
  destruct (dev_Read d (Z.to_nat (usbReadReportSize c)) s) as [[e | data] s'];
    [discriminate H | ].
  apply IH in H as (datas & Htr & Hout & Hlen).
  cbn [device set_device usbReadReportSize snd] in Htr.
  exists (data :: datas). split; [ | split; [ | exact Hlen]].
  - rewrite Htr. cbn [map]. now rewrite <- app_assoc.
  - rewrite Hout. cbn [concat]. now rewrite <- app_assoc.
Qed.

(** The calls of a [SendBootloader] that returns a response. *)
Lemma SendBootloader_trace (fuel : nat) (msg resp : list byte)
    (c c' : Communication (St * list event)) :
  mutex c = false ->
  snd (device c) = [] ->
  SendBootloader (Recorder d) ext fuel msg c = (Ok resp, c') ->
  exists (chunks datas : list (list byte)),
    Z.of_nat (length msg) <= sendLen
    /\ snd (device c')
       = map EvWrite (map (packetOf ext) chunks)
           ++ map (fun data => EvRead (Z.to_nat (usbReadReportSize c)) (inr data)) datas
    /\ concat chunks
       = msg ++ replicate (Z.to_nat (sendLen - Z.of_nat (length msg))) "000"%byte
    /\ 1 <= usbWriteReportSize c
    /\ Forall (fun chunk => 1 <= Z.of_nat (length chunk) <= usbWriteReportSize c) chunks
    /\ (Z.of_nat (length chunks) - 1) * usbWriteReportSize c < sendLen
       <= Z.of_nat (length chunks) * usbWriteReportSize c
    /\ resp = TrimRight (concat datas) bootCutset
    /\ readLen <= Z.of_nat (length (concat datas)).
Proof.
  intros Hmu Htr H. rewrite SendBootloader_unlocked in H by exact Hmu. unfold defer in H.
  destruct (sendLen <? Z.of_nat (length msg)) eqn:E.
  { cbn in H. discriminate H. }
  apply Z.ltb_ge in E.
  set (padded := msg ++ replicate (Z.to_nat (sendLen - Z.of_nat (length msg))) "000"%byte) in *.
  assert (Hpad : Z.of_nat (length padded) = sendLen).
  { unfold padded. rewrite length_app, length_replicate. lia. }
  unfold bind in H.
  destruct (bootWrite (Recorder d) ext fuel 0 padded (set_mutex c true))
    as [[[] | e | p | ] c1] eqn:Ew; try discriminate H.
  destruct (bootRead (Recorder d) fuel [] c1) as [[out | e | p | ] c2] eqn:Er;
    try discriminate H.
  unfold ret in H. injection H as <- <-.
  apply bootWrite_trace in Ew as (chunks & Hc1 & Htr1 & Hcat & Hn & Hall & Hle & Hlt);
    [ | lia].
  apply bootRead_trace in Er as (datas & Htr2 & Hout & Hlen).
  cbn [device set_mutex usbWriteReportSize] in Htr1, Hn, Hall, Hle, Hlt.
  rewrite Htr in Htr1. cbn [app] in Htr1.
  assert (Hsize : usbReadReportSize c1 = usbReadReportSize c) by (rewrite Hc1; reflexivity).
  rewrite Hsize, Htr1 in Htr2. cbn [app] in Hout. subst out.
  assert (Hne : padded <> []) by (intros Hp; rewrite Hp in Hpad; unfold sendLen in Hpad; simpl in Hpad; lia).
  exists chunks, datas. split; [exact E | ]. split; [exact Htr2 | ].
  split; [exact Hcat | ]. split; [now apply Hn | ]. split; [exact Hall | ].
  split; [ | split; [reflexivity | exact Hlen]].
  specialize (Hlt Hne). lia.
Qed.

End Bootloader.

Lemma writes_reads_split (cap : nat) (packets datas : list (list byte)) :
  writes (map EvWrite packets ++ map (fun data => EvRead cap (inr data)) datas) = packets
  /\ reads (map EvWrite packets ++ map (fun data => EvRead cap (inr data)) datas) = datas.
Proof.
  unfold writes, reads. rewrite !omap_app. split.
  - replace (omap _ (map (fun data => EvRead cap (inr data)) datas)) with (@nil (list byte))
      by (induction datas; [reflexivity | assumption]).
    rewrite app_nil_r. apply writes_EvWrite.
  - replace (omap _ (map EvWrite packets)) with (@nil (list byte))
      by (induction packets; [reflexivity | assumption]).
    cbn [app]. induction datas as [ | data datas IH]; [reflexivity | cbn; now f_equal].
Qed.

(** X7. When [SendBootloader] returns a response, the request was at most
    4098 bytes long and the packets written, taken without the report ID
    put in front of them on platforms other than Windows, make up the
    request padded with zero bytes to 4098 bytes. No packet is empty or
    longer than the write size, which is at least 1, and their number is
    the least one that holds 4098 bytes: the last packet is not padded. *)
Theorem SendBootloader_request {St : Type} (d : Device St) (ext : Externals)
    (fuel : nat) (msg resp : list byte) (c c' : Communication (St * list event)) :
  mutex c = false ->
  snd (device c) = [] ->
  SendBootloader (Recorder d) ext fuel msg c = (Ok resp, c') ->
  let n := usbWriteReportSize c in
  let packets := writes (snd (device c')) in
  Z.of_nat (length msg) <= 4098
  /\ 1 <= n
  /\ concat (map (packetBody ext) packets)
     = msg ++ replicate (Z.to_nat (4098 - Z.of_nat (length msg))) "000"%byte
  /\ Forall (fun packet =>
               (windows ext = false -> take 1 packet = ["000"%byte])
               /\ 1 <= Z.of_nat (length (packetBody ext packet)) <= n) packets
  /\ (Z.of_nat (length packets) - 1) * n < 4098 <= Z.of_nat (length packets) * n.
Proof.
  intros Hmu Htr H n packets.
  destruct (SendBootloader_trace d ext fuel msg resp c c' Hmu Htr H)
    as (chunks & datas & Hlen & Htrace & Hcat & Hn & Hall & Hcount & _ & _).
  assert (Hp : packets = map (packetOf ext) chunks).
  { unfold packets. rewrite Htrace. apply writes_reads_split. }
  assert (Hbodies : map (packetBody ext) packets = chunks).
  { rewrite Hp, map_map. rewrite <- (map_id chunks) at 2. apply map_ext.
    intros chunk. apply packetBody_packetOf. }
  split; [exact Hlen | ]. split; [exact Hn | ]. split; [now rewrite Hbodies | ].
  split; [ | now rewrite Hp, length_map].
  rewrite Hp. apply Forall_map. eapply Forall_impl; [exact Hall | ].
  intros chunk Hchunk. cbn beta. rewrite packetBody_packetOf. split; [ | exact Hchunk].
  intros Hw. unfold packetOf. rewrite Hw. reflexivity.
Qed.

Lemma SendBootloader_request_witness :
  mutex (NewCommunication (([bootReply], []) : list (list byte) * list event) 64 256) = false
  /\ snd (device (NewCommunication (([bootReply], []) : list (list byte) * list event) 64 256))
     = []
  /\ bootRun = (Ok ["o"; "k"]%byte, snd bootRun)
  /\ Z.of_nat (length pingText) <= 4098
  /\ 1 <= 64
  /\ concat (map (packetBody (demo false)) (writes (snd (device (snd bootRun)))))
     = pingText ++ replicate (Z.to_nat (4098 - Z.of_nat (length pingText))) "000"%byte
  /\ Forall (fun packet =>
               (windows (demo false) = false -> take 1 packet = ["000"%byte])
               /\ 1 <= Z.of_nat (length (packetBody (demo false) packet)) <= 64)
       (writes (snd (device (snd bootRun))))
  /\ (Z.of_nat (length (writes (snd (device (snd bootRun))))) - 1) * 64 < 4098
     <= Z.of_nat (length (writes (snd (device (snd bootRun))))) * 64.
Proof.
  assert (Hrun : SendBootloader (Recorder Replies) (demo false) 100 pingText
                   (NewCommunication ([bootReply], []) 64 256)
                 = (Ok ["o"; "k"]%byte, snd bootRun)) by (vm_compute; reflexivity).
  split; [reflexivity | ]. split; [reflexivity | ]. split; [exact Hrun | ].
  exact (SendBootloader_request Replies (demo false) 100 pingText _
           (NewCommunication ([bootReply], []) 64 256) (snd bootRun) eq_refl eq_refl Hrun).
Defined.

(** X8. When [SendBootloader] returns a response, all packets of the
    request were written before the first read, every read succeeded, and
    at least 256 bytes were read. The response is what was read without its
    trailing NUL, tab, CR and LF bytes: it does not end with one of them. *)
Theorem SendBootloader_response {St : Type} (d : Device St) (ext : Externals)
    (fuel : nat) (msg resp : list byte) (c c' : Communication (St * list event)) :
  mutex c = false ->
  snd (device c) = [] ->
  SendBootloader (Recorder d) ext fuel msg c = (Ok resp, c') ->
  let tr := snd (device c') in
  tr = map EvWrite (writes tr)
         ++ map (fun data => EvRead (Z.to_nat (usbReadReportSize c)) (inr data)) (reads tr)
  /\ 256 <= Z.of_nat (length (concat (reads tr)))
  /\ (exists tail : list byte,
        concat (reads tr) = resp ++ tail /\ Forall (fun b => b ∈ bootCutset) tail)
  /\ (forall b : byte, last resp = Some b -> b ∉ bootCutset).
Proof.
  intros Hmu Htr H tr.
  destruct (SendBootloader_trace d ext fuel msg resp c c' Hmu Htr H)
    as (chunks & datas & _ & Htrace & _ & _ & _ & _ & Hresp & Hlen).
  destruct (writes_reads_split (Z.to_nat (usbReadReportSize c))
              (map (packetOf ext) chunks) datas) as [Hw Hr].
  fold tr in Htrace. rewrite <- Htrace in Hw, Hr. rewrite Hw, Hr.
  split; [exact Htrace | ]. split; [exact Hlen | ]. subst resp. split.
  - apply TrimRight_split.
  - intros b. apply TrimRight_last.
Qed.

Lemma SendBootloader_response_witness :
  mutex (NewCommunication (([bootReply], []) : list (list byte) * list event) 64 256) = false
  /\ snd (device (NewCommunication (([bootReply], []) : list (list byte) * list event) 64 256))
     = []
  /\ bootRun = (Ok ["o"; "k"]%byte, snd bootRun)
  /\ 256 <= Z.of_nat (length (concat (reads (snd (device (snd bootRun))))))
  /\ forall b : byte, last ["o"; "k"]%byte = Some b -> b ∉ bootCutset.
Proof.
  assert (Hrun : SendBootloader (Recorder Replies) (demo false) 100 pingText
                   (NewCommunication ([bootReply], []) 64 256)
                 = (Ok ["o"; "k"]%byte, snd bootRun)) by (vm_compute; reflexivity).
  split; [reflexivity | ]. split; [reflexivity | ]. split; [exact Hrun | ].
  destruct (SendBootloader_response Replies (demo false) 100 pingText _
              (NewCommunication ([bootReply], []) 64 256) (snd bootRun) eq_refl eq_refl Hrun)
    as (_ & Hlen & _ & Hlast).
  split; [exact Hlen | exact Hlast].
Defined.

(** ** [SendPlain] as an exchange followed by the decoding of the reply *)

Lemma io_only_exchange {St : Type} (dev : Device St) (fuel : nat) (msg : list byte) :
  io_only (exchange dev fuel msg).
Proof.
  unfold exchange. apply io_only_bind; [apply io_only_sendFrame | ].
  intros _. apply io_only_readFrame.
Qed.

Lemma logCensoredCmd_quiet {St : Type} (ext : Externals) (msg : list byte)
    (receiving : bool) (c : Communication St) :
  debugLevel ext = false ->
  logCensoredCmd ext msg receiving c = (Ok None, c).
Proof. intros H. unfold logCensoredCmd. now rewrite H. Qed.

(** [SendPlain] with the mutex free: the calls on the device are those of
    the exchange; an error of the exchange is returned as a
    [CommunicationErr], a payload is decoded; the mutex is released unless
    the exchange does not return. *)
Lemma SendPlain_run {St : Type} (dev : Device St) (ext : Externals)
    (fuel : nat) (msg : list byte) (c : Communication St) :
  mutex c = false ->
  exists lg : list Entry,
    (debugLevel ext = false -> lg = log c)
    /\ SendPlain dev ext fuel msg c =
         match exchange dev fuel msg c with
         | (Ok reply, c2) => (decodeReply ext reply, with_env c2 false lg)
         | (Err e, c2) => (Err (CommunicationErr e), with_env c2 false lg)
         | (Panic p, c2) => (Panic p, with_env c2 false lg)
         | (OutOfFuel, c2) => (OutOfFuel, with_env c2 true lg)
         end.
Proof.
  intros Hmu.
  assert (Hpre : exists lg1 : list Entry,
             (debugLevel ext = false -> lg1 = log c)
             /\ SendPlain dev ext fuel msg c =
                  defer Unlock
                    (let* _ := mapErr CommunicationErr (sendFrame dev msg) in
                     let* reply := mapErr CommunicationErr (readFrame dev fuel) in
                     let reply := trimSpaceNul ext reply in
                     let* err := logCensoredCmd ext reply true in
                     match err with
                     | Some e => fail (WithContext e (CtxReply reply))
                     | None =>
                         match json_Unmarshal ext reply with
                         | inl e => fail (Wrap e "Failed to unmarshal reply")
                         | inr jsonResult =>
                             match maybeDBBErr jsonResult with
                             | Some e => fail e
                             | None => ret jsonResult
                             end
                         end
                     end) (with_env c true lg1)).
  { unfold SendPlain. unfold bind at 1. unfold logCensoredCmd.
    destruct (debugLevel ext) eqn:Ed.
    - destruct (json_Unmarshal ext msg) as [e | cmd].
      + eexists. split; [discriminate | ]. unfold ret, bind at 1, add_log, bind at 1, Lock.
        cbn [mutex]. rewrite Hmu. reflexivity.
      + destruct (json_Marshal ext (hideValues cmd));
          (eexists; split; [discriminate | ]);
          unfold bind at 1, add_log, ret, bind at 1, bind at 1, Lock;
          cbn [mutex]; rewrite Hmu; reflexivity.
    - exists (log c). split; [reflexivity | ].
      unfold ret, bind at 1, bind at 1, Lock. rewrite Hmu. destruct c; reflexivity. }
  destruct Hpre as (lg1 & Hlg1 & ->). unfold defer, bind at 1, mapErr at 1.
  rewrite (io_only_sendFrame dev msg c true lg1). unfold exchange. unfold bind at 3.
  destruct (sendFrame dev msg c) as [[[] | e | p | ] c1]; cbn [fst snd];
    try (exists lg1; split; [exact Hlg1 | reflexivity]).
  unfold bind at 1, mapErr at 1. rewrite (io_only_readFrame dev fuel c1 true lg1).
  destruct (readFrame dev fuel c1) as [[reply | e | p | ] c2]; cbn [fst snd];
    try (exists lg1; split; [exact Hlg1 | reflexivity]).
  unfold bind at 1, decodeReply, logCensoredCmd.
  destruct (debugLevel ext) eqn:Ed.
  - destruct (json_Unmarshal ext (trimSpaceNul ext reply)) as [e | jsonResult].
    + exists lg1. split; [discriminate | reflexivity].
    + destruct (json_Marshal ext (hideValues jsonResult));
        (eexists; split; [discriminate | ]);
        unfold bind at 1, add_log, ret, fail; cbn [mutex with_env];
        destruct (maybeDBBErr jsonResult); reflexivity.
  - exists lg1. split; [exact Hlg1 | ]. unfold ret, fail.
    destruct (json_Unmarshal ext (trimSpaceNul ext reply)) as [e | jsonResult];
      [reflexivity | ].
    destruct (maybeDBBErr jsonResult); reflexivity.
Qed.

Lemma logCensoredCmd_loggable {St : Type} (ext : Externals) (msg : list byte)
    (receiving : bool) (c : Communication St) :
  loggable ext msg ->
  exists lg : list Entry,
    (debugLevel ext = false -> lg = log c)
    /\ logCensoredCmd ext msg receiving c = (Ok None, with_env c (mutex c) lg).
Proof.
  intros [Hd | [cmd Hcmd]]; unfold logCensoredCmd.
  - rewrite Hd. exists (log c). split; [reflexivity | ]. now rewrite with_env_id.
  - destruct (debugLevel ext).
    + rewrite Hcmd. destruct (json_Marshal ext (hideValues cmd));
        (eexists; split; [discriminate | ]); unfold bind, add_log, ret; reflexivity.
    + exists (log c). split; [reflexivity | ]. now rewrite with_env_id.
Qed.

(** The steps of [SendEncrypt] after [SendPlain] has returned a reply. *)
Lemma finalReply_run {St : Type} (ext : Externals) (password : list byte)
    (jsonResult : gmap string value) (c : Communication St) :
  exists lg : list Entry,
    (debugLevel ext = false -> lg = log c)
    /\ (let* jsonResult :=
          match jsonResult !! "ciphertext" with
          | Some (VString cipherText) =>
              match base64_DecodeString ext (String.list_byte_of_string cipherText) with
              | inl e => fail (WithMessage e "Failed to decode reply")
              | inr decodedMsg =>
                  match Decrypt ext decodedMsg (DoubleHashB ext password) with
                  | inl e => fail (WithMessage e "Failed to decrypt reply")
                  | inr plainText =>
                      let* err := logCensoredCmd ext plainText true in
                      match err with
                      | Some e => fail (WithContext e (CtxReply plainText))
                      | None =>
                          match json_Unmarshal ext plainText with
                          | inl e => fail (Wrap e "Failed to unmarshal reply")
                          | inr jsonResult => ret jsonResult
                          end
                      end
                  end
              end
          | _ => ret jsonResult
          end in
        match maybeDBBErr jsonResult with
        | Some e => fail e
        | None => ret jsonResult
        end) c
       = (finalReply ext password jsonResult, with_env c (mutex c) lg).
Proof.
  unfold finalReply, envelope, bind at 1.
  assert (Hplain : forall jr : gmap string value,
             (let (r, w') := ret jr c in
              match r with
              | Ok a => match maybeDBBErr a with Some e => fail e | None => ret a end w'
              | Err e => (Err e, w')
              | Panic msg => (Panic msg, w')
              | OutOfFuel => (OutOfFuel, w')
              end)
             = (match maybeDBBErr jr with Some e => Err e | None => Ok jr end,
                with_env c (mutex c) (log c))).
  { intros jr. unfold ret, fail. rewrite with_env_id. destruct (maybeDBBErr jr); reflexivity. }
  destruct (jsonResult !! "ciphertext") as [[ | b | f | s | l | m] | ];
    try (exists (log c); split; [reflexivity | apply Hplain]).
  destruct (base64_DecodeString ext _) as [e | decoded].
  { exists (log c). split; [reflexivity | ]. unfold fail. now rewrite with_env_id. }
  destruct (Decrypt ext decoded _) as [e | plain].
  { exists (log c). split; [reflexivity | ]. unfold fail. now rewrite with_env_id. }
  unfold bind, logCensoredCmd. destruct (debugLevel ext) eqn:Ed.
  - destruct (json_Unmarshal ext plain) as [e | jr].
    + exists (log c). split; [discriminate | ]. unfold ret, fail. now rewrite with_env_id.
    + destruct (json_Marshal ext (hideValues jr));
        (eexists; split; [discriminate | ]); unfold bind, add_log, ret, fail;
        destruct (maybeDBBErr jr); reflexivity.
  - exists (log c). split; [reflexivity | ]. unfold ret, fail. rewrite with_env_id.
    destruct (json_Unmarshal ext plain) as [e | jr]; [reflexivity | ].
    destruct (maybeDBBErr jr); reflexivity.
Qed.

(** [SendEncrypt] with the mutex free, for a command that passes the
    logging step and is encrypted: the calls on the device are those of the
    exchange of the encoded cipher text. *)
Lemma SendEncrypt_run {St : Type} (dev : Device St) (ext : Externals)
    (fuel : nat) (msg password cipher : list byte) (c : Communication St) :
  mutex c = false ->
  loggable ext msg ->
  Encrypt ext msg (DoubleHashB ext password) = inr cipher ->
  exists lg : list Entry,
    (debugLevel ext = false -> lg = log c)
    /\ SendEncrypt dev ext fuel msg password c =
         (encryptOutcome ext password
            (fst (exchange dev fuel (base64_EncodeToString ext cipher) c)),
          with_env (snd (exchange dev fuel (base64_EncodeToString ext cipher) c))
            (heldAfter (fst (exchange dev fuel (base64_EncodeToString ext cipher) c))) lg).
Proof.
  intros Hmu Hlog Henc. unfold SendEncrypt. unfold bind at 1.
  destruct (logCensoredCmd_loggable ext msg false c Hlog) as (lg0 & Hlg0 & ->).
  rewrite Henc, Hmu. unfold bind at 1, mapErr.
  destruct (SendPlain_run dev ext fuel (base64_EncodeToString ext cipher)
              (with_env c false lg0) eq_refl) as (lg1 & Hlg1 & ->).
  rewrite (io_only_exchange dev fuel _ c false lg0). cbn [log with_env] in Hlg1.
  destruct (exchange dev fuel (base64_EncodeToString ext cipher) c)
    as [[reply | e | p | ] c2]; cbn [fst snd encryptOutcome heldAfter];
    try (exists lg1; split; [intros Hd; rewrite (Hlg1 Hd); exact (Hlg0 Hd) | reflexivity]).
  destruct (decodeReply ext reply) as [jr | e | p | ] eqn:Edec;
    try (exists lg1; split; [intros Hd; rewrite (Hlg1 Hd); exact (Hlg0 Hd) | reflexivity]).
  destruct (finalReply_run ext password jr (with_env (with_env c2 false lg0) false lg1))
    as (lg2 & Hlg2 & Hrun).
  exists lg2. split.
  - intros Hd. rewrite (Hlg2 Hd). cbn [log with_env]. rewrite (Hlg1 Hd). exact (Hlg0 Hd).
  - unfold bind at 1. unfold bind at 1 in Hrun. rewrite Hrun.
    destruct (finalReply ext password jr); reflexivity.
Qed.

(** X9. With the mutex free, the calls that [SendPlain] makes on the
    device are those of [sendFrame] for the message followed, when it
    succeeds, by those of [readFrame]: they are the same whatever the log
    level, the censoring of the logged command and the decoding of the
    reply. *)
Theorem SendPlain_device_calls {St : Type} (dev : Device St) (ext ext' : Externals)
    (fuel : nat) (msg : list byte) (c : Communication St) :
  mutex c = false ->
  device (snd (SendPlain dev ext fuel msg c)) = device (snd (exchange dev fuel msg c))
  /\ device (snd (SendPlain dev ext fuel msg c))
     = device (snd (SendPlain dev ext' fuel msg c)).
Proof.
  intros Hmu.
  assert (H : forall x : Externals,
             device (snd (SendPlain dev x fuel msg c))
             = device (snd (exchange dev fuel msg c))).
  { intros x. destruct (SendPlain_run dev x fuel msg c Hmu) as (lg & _ & ->).
    destruct (exchange dev fuel msg c) as [[reply | e | p | ] c2]; reflexivity. }
  split; [apply H | ]. now rewrite !H.
Qed.

Lemma SendPlain_device_calls_witness :
  mutex (NewCommunication (([replyOf strErrText], []) : list (list byte) * list event) 64 64)
  = false
  /\ device (snd (SendPlain (Recorder Replies) (demo true) 1 helloText
                    (NewCommunication ([replyOf strErrText], []) 64 64)))
     = device (snd (exchange (Recorder Replies) 1 helloText
                      (NewCommunication ([replyOf strErrText], []) 64 64)))
  /\ device (snd (SendPlain (Recorder Replies) (demo true) 1 helloText
                    (NewCommunication ([replyOf strErrText], []) 64 64)))
     = device (snd (SendPlain (Recorder Replies) (demo false) 1 helloText
                      (NewCommunication ([replyOf strErrText], []) 64 64))).
Proof.
  split; [reflexivity | ].
  exact (SendPlain_device_calls (Recorder Replies) (demo true) (demo false) 1 helloText
           (NewCommunication ([replyOf strErrText], []) 64 64) eq_refl).
Defined.



(** X11. With the mutex free, a reply that does not decode as a JSON
    object makes [SendPlain] fail at every log level: with the error of the
    logging step and the trimmed reply as context when the debug level is
    enabled, with the error of the decoder under the message "Failed to
    unmarshal reply" otherwise. *)
Theorem SendPlain_bad_reply {St : Type} (dev : Device St) (ext : Externals)
    (fuel : nat) (msg reply : list byte) (c c1 c2 : Communication St) (e : error) :
  mutex c = false ->
  sendFrame dev msg c = (Ok tt, c1) ->
  readFrame dev fuel c1 = (Ok reply, c2) ->
  json_Unmarshal ext (trimSpaceNul ext reply) = inl e ->
  fst (SendPlain dev ext fuel msg c)
  = Err (if debugLevel ext
         then WithContext (ErrNew "Failed to unmarshal message")
                (CtxReply (trimSpaceNul ext reply))
         else Wrap e "Failed to unmarshal reply").
Proof.
  intros Hmu Hsend Hread Hjson.
  destruct (SendPlain_run dev ext fuel msg c Hmu) as (lg & _ & ->).
  unfold exchange, bind. rewrite Hsend, Hread. cbn [fst]. unfold decodeReply.
  now rewrite Hjson.
Qed.

Lemma SendPlain_bad_reply_witness :
  mutex (answering [replyOf helloText]) = false
  /\ sendFrame Replies pingText (answering [replyOf helloText])
     = (Ok tt, answering [replyOf helloText])
  /\ readFrame Replies 1 (answering [replyOf helloText])
     = (Ok (drop 7 (replyOf helloText)), answering [])
  /\ json_Unmarshal (demo true) (trimSpaceNul (demo true) (drop 7 (replyOf helloText)))
     = inl (ErrLib "json" "invalid character")
  /\ fst (SendPlain Replies (demo true) 1 pingText (answering [replyOf helloText]))
     = Err (if debugLevel (demo true)
            then WithContext (ErrNew "Failed to unmarshal message")
                   (CtxReply (trimSpaceNul (demo true) (drop 7 (replyOf helloText))))
            else Wrap (ErrLib "json" "invalid character") "Failed to unmarshal reply").
Proof.
  assert (H2 : sendFrame Replies pingText (answering [replyOf helloText])
               = (Ok tt, answering [replyOf helloText])) by (vm_compute; reflexivity).
  assert (H3 : readFrame Replies 1 (answering [replyOf helloText])
               = (Ok (drop 7 (replyOf helloText)), answering [])) by (vm_compute; reflexivity).
  assert (H4 : json_Unmarshal (demo true)
                 (trimSpaceNul (demo true) (drop 7 (replyOf helloText)))
               = inl (ErrLib "json" "invalid character")) by (vm_compute; reflexivity).
  split; [reflexivity | ]. split; [exact H2 | ]. split; [exact H3 | ]. split; [exact H4 | ].
  exact (SendPlain_bad_reply Replies (demo true) 1 pingText (drop 7 (replyOf helloText))
           (answering [replyOf helloText]) (answering [replyOf helloText]) (answering [])
           _ eq_refl H2 H3 H4).
Defined.

(** ** [SendEncrypt] before the exchange *)

Lemma loggable_cases (ext : Externals) (msg : list byte) :
  loggable ext msg
  \/ (debugLevel ext = true /\ exists e, json_Unmarshal ext msg = inl e).
Proof.
  unfold loggable. destruct (debugLevel ext); [ | left; left; reflexivity].
  destruct (json_Unmarshal ext msg) as [e | cmd].
  - right. split; [reflexivity | ]. now exists e.
  - left. right. now exists cmd.
Qed.

Lemma SendEncrypt_unlogged {St : Type} (dev : Device St) (ext : Externals)
    (fuel : nat) (msg password : list byte) (c : Communication St) (e : error) :
  debugLevel ext = true ->
  json_Unmarshal ext msg = inl e ->
  SendEncrypt dev ext fuel msg password c
  = (Err (WithMessage (ErrNew "Failed to unmarshal message")
            "Invalid JSON passed. Continuing anyway"), c).
Proof.
  intros Hd Hj. unfold SendEncrypt. unfold bind at 1. unfold logCensoredCmd.
  now rewrite Hd, Hj.
Qed.

Lemma SendEncrypt_unencrypted {St : Type} (dev : Device St) (ext : Externals)
    (fuel : nat) (msg password : list byte) (c : Communication St) (e : error) :
  loggable ext msg ->
  Encrypt ext msg (DoubleHashB ext password) = inl e ->
  exists lg : list Entry,
    (debugLevel ext = false -> lg = log c)
    /\ SendEncrypt dev ext fuel msg password c
       = (Err (WithMessage e "Failed to encrypt command"), with_env c (mutex c) lg).
Proof.
  intros Hlog Henc. unfold SendEncrypt. unfold bind at 1.
  destruct (logCensoredCmd_loggable ext msg false c Hlog) as (lg & Hlg & ->).
  rewrite Henc. exists lg. split; [exact Hlg | reflexivity].
Qed.

(** The mutex and the log after [SendEncrypt], whatever its path. *)
Lemma SendEncrypt_env {St : Type} (dev : Device St) (ext : Externals)
    (fuel : nat) (msg password : list byte) (c : Communication St) :
  mutex c = false ->
  mutex (snd (SendEncrypt dev ext fuel msg password c))
  = heldAfter (fst (SendEncrypt dev ext fuel msg password c))
  /\ (debugLevel ext = false ->
      log (snd (SendEncrypt dev ext fuel msg password c)) = log c).
Proof.
  intros Hmu. destruct (loggable_cases ext msg) as [Hlog | (Hd & e & Hj)].
  - destruct (Encrypt ext msg (DoubleHashB ext password)) as [e | cipher] eqn:Henc.
    + destruct (SendEncrypt_unencrypted dev ext fuel msg password c e Hlog Henc)
        as (lg & Hlg & ->).
      cbn. split; [exact Hmu | exact Hlg].
    + destruct (SendEncrypt_run dev ext fuel msg password cipher c Hmu Hlog Henc)
        as (lg & Hlg & ->).
      cbn [fst snd with_env mutex log]. split; [ | exact Hlg].
      unfold encryptOutcome.
      destruct (fst (exchange dev fuel (base64_EncodeToString ext cipher) c))
        as [reply | e | p | ]; try reflexivity.
      unfold decodeReply. destruct (json_Unmarshal ext _) as [e | jr]; [reflexivity | ].
      destruct (maybeDBBErr jr) as [e | ]; [reflexivity | ].
      unfold finalReply, envelope.
      repeat match goal with
             | |- context [match ?x with _ => _ end] => destruct x
             end; reflexivity.
  - rewrite (SendEncrypt_unlogged dev ext fuel msg password c e Hd Hj). cbn.
    split; [exact Hmu | reflexivity].
Qed.

(** ** The mutex and the log *)

Lemma io_only_mutex {St A : Type} (m : M (Communication St) A) :
  io_only m -> forall c : Communication St, mutex (snd (m c)) = mutex c.
Proof.
  intros H c. specialize (H c (mutex c) (log c)). rewrite with_env_id in H.
  apply (f_equal snd) in H. cbn [snd] in H. now rewrite H.
Qed.

Lemma bootWrite_mutex {St : Type} (dev : Device St) (ext : Externals) (fuel : nat) :
  forall (written : Z) (paddedMsg : list byte) (c : Communication St),
    mutex (snd (bootWrite dev ext fuel written paddedMsg c)) = mutex c.
Proof.
  induction fuel as [ | fuel IH]; intros written paddedMsg c; cbn [bootWrite];
    destruct (written <? sendLen); try reflexivity.
  destruct (Next (usbWriteReportSize c) paddedMsg) as [[chunk rest] | ]; [ | reflexivity].
  unfold bind.
  pose proof (io_only_mutex _ (io_only_Write dev
                (if negb (windows ext) then "000"%byte :: chunk else chunk)) c) as Hw.
  destruct (Write dev _ c) as [[[e | ] | e | p | ] c1]; cbn [snd] in Hw |- *;
    try exact Hw.
  now rewrite IH.
Qed.

Lemma bootRead_mutex {St : Type} (dev : Device St) (fuel : nat) :
  forall (read : list byte) (c : Communication St),
    mutex (snd (bootRead dev fuel read c)) = mutex c.
Proof.
  induction fuel as [ | fuel IH]; intros read c; cbn [bootRead];
    destruct (Z.of_nat (length read) <? readLen); try reflexivity.
  unfold bind.
  pose proof (io_only_mutex _ (io_only_Read dev (usbReadReportSize c)) c) as Hr.
  destruct (Read dev _ c) as [[[e | currentRead] | e | p | ] c1]; cbn [snd] in Hr |- *;
    try exact Hr.
  now rewrite IH.
Qed.

(** X12. Started with the mutex free, [SendBootloader], [SendPlain] and
    [SendEncrypt] leave it free on every return, with a result, an error
    or a panic: it stays held only while a loop is still running. *)
Theorem mutex_released {St : Type} (dev : Device St) (ext : Externals)
    (fuel : nat) (msg password : list byte) (c : Communication St) :
  mutex c = false ->
  mutex (snd (SendBootloader dev ext fuel msg c))
  = heldAfter (fst (SendBootloader dev ext fuel msg c))
  /\ mutex (snd (SendPlain dev ext fuel msg c))
     = heldAfter (fst (SendPlain dev ext fuel msg c))
  /\ mutex (snd (SendEncrypt dev ext fuel msg password c))
     = heldAfter (fst (SendEncrypt dev ext fuel msg password c)).
Proof.
  intros Hmu. split; [ | split].
  - rewrite (SendBootloader_unlocked dev ext fuel msg c Hmu). unfold defer.
    destruct (sendLen <? Z.of_nat (length msg)); [reflexivity | ].
    unfold bind.
    pose proof (bootWrite_mutex dev ext fuel 0
                  (msg ++ replicate (Z.to_nat (sendLen - Z.of_nat (length msg))) "000"%byte)
                  (set_mutex c true)) as Hw.
    destruct (bootWrite dev ext fuel 0 _ (set_mutex c true)) as [[[] | e | p | ] c1];
      cbn [snd] in Hw |- *; try reflexivity; [ | exact Hw].
    pose proof (bootRead_mutex dev fuel [] c1) as Hr.
    destruct (bootRead dev fuel [] c1) as [[read | e | p | ] c2];
      cbn [snd] in Hr |- *; try reflexivity.
    cbn [fst heldAfter]. now rewrite Hr, Hw.
  - destruct (SendPlain_run dev ext fuel msg c Hmu) as (lg & _ & ->).
    destruct (exchange dev fuel msg c) as [[reply | e | p | ] c2]; try reflexivity.
    cbn [fst snd with_env mutex]. unfold decodeReply.
    destruct (json_Unmarshal ext _) as [e | jr]; [reflexivity | ].
    destruct (maybeDBBErr jr); reflexivity.
  - apply (SendEncrypt_env dev ext fuel msg password c Hmu).
Qed.

Lemma mutex_released_witness :
  mutex (NewCommunication tt 64 64) = false
  /\ mutex (snd (SendBootloader Refusing (demo true) 1 tooLong (NewCommunication tt 64 64)))
     = heldAfter (fst (SendBootloader Refusing (demo true) 1 tooLong
                         (NewCommunication tt 64 64)))
  /\ mutex (snd (SendPlain Refusing (demo true) 1 tooLong (NewCommunication tt 64 64)))
     = heldAfter (fst (SendPlain Refusing (demo true) 1 tooLong (NewCommunication tt 64 64)))
  /\ mutex (snd (SendEncrypt Refusing (demo true) 1 tooLong pingText
                   (NewCommunication tt 64 64)))
     = heldAfter (fst (SendEncrypt Refusing (demo true) 1 tooLong pingText
                         (NewCommunication tt 64 64))).
Proof.
  split; [reflexivity | ].
  exact (mutex_released Refusing (demo true) 1 tooLong pingText
           (NewCommunication tt 64 64) eq_refl).
Defined.

(** X13. With the debug level disabled and the mutex free, [SendPlain] and
    [SendEncrypt] write nothing to the log, whatever the device does and
    whatever the reply holds. *)
Theorem silent_without_debug {St : Type} (dev : Device St) (ext : Externals)
    (fuel : nat) (msg password : list byte) (c : Communication St) :
  debugLevel ext = false ->
  mutex c = false ->
  log (snd (SendPlain dev ext fuel msg c)) = log c
  /\ log (snd (SendEncrypt dev ext fuel msg password c)) = log c.
Proof.
  intros Hd Hmu. split.
  - destruct (SendPlain_run dev ext fuel msg c Hmu) as (lg & Hlg & ->).
    destruct (exchange dev fuel msg c) as [[reply | e | p | ] c2]; cbn; auto.
  - apply (SendEncrypt_env dev ext fuel msg password c Hmu), Hd.
Qed.

Lemma silent_without_debug_witness :
  debugLevel (demo false) = false
  /\ mutex (answering [replyOf strErrText]) = false
  /\ log (snd (SendPlain Replies (demo false) 1 pingText (answering [replyOf strErrText])))
     = log (answering [replyOf strErrText])
  /\ log (snd (SendEncrypt Replies (demo false) 1 pingText pingText
                 (answering [replyOf strErrText])))
     = log (answering [replyOf strErrText]).
Proof.
  split; [reflexivity | ]. split; [reflexivity | ].
  exact (silent_without_debug Replies (demo false) 1 pingText pingText
           (answering [replyOf strErrText]) eq_refl eq_refl).
Defined.

(** ** [SendEncrypt] *)



(** X15. A command that passes the logging step and that the cipher
    refuses is never sent: [SendEncrypt] returns the error of the cipher
    under the message "Failed to encrypt command" without a call on the
    device and without taking the mutex, so also while the mutex is held. *)
Theorem SendEncrypt_encrypt_fails {St : Type} (dev : Device St) (ext : Externals)
    (fuel : nat) (msg password : list byte) (c : Communication St) (e : error) :
  loggable ext msg ->
  Encrypt ext msg (DoubleHashB ext password) = inl e ->
  fst (SendEncrypt dev ext fuel msg password c)
  = Err (WithMessage e "Failed to encrypt command")
  /\ device (snd (SendEncrypt dev ext fuel msg password c)) = device c
  /\ mutex (snd (SendEncrypt dev ext fuel msg password c)) = mutex c.
Proof.
  intros Hlog Henc.
  destruct (SendEncrypt_unencrypted dev ext fuel msg password c e Hlog Henc)
    as (lg & _ & ->).
  repeat split.
Qed.

Lemma SendEncrypt_encrypt_fails_witness :
  loggable (noCipher true) pingText
  /\ Encrypt (noCipher true) pingText (DoubleHashB (noCipher true) helloText)
     = inl (ErrLib "crypto" "invalid key size")
  /\ fst (SendEncrypt (Recorder Replies) (noCipher true) 1 pingText helloText
            (set_mutex (recordedReplies 64) true))
     = Err (WithMessage (ErrLib "crypto" "invalid key size") "Failed to encrypt command")
  /\ device (snd (SendEncrypt (Recorder Replies) (noCipher true) 1 pingText helloText
                    (set_mutex (recordedReplies 64) true)))
     = device (set_mutex (recordedReplies 64) true)
  /\ mutex (snd (SendEncrypt (Recorder Replies) (noCipher true) 1 pingText helloText
                   (set_mutex (recordedReplies 64) true)))
     = mutex (set_mutex (recordedReplies 64) true).
Proof.
  assert (Hlog : loggable (noCipher true) pingText)
    by (right; exists pingCmd; vm_compute; reflexivity).
  split; [exact Hlog | ]. split; [reflexivity | ].
  exact (SendEncrypt_encrypt_fails (Recorder Replies) (noCipher true) 1 pingText helloText
           (set_mutex (recordedReplies 64) true) _ Hlog eq_refl).
Defined.

(** X16. A reply that decodes to an object without an error object and
    without a string under "ciphertext" is returned by [SendEncrypt] as it
    is: an unencrypted reply is accepted. *)
Theorem SendEncrypt_plain_reply {St : Type} (dev : Device St) (ext : Externals)
    (fuel : nat) (msg password cipher reply : list byte) (c c1 c2 : Communication St)
    (jsonResult : gmap string value) :
  mutex c = false ->
  loggable ext msg ->
  Encrypt ext msg (DoubleHashB ext password) = inr cipher ->
  sendFrame dev (base64_EncodeToString ext cipher) c = (Ok tt, c1) ->
  readFrame dev fuel c1 = (Ok reply, c2) ->
  json_Unmarshal ext (trimSpaceNul ext reply) = inr jsonResult ->
  maybeDBBErr jsonResult = None ->
  (forall s : string, jsonResult !! "ciphertext" <> Some (VString s)) ->
  fst (SendEncrypt dev ext fuel msg password c) = Ok jsonResult.
Proof.
  intros Hmu Hlog Henc Hsend Hread Hjson Hdbb Hplain.
  destruct (SendEncrypt_run dev ext fuel msg password cipher c Hmu Hlog Henc)
    as (lg & _ & ->).
  unfold exchange, bind. rewrite Hsend, Hread. cbn [fst]. unfold encryptOutcome, decodeReply.
  rewrite Hjson, Hdbb. unfold finalReply, envelope.
  destruct (jsonResult !! "ciphertext") as [[ | b | f | s | l | m] | ] eqn:Hc;
    try (now rewrite Hdbb).
  now destruct (Hplain s).
Qed.

Lemma SendEncrypt_plain_reply_witness :
  fst (SendEncrypt Replies (demo false) 1 pingText helloText (answering [replyOf strErrText]))
  = Ok strErrReply.
Proof.
  assert (Hlog : loggable (demo false) pingText) by (left; reflexivity).
  assert (Hs : sendFrame Replies (base64_EncodeToString (demo false) pingText)
                 (answering [replyOf strErrText])
               = (Ok tt, answering [replyOf strErrText])) by (vm_compute; reflexivity).
  assert (Hr : readFrame Replies 1 (answering [replyOf strErrText])
               = (Ok (drop 7 (replyOf strErrText)), answering []))
    by (vm_compute; reflexivity).
  assert (Hj : json_Unmarshal (demo false)
                 (trimSpaceNul (demo false) (drop 7 (replyOf strErrText)))
               = inr strErrReply) by (vm_compute; reflexivity).
  assert (Hp : forall s : string, strErrReply !! "ciphertext" <> Some (VString s))
    by (intros s; vm_compute; discriminate).
  exact (SendEncrypt_plain_reply Replies (demo false) 1 pingText helloText pingText
           (drop 7 (replyOf strErrText)) (answering [replyOf strErrText])
           (answering [replyOf strErrText]) (answering []) strErrReply
           eq_refl Hlog eq_refl Hs Hr Hj eq_refl Hp).
Defined.

(** X17. A reply with a string under "ciphertext" and no error object is
    decoded from base64, decrypted with the double hash of the password and
    decoded as JSON; the error envelope is then applied to the decrypted
    object, not to the outer one. A failure of the base64 decoder is
    returned under "Failed to decode reply", one of the cipher under
    "Failed to decrypt reply". *)
Theorem SendEncrypt_encrypted_reply {St : Type} (dev : Device St) (ext : Externals)
    (fuel : nat) (msg password cipher reply : list byte) (c c1 c2 : Communication St)
    (jsonResult : gmap string value) (s : string) :
  mutex c = false ->
  loggable ext msg ->
  Encrypt ext msg (DoubleHashB ext password) = inr cipher ->
  sendFrame dev (base64_EncodeToString ext cipher) c = (Ok tt, c1) ->
  readFrame dev fuel c1 = (Ok reply, c2) ->
  json_Unmarshal ext (trimSpaceNul ext reply) = inr jsonResult ->
  maybeDBBErr jsonResult = None ->
  jsonResult !! "ciphertext" = Some (VString s) ->
  match base64_DecodeString ext (String.list_byte_of_string s) with
  | inl e =>
      fst (SendEncrypt dev ext fuel msg password c)
      = Err (WithMessage e "Failed to decode reply")
  | inr decodedMsg =>
      match Decrypt ext decodedMsg (DoubleHashB ext password) with
      | inl e =>
          fst (SendEncrypt dev ext fuel msg password c)
          = Err (WithMessage e "Failed to decrypt reply")
      | inr plainText =>
          forall inner : gmap string value,
            json_Unmarshal ext plainText = inr inner ->
            fst (SendEncrypt dev ext fuel msg password c)
            = match maybeDBBErr inner with
              | Some e => Err e
              | None => Ok inner
              end
      end
  end.
Proof.
  intros Hmu Hlog Henc Hsend Hread Hjson Hdbb Hc.
  destruct (SendEncrypt_run dev ext fuel msg password cipher c Hmu Hlog Henc)
    as (lg & _ & ->).
  unfold exchange, bind. rewrite Hsend, Hread. cbn [fst]. unfold encryptOutcome, decodeReply.
  rewrite Hjson, Hdbb. unfold finalReply, envelope. rewrite Hc.
  destruct (base64_DecodeString ext _) as [e | decodedMsg]; [reflexivity | ].
  destruct (Decrypt ext decodedMsg _) as [e | plainText]; [reflexivity | ].
  intros inner Hinner. now rewrite Hinner.
Qed.

Lemma SendEncrypt_encrypted_reply_witness :
  fst (SendEncrypt Replies (demo false) 1 pingText helloText (answering [replyOf cipherText]))
  = Ok strErrReply.
Proof.
  assert (Hlog : loggable (demo false) pingText) by (left; reflexivity).
  assert (Hs : sendFrame Replies (base64_EncodeToString (demo false) pingText)
                 (answering [replyOf cipherText])
               = (Ok tt, answering [replyOf cipherText])) by (vm_compute; reflexivity).
  assert (Hr : readFrame Replies 1 (answering [replyOf cipherText])
               = (Ok (drop 7 (replyOf cipherText)), answering []))
    by (vm_compute; reflexivity).
  assert (Hj : json_Unmarshal (demo false)
                 (trimSpaceNul (demo false) (drop 7 (replyOf cipherText)))
               = inr cipherReply) by (vm_compute; reflexivity).
  assert (Hc : cipherReply !! "ciphertext"
               = Some (VString (String.string_of_list_byte strErrText)))
    by (vm_compute; reflexivity).
  assert (Hi : json_Unmarshal (demo false) strErrText = inr strErrReply)
    by (vm_compute; reflexivity).
  exact (SendEncrypt_encrypted_reply Replies (demo false) 1 pingText helloText pingText
           (drop 7 (replyOf cipherText)) (answering [replyOf cipherText])
           (answering [replyOf cipherText]) (answering []) cipherReply
           (String.string_of_list_byte strErrText)
           eq_refl Hlog eq_refl Hs Hr Hj eq_refl Hc strErrReply Hi).
Defined.

(** ** What is returned as data *)

Lemma envelope_Ok (jsonResult j : gmap string value) :
  envelope jsonResult = Ok j ->
  j = jsonResult /\ forall m, j !! "error" <> Some (VObject m).
Proof.
  unfold envelope. destruct (maybeDBBErr jsonResult) as [e | ] eqn:Hdbb; [discriminate | ].
  intros H. injection H as <-. split; [reflexivity | ]. intros m Hm.
  unfold maybeDBBErr in Hdbb. rewrite Hm in Hdbb.
  destruct (m !! "message") as [[ | b | f | s | l | m'] | ]; try discriminate.
  destruct (m !! "code") as [[ | b | f | s' | l | m'] | ]; discriminate.
Qed.

(** X18. An object that [SendPlain] or [SendEncrypt] returns as data never
    holds an object under "error": every such reply is returned as an
    error. For [SendEncrypt] this is the object that was decrypted, when
    there was one. *)
Theorem returned_data_has_no_error_object {St : Type} (dev : Device St) (ext : Externals)
    (fuel : nat) (msg password : list byte) (c : Communication St)
    (j : gmap string value) :
  mutex c = false ->
  fst (SendPlain dev ext fuel msg c) = Ok j
  \/ fst (SendEncrypt dev ext fuel msg password c) = Ok j ->
  forall m : gmap string value, j !! "error" <> Some (VObject m).
Proof.
  intros Hmu [H | H].
  - destruct (SendPlain_run dev ext fuel msg c Hmu) as (lg & _ & Hrun).
    rewrite Hrun in H.
    destruct (exchange dev fuel msg c) as [[reply | e | p | ] c2]; try discriminate H.
    cbn [fst] in H. unfold decodeReply in H.
    destruct (json_Unmarshal ext _) as [e | jr]; [discriminate H | ].
    apply (envelope_Ok jr j H).
  - destruct (loggable_cases ext msg) as [Hlog | (Hd & e & Hj)].
    + destruct (Encrypt ext msg (DoubleHashB ext password)) as [e | cipher] eqn:Henc.
      * destruct (SendEncrypt_unencrypted dev ext fuel msg password c e Hlog Henc)
          as (lg & _ & Hrun).
        rewrite Hrun in H. discriminate H.
      * destruct (SendEncrypt_run dev ext fuel msg password cipher c Hmu Hlog Henc)
          as (lg & _ & Hrun).
        rewrite Hrun in H. cbn [fst] in H. unfold encryptOutcome in H.
        destruct (fst (exchange dev fuel (base64_EncodeToString ext cipher) c))
          as [reply | e | p | ]; try discriminate H.
        destruct (decodeReply ext reply) as [jr | e | p | ]; try discriminate H.
        unfold finalReply in H.
        destruct (jr !! "ciphertext") as [[ | b | f | s | l | m'] | ];
          try apply (envelope_Ok jr j H).
        destruct (base64_DecodeString ext _) as [e | decodedMsg]; [discriminate H | ].
        destruct (Decrypt ext decodedMsg _) as [e | plainText]; [discriminate H | ].
        destruct (json_Unmarshal ext plainText) as [e | inner]; [discriminate H | ].
        apply (envelope_Ok inner j H).
    + rewrite (SendEncrypt_unlogged dev ext fuel msg password c e Hd Hj) in H.
      discriminate H.
Qed.

Lemma returned_data_has_no_error_object_witness :
  strErrReply !! "error" <> Some (VObject errInner).
Proof.
  assert (H : fst (SendEncrypt Replies (demo true) 1 pingText helloText
                     (answering [replyOf cipherText])) = Ok strErrReply)
    by (vm_compute; reflexivity).
  exact (returned_data_has_no_error_object Replies (demo true) 1 pingText helloText
           (answering [replyOf cipherText]) strErrReply eq_refl (or_intror H) errInner).
Defined.

(** ** Whether the loops return *)

Lemma int_range (b : byte) : 0 <= int b < 256.
Proof.
  unfold int. pose proof (Byte.to_N_bounded b) as H. lia.
Qed.

Section ReadProgress.
Context {St : Type} (dev : Device St) (size : Z) (Inv : St -> Prop).

Hypothesis progress :
  forall s : St, Inv s ->
    Inv (snd (dev_Read dev (Z.to_nat size) s))
    /\ forall read : list byte,
         fst (dev_Read dev (Z.to_nat size) s) = inr read -> length read <> 5%nat.

Lemma readCont_returns (fuel : nat) :
  forall (idx dataLen : Z) (data : list byte) (c : Communication St),
    Inv (device c) ->
    dataLen - idx <= Z.of_nat fuel ->
    fst (readCont dev fuel size idx dataLen data c) <> OutOfFuel.
Proof.
  induction fuel as [ | fuel IH]; intros idx dataLen data c HI Hfuel; cbn [readCont].
  - replace (idx <? dataLen) with false by (symmetry; apply Z.ltb_ge; lia). discriminate.
  - destruct (idx <? dataLen); [ | discriminate]. unfold bind, Read.
    destruct (size <? 0); [discriminate | ].
    destruct (progress (device c) HI) as [HI' Hlen].
    destruct (dev_Read dev (Z.to_nat size) (device c)) as [[e | read] s];
      [discriminate | ].
    cbn [fst snd] in HI', Hlen. specialize (Hlen read eq_refl).
    destruct (Z.of_nat (length read) <? 5) eqn:E; [discriminate | ].
    apply Z.ltb_ge in E. apply IH; [exact HI' | lia].
Qed.

End ReadProgress.

(** X19. [readFrame] returns, with a payload, an error or a panic, after
    at most 65542 reads of continuation reports when no read of the device
    yields exactly five bytes: every continuation report of six bytes or
    more advances the count towards the declared length, which is below
    65536. *)
Theorem readFrame_returns {St : Type} (dev : Device St) (Inv : St -> Prop)
    (fuel : nat) (c : Communication St) :
  (forall s : St, Inv s ->
     Inv (snd (dev_Read dev (Z.to_nat (usbReadReportSize c)) s))
     /\ forall read : list byte,
          fst (dev_Read dev (Z.to_nat (usbReadReportSize c)) s) = inr read ->
          length read <> 5%nat) ->
  Inv (device c) ->
  (Z.to_nat 65542 <= fuel)%nat ->
  fst (readFrame dev fuel c) <> OutOfFuel.
Proof.
  intros Hprog HI Hfuel. unfold readFrame, bind, Read.
  destruct (usbReadReportSize c <? 0) eqn:Es; [discriminate | ]. apply Z.ltb_ge in Es.
  destruct (Hprog (device c) HI) as [HI' _].
  destruct (dev_Read dev (Z.to_nat (usbReadReportSize c)) (device c)) as [[e | read] s];
    [discriminate | ].
  cbn [snd] in HI'.
  destruct (_ <? 7); [discriminate | ].
  destruct (negb (int (at_ read 0) =? 255) || _ || _ || _); [discriminate | ].
  destruct (negb _); [discriminate | ].
  apply (readCont_returns dev (usbReadReportSize c) Inv Hprog); [exact HI' | ].
  cbn [usbReadReportSize set_device].
  pose proof (int_range (at_ read 5)). pose proof (int_range (at_ read 6)). lia.
Qed.

Lemma readFrame_returns_witness :
  fst (readFrame Pipe (Z.to_nat 65542) (answering [replyOf cipherText; replyOf pingText]))
  <> OutOfFuel.
Proof.
  assert (Hprog : forall s : list (list byte),
             Forall (fun r => length r = 64%nat) s ->
             Forall (fun r => length r = 64%nat)
               (snd (dev_Read Pipe
                       (Z.to_nat (usbReadReportSize
                                    (answering [replyOf cipherText; replyOf pingText]))) s))
             /\ forall read : list byte,
                  fst (dev_Read Pipe
                         (Z.to_nat (usbReadReportSize
                                      (answering [replyOf cipherText; replyOf pingText]))) s)
                  = inr read ->
                  length read <> 5%nat).
  { intros s Hs. destruct s as [ | r s]; cbn.
    - split; [constructor | discriminate].
    - inversion Hs as [ | r' s' Hr Hs']; subst. split; [exact Hs' | ].
      intros read [= <-]. rewrite length_take, Hr. discriminate. }
  assert (HI : Forall (fun r => length r = 64%nat)
                 (device (answering [replyOf cipherText; replyOf pingText])))
    by (repeat constructor).
  exact (readFrame_returns Pipe (Forall (fun r => length r = 64%nat)) (Z.to_nat 65542)
           (answering [replyOf cipherText; replyOf pingText]) Hprog HI (le_n _)).
Defined.

Section ReadStall.
Context {St : Type} (dev : Device St) (size : Z) (Inv : St -> Prop).

Hypothesis stall :
  forall s : St, Inv s ->
    Inv (snd (dev_Read dev (Z.to_nat size) s))
    /\ exists read : list byte,
         fst (dev_Read dev (Z.to_nat size) s) = inr read /\ length read = 5%nat.

Lemma readCont_stalls (fuel : nat) :
  forall (idx dataLen : Z) (data : list byte) (c : Communication St),
    0 <= size ->
    Inv (device c) ->
    idx < dataLen ->
    fst (readCont dev fuel size idx dataLen data c) = OutOfFuel.
Proof.
  induction fuel as [ | fuel IH]; intros idx dataLen data c Hsize HI Hidx; cbn [readCont];
    replace (idx <? dataLen) with true by (symmetry; apply Z.ltb_lt; lia);
    [reflexivity | ].
  unfold bind, Read.
  replace (size <? 0) with false by (symmetry; apply Z.ltb_ge; lia).
  destruct (stall (device c) HI) as [HI' (read & Hread & Hlen)].
  destruct (dev_Read dev (Z.to_nat size) (device c)) as [r s]. cbn [fst snd] in HI', Hread.
  subst r. rewrite Hlen. cbn [Z.of_nat Pos.of_succ_nat Pos.succ Z.ltb Z.compare Pos.compare
                               Pos.compare_cont].
  apply IH; [exact Hsize | exact HI' | cbn; lia].
Qed.

End ReadStall.

(** X20. A continuation report of exactly five bytes is accepted and adds
    nothing to the count of bytes received. After an accepted init report
    that declares more data than the first read can hold, [readFrame]
    never returns on a device that goes on answering with such reports:
    whatever the number of reads allowed, the loop is still running. *)
Theorem readFrame_stalls {St : Type} (dev : Device St) (Inv : St -> Prop)
    (c : Communication St) (read : list byte) (s : St) :
  0 <= usbReadReportSize c ->
  (forall s : St, Inv s ->
     Inv (snd (dev_Read dev (Z.to_nat (usbReadReportSize c)) s))
     /\ exists read : list byte,
          fst (dev_Read dev (Z.to_nat (usbReadReportSize c)) s) = inr read
          /\ length read = 5%nat) ->
  dev_Read dev (Z.to_nat (usbReadReportSize c)) (device c) = (inr read, s) ->
  Inv s ->
  (7 <= length read)%nat ->
  take 5 read = ["255"; "000"; "000"; "000"; "193"]%byte ->
  usbReadReportSize c - 7 < int (at_ read 5) * 256 + int (at_ read 6) ->
  forall fuel : nat, fst (readFrame dev fuel c) = OutOfFuel.
Proof.
  intros Hsize Hstall Hread HI Hlen Hhdr Hdecl fuel. unfold readFrame, bind, Read.
  replace (usbReadReportSize c <? 0) with false by (symmetry; apply Z.ltb_ge; lia).
  rewrite Hread.
  replace (Z.of_nat (length read) <? 7) with false by (symmetry; apply Z.ltb_ge; lia).
  destruct read as [ | b0 [ | b1 [ | b2 [ | b3 [ | b4 rest]]]]]; try (simpl in Hlen; lia).
  cbn in Hhdr. injection Hhdr as -> -> -> -> ->.
  replace (negb (int (at_ ("255"%byte :: "000"%byte :: "000"%byte :: "000"%byte
                            :: "193"%byte :: rest) 0) =? 255) || _ || _ || _)
    with false by reflexivity.
  replace (negb (int (at_ ("255"%byte :: "000"%byte :: "000"%byte :: "000"%byte
                            :: "193"%byte :: rest) 4) =? hwwCMD))
    with false by reflexivity.
  apply (readCont_stalls dev (usbReadReportSize c) Inv Hstall); assumption.
Qed.

Lemma readFrame_stalls_witness :
  fst (readFrame (Stalling init100) 1000 (NewCommunication false 64 64)) = OutOfFuel.
Proof.
  assert (Hstall : forall s : bool, s = true ->
             snd (dev_Read (Stalling init100)
                    (Z.to_nat (usbReadReportSize (NewCommunication false 64 64))) s) = true
             /\ exists read : list byte,
                  fst (dev_Read (Stalling init100)
                         (Z.to_nat (usbReadReportSize (NewCommunication false 64 64))) s)
                  = inr read
                  /\ length read = 5%nat).
  { intros s ->. split; [reflexivity | ]. eexists. split; reflexivity. }
  assert (Hdecl : usbReadReportSize (NewCommunication false 64 64) - 7
                  < int (at_ init100 5) * 256 + int (at_ init100 6))
    by (vm_compute; reflexivity).
  assert (Hlen : (7 <= length init100)%nat) by (vm_compute; lia).
  exact (readFrame_stalls (Stalling init100) (fun s => s = true)
           (NewCommunication false 64 64) init100 true
           ltac:(vm_compute; discriminate) Hstall eq_refl eq_refl Hlen eq_refl Hdecl
           1000%nat).
Defined.

Section BootProgress.
Context {St : Type} (dev : Device St) (ext : Externals) (Inv : St -> Prop).

Hypothesis written_kept :
  forall (buf : list byte) (s : St), Inv s -> Inv (snd (dev_Write dev buf s)).

Lemma bootWrite_returns (fuel : nat) :
  forall (written : Z) (paddedMsg : list byte) (c : Communication St),
    1 <= usbWriteReportSize c ->
    written + Z.of_nat (length paddedMsg) = sendLen ->
    sendLen - written <= Z.of_nat fuel ->
    Inv (device c) ->
    fst (bootWrite dev ext fuel written paddedMsg c) <> OutOfFuel
    /\ Inv (device (snd (bootWrite dev ext fuel written paddedMsg c)))
    /\ usbReadReportSize (snd (bootWrite dev ext fuel written paddedMsg c))
       = usbReadReportSize c.
Proof.
  induction fuel as [ | fuel IH]; intros written paddedMsg c Hn Hsum Hfuel HI;
    cbn [bootWrite].
  - replace (written <? sendLen) with false by (symmetry; apply Z.ltb_ge; lia).
    cbn. split; [discriminate | ]. split; [exact HI | reflexivity].
  - destruct (written <? sendLen) eqn:E;
      [ | cbn; split; [discriminate | ]; split; [exact HI | reflexivity]].
    apply Z.ltb_lt in E. unfold Next.
    replace (usbWriteReportSize c <? 0) with false by (symmetry; apply Z.ltb_ge; lia).
    unfold bind, Write.
    pose proof (written_kept
                  (if negb (windows ext)
                   then "000"%byte :: take (Z.to_nat (usbWriteReportSize c)) paddedMsg
                   else take (Z.to_nat (usbWriteReportSize c)) paddedMsg)
                  (device c) HI) as HI'.
    destruct (dev_Write dev _ (device c)) as [[e | ] s]; cbn [fst snd] in HI' |- *.
    + split; [discriminate | ]. split; [exact HI' | reflexivity].
    + destruct (IH (written + Z.of_nat (length (take (Z.to_nat (usbWriteReportSize c))
                                                    paddedMsg)))
                  (drop (Z.to_nat (usbWriteReportSize c)) paddedMsg) (set_device c s))
        as (H1 & H2 & H3); cbn [usbWriteReportSize set_device device]; try assumption.
      * rewrite length_take, length_drop. lia.
      * rewrite length_take. lia.
      * split; [exact H1 | ]. split; [exact H2 | exact H3].
Qed.

Variable size : Z.

Hypothesis read_progress :
  forall s : St, Inv s ->
    Inv (snd (dev_Read dev (Z.to_nat size) s))
    /\ forall read : list byte,
         fst (dev_Read dev (Z.to_nat size) s) = inr read -> read <> [].

Lemma bootRead_returns (fuel : nat) :
  forall (read : list byte) (c : Communication St),
    usbReadReportSize c = size ->
    readLen - Z.of_nat (length read) <= Z.of_nat fuel ->
    Inv (device c) ->
    fst (bootRead dev fuel read c) <> OutOfFuel.
Proof.
  induction fuel as [ | fuel IH]; intros read c Hsize Hfuel HI; cbn [bootRead].
  - replace (Z.of_nat (length read) <? readLen) with false
      by (symmetry; apply Z.ltb_ge; lia).
    discriminate.
  - destruct (Z.of_nat (length read) <? readLen); [ | discriminate].
    unfold bind, Read. rewrite Hsize. destruct (size <? 0); [discriminate | ].
    destruct (read_progress (device c) HI) as [HI' Hne].
    destruct (dev_Read dev _ (device c)) as [[e | currentRead] s]; [discriminate | ].
    cbn [fst snd] in HI', Hne. specialize (Hne currentRead eq_refl).
    apply IH; [exact Hsize | | exact HI'].
    rewrite length_app. destruct currentRead; [congruence | cbn [length]; lia].
Qed.

End BootProgress.

(** X21. With the mutex free and a write size of at least 1,
    [SendBootloader] returns, with a response, an error or a panic, after
    at most 4098 packets and 256 reads when no read of the device is
    empty: every packet takes at least one byte of the padded request and
    every read adds at least one byte to the response. *)
Theorem SendBootloader_returns {St : Type} (dev : Device St) (ext : Externals)
    (Inv : St -> Prop) (fuel : nat) (msg : list byte) (c : Communication St) :
  mutex c = false ->
  1 <= usbWriteReportSize c ->
  (forall (buf : list byte) (s : St), Inv s -> Inv (snd (dev_Write dev buf s))) ->
  (forall s : St, Inv s ->
     Inv (snd (dev_Read dev (Z.to_nat (usbReadReportSize c)) s))
     /\ forall read : list byte,
          fst (dev_Read dev (Z.to_nat (usbReadReportSize c)) s) = inr read ->
          read <> []) ->
  Inv (device c) ->
  (Z.to_nat 4098 <= fuel)%nat ->
  fst (SendBootloader dev ext fuel msg c) <> OutOfFuel.
Proof.
  intros Hmu Hn Hw Hr HI Hfuel.
  rewrite (SendBootloader_unlocked dev ext fuel msg c Hmu). unfold defer.
  destruct (sendLen <? Z.of_nat (length msg)) eqn:E; [discriminate | ].
  apply Z.ltb_ge in E. unfold bind.
  destruct (bootWrite_returns dev ext Inv Hw fuel 0
              (msg ++ replicate (Z.to_nat (sendLen - Z.of_nat (length msg))) "000"%byte)
              (set_mutex c true)) as (H1 & H2 & Hsz).
  - exact Hn.
  - rewrite length_app, length_replicate. lia.
  - unfold sendLen. lia.
  - exact HI.
  - destruct (bootWrite dev ext fuel 0 _ (set_mutex c true)) as [[[] | e | p | ] c1];
      cbn [fst snd] in H1, H2, Hsz |- *; try discriminate; [ | congruence].
    pose proof (bootRead_returns dev Inv (usbReadReportSize c) Hr fuel [] c1) as H3.
    destruct (bootRead dev fuel [] c1) as [[read | e | p | ] c2];
      cbn [fst] in H3 |- *; try discriminate.
    apply H3; [exact Hsz | unfold readLen; cbn [length]; lia | exact H2].
Qed.

Lemma SendBootloader_returns_witness :
  fst (SendBootloader Replies (demo false) (Z.to_nat 4098) pingText (answering [bootReply]))
  <> OutOfFuel.
Proof.
  assert (Hr : forall s : list (list byte),
             Forall (fun r => r <> []) s ->
             Forall (fun r => r <> [])
               (snd (dev_Read Replies
                       (Z.to_nat (usbReadReportSize (answering [bootReply]))) s))
             /\ forall read : list byte,
                  fst (dev_Read Replies
                         (Z.to_nat (usbReadReportSize (answering [bootReply]))) s)
                  = inr read ->
                  read <> []).
  { intros s Hs. destruct s as [ | r s]; cbn.
    - split; [constructor | discriminate].
    - inversion Hs as [ | r' s' Hne Hs']; subst. split; [exact Hs' | ].
      intros read [= <-]. destruct r; [congruence | discriminate]. }
  assert (HI : Forall (fun r : list byte => r <> []) (device (answering [bootReply])))
    by (repeat constructor; discriminate).
  exact (SendBootloader_returns Replies (demo false) (Forall (fun r => r <> []))
           (Z.to_nat 4098) pingText (answering [bootReply])
           eq_refl ltac:(vm_compute; discriminate) (fun _ _ H => H) Hr HI (le_n _)).
Defined.

Lemma bootWrite_stalls {St : Type} (dev : Device St) (ext : Externals) (fuel : nat) :
  (forall (buf : list byte) (s : St), fst (dev_Write dev buf s) = None) ->
  forall (paddedMsg : list byte) (c : Communication St),
    usbWriteReportSize c = 0 ->
    fst (bootWrite dev ext fuel 0 paddedMsg c) = OutOfFuel
    /\ mutex (snd (bootWrite dev ext fuel 0 paddedMsg c)) = mutex c.
Proof.
  intros Hw. induction fuel as [ | fuel IH]; intros paddedMsg c Hn; cbn [bootWrite];
    replace (0 <? sendLen) with true by reflexivity; [split; reflexivity | ].
  rewrite Hn. unfold Next. cbn [Z.ltb Z.compare Z.to_nat take drop length Z.of_nat Z.add].
  unfold bind, Write.
  pose proof (Hw (if negb (windows ext) then ["000"%byte] else []) (device c)) as Hnone.
  destruct (dev_Write dev _ (device c)) as [err s]. cbn [fst] in Hnone. subst err.
  apply (IH paddedMsg (set_device c s)). exact Hn.
Qed.

(** X22. With a write size of 0 every packet of [SendBootloader] takes no
    byte of the request, so the count of bytes written stays at 0: on a
    device that accepts every write the loop never ends, and the mutex
    stays held. *)
Theorem SendBootloader_zero_write_size {St : Type} (dev : Device St) (ext : Externals)
    (msg : list byte) (c : Communication St) :
  mutex c = false ->
  usbWriteReportSize c = 0 ->
  Z.of_nat (length msg) <= 4098 ->
  (forall (buf : list byte) (s : St), fst (dev_Write dev buf s) = None) ->
  forall fuel : nat,
    fst (SendBootloader dev ext fuel msg c) = OutOfFuel
    /\ mutex (snd (SendBootloader dev ext fuel msg c)) = true.
Proof.
  intros Hmu Hn Hlen Hw fuel.
  rewrite (SendBootloader_unlocked dev ext fuel msg c Hmu). unfold defer.
  replace (sendLen <? Z.of_nat (length msg)) with false
    by (symmetry; apply Z.ltb_ge; unfold sendLen; lia).
  unfold bind.
  destruct (bootWrite_stalls dev ext fuel Hw
              (msg ++ replicate (Z.to_nat (sendLen - Z.of_nat (length msg))) "000"%byte)
              (set_mutex c true) Hn) as [H1 H2].
  destruct (bootWrite dev ext fuel 0 _ (set_mutex c true)) as [r c1].
  cbn [fst snd] in H1, H2 |- *. subst r. split; [reflexivity | exact H2].
Qed.

Lemma SendBootloader_zero_write_size_witness :
  fst (SendBootloader Replies (demo false) 1000 pingText
         (NewCommunication [bootReply] 0 64)) = OutOfFuel
  /\ mutex (snd (SendBootloader Replies (demo false) 1000 pingText
                   (NewCommunication [bootReply] 0 64))) = true.
Proof.
  exact (SendBootloader_zero_write_size Replies (demo false) pingText
           (NewCommunication [bootReply] 0 64) eq_refl eq_refl
           ltac:(vm_compute; discriminate) (fun _ _ => eq_refl) 1000%nat).
Defined.

(** ** What censoring keeps *)

Lemma hideValue_idempotent (v : value) : hideValue (hideValue v) = hideValue v.
Proof.
  remember (depthSize v) as size eqn:Hsize. revert v Hsize.
  induction size as [size IH] using lt_wf_ind. intros v ->.
  destruct v as [ | b | f | s | l | m]; try reflexivity.
  cbn [hideValue]. f_equal. rewrite <- map_fmap_compose. apply map_fmap_ext.
  intros k v Hk. cbn. apply (IH (depthSize v)); [ | reflexivity].
  now apply (depthSize_lookup m k).
Qed.

Lemma hideValue_sameKeys (v v' : value) : sameKeys v v' -> hideValue v = hideValue v'.
Proof.
  induction 1 as [v v' Hv Hv' | m m' Hdom Hsame IH].
  - destruct v as [ | b | f | s | l | m]; try (now destruct (Hv m));
      (destruct v' as [ | b' | f' | s' | l' | m']; try (now destruct (Hv' m')); reflexivity).
  - cbn [hideValue]. f_equal. apply map_eq. intros k. rewrite !lookup_fmap.
    destruct (m !! k) as [a | ] eqn:Ha; destruct (m' !! k) as [a' | ] eqn:Ha'; cbn.
    + f_equal. exact (IH k a a' Ha Ha').
    + apply elem_of_dom_2 in Ha. rewrite Hdom in Ha. apply elem_of_dom in Ha as [x Hx].
      congruence.
    + apply elem_of_dom_2 in Ha'. rewrite <- Hdom in Ha'. apply elem_of_dom in Ha' as [x Hx].
      congruence.
    + reflexivity.
Qed.

Lemma sameKeys_hideValue (v : value) :
  forall v' : value, hideValue v = hideValue v' -> sameKeys v v'.
Proof.
  remember (depthSize v) as size eqn:Hsize. revert v Hsize.
  induction size as [size IH] using lt_wf_ind. intros v -> v' H.
  destruct v as [ | b | f | s | l | m];
    try (destruct v' as [ | b' | f' | s' | l' | m']; try discriminate H;
         apply sameKeys_leaf; discriminate).
  destruct v' as [ | b' | f' | s' | l' | m']; try discriminate H.
  cbn [hideValue] in H. injection H as H. apply sameKeys_object.
  - rewrite <- (dom_fmap_L hideValue m), <- (dom_fmap_L hideValue m'). now rewrite H.
  - intros k a a' Ha Ha'. apply (IH (depthSize a)).
    + now apply (depthSize_lookup m k).
    + reflexivity.
    + assert (Hk : (hideValue <$> m) !! k = (hideValue <$> m') !! k) by now rewrite H.
      rewrite !lookup_fmap, Ha, Ha' in Hk. cbn in Hk. now injection Hk.
Qed.

(** X23. Censoring a censored command changes nothing: [hideValues] is
    idempotent. *)
Theorem hideValues_idempotent (cmd : gmap string value) :
  hideValues (hideValues cmd) = hideValues cmd.
Proof.
  unfold hideValues. rewrite <- map_fmap_compose. apply map_fmap_ext.
  intros k v _. apply hideValue_idempotent.
Qed.

(** X24. Two commands are censored to the same object exactly when they
    have the same keys at the same places in their nested objects: the
    censored command shows the keys and the nesting of objects, and nothing
    of what stands at a key that holds a scalar or an array. *)
Theorem hideValues_sameKeys (cmd cmd' : gmap string value) :
  hideValues cmd = hideValues cmd' <-> sameKeys (VObject cmd) (VObject cmd').
Proof.
  split.
  - intros H. apply sameKeys_hideValue. cbn [hideValue]. f_equal. exact H.
  - intros H. apply hideValue_sameKeys in H. cbn [hideValue] in H. now injection H.
Qed.



(** ** A held mutex *)

Lemma SendEncrypt_blocked {St : Type} (dev : Device St) (ext : Externals)
    (fuel : nat) (msg password cipher : list byte) (c : Communication St) :
  mutex c = true ->
  loggable ext msg ->
  Encrypt ext msg (DoubleHashB ext password) = inr cipher ->
  exists lg : list Entry,
    SendEncrypt dev ext fuel msg password c = (OutOfFuel, with_env c true lg).
Proof.
  intros Hmu Hlog Henc. unfold SendEncrypt. unfold bind at 1.
  destruct (logCensoredCmd_loggable ext msg false c Hlog) as (lg0 & _ & ->).
  rewrite Henc. unfold bind at 1, mapErr.
  destruct (SendPlain_blocked dev ext fuel (base64_EncodeToString ext cipher)
              (with_env c (mutex c) lg0) Hmu) as [lg ->].
  exists lg. reflexivity.
Qed.

(** X26. While the mutex is held no operation reaches the device:
    [SendBootloader] and [SendPlain] wait for it without a call on the
    device, and [SendEncrypt] either waits in the same way or has returned
    an error before it came to sending. None of them returns a result. *)
Theorem held_mutex_blocks {St : Type} (dev : Device St) (ext : Externals)
    (fuel : nat) (msg password : list byte) (c : Communication St) :
  mutex c = true ->
  (fst (SendBootloader dev ext fuel msg c) = OutOfFuel
   /\ device (snd (SendBootloader dev ext fuel msg c)) = device c)
  /\ (fst (SendPlain dev ext fuel msg c) = OutOfFuel
      /\ device (snd (SendPlain dev ext fuel msg c)) = device c)
  /\ ((fst (SendEncrypt dev ext fuel msg password c) = OutOfFuel
       \/ exists e, fst (SendEncrypt dev ext fuel msg password c) = Err e)
      /\ device (snd (SendEncrypt dev ext fuel msg password c)) = device c).
Proof.
  intros Hmu. split; [ | split].
  - rewrite (SendBootloader_blocked dev ext fuel msg c Hmu). split; reflexivity.
  - destruct (SendPlain_blocked dev ext fuel msg c Hmu) as [lg ->]. split; reflexivity.
  - destruct (loggable_cases ext msg) as [Hlog | (Hd & e & Hj)].
    + destruct (Encrypt ext msg (DoubleHashB ext password)) as [e | cipher] eqn:Henc.
      * destruct (SendEncrypt_unencrypted dev ext fuel msg password c e Hlog Henc)
          as (lg & _ & ->).
        split; [right; eexists; reflexivity | reflexivity].
      * destruct (SendEncrypt_blocked dev ext fuel msg password cipher c Hmu Hlog Henc)
          as [lg ->].
        split; [left; reflexivity | reflexivity].
    + rewrite (SendEncrypt_unlogged dev ext fuel msg password c e Hd Hj).
      split; [right; eexists; reflexivity | reflexivity].
Qed.

Lemma held_mutex_blocks_witness :
  fst (SendPlain (Recorder Replies) (demo true) 1 pingText
         (set_mutex (recordedReplies 64) true)) = OutOfFuel
  /\ device (snd (SendPlain (Recorder Replies) (demo true) 1 pingText
                    (set_mutex (recordedReplies 64) true)))
     = device (set_mutex (recordedReplies 64) true).
Proof.
  exact (proj1 (proj2 (held_mutex_blocks (Recorder Replies) (demo true) 1 pingText helloText
                         (set_mutex (recordedReplies 64) true) eq_refl))).
Defined.
